(** * The REST request pipeline of tempest (rest.go)

    A shallow embedding of [BaseRestClient.Request],
    [BaseRestClient.RequestWithFiles] and [BaseRestClient.handleRequest]:
    payload encoding, the retry loop and the rate-limit gate
    ([sync.RWMutex] + [lockedTo]).

    The Go code is effectful (clock, sleeps, a mutex, network I/O).  The
    embedding keeps the code as a program over an explicit effect signature
    ([Prog]); one handler gives the meaning of every effect on a [State], and
    two drivers run programs: [run] (one goroutine) and [pstep] (a pool of
    goroutines sharing one client). *)

From Stdlib Require Import ZArith List String Ascii Bool Lia Arith.
From Stdlib Require Import SpecFloat DecimalString Relations.
Import ListNotations.

Local Open Scope string_scope.
Local Open Scope Z_scope.

(* ------------------------------------------------------------------------- *)
(** ** Byte strings *)

(** Go's [[]byte] and [string] values are both modelled as [string]
    (a sequence of 8-bit characters). *)

Module Bytes.

Definition dquote : string := String (ascii_of_nat 34) EmptyString.
Definition CRLF : string :=
  String (ascii_of_nat 13) (String (ascii_of_nat 10) EmptyString).
Definition LF : string := String (ascii_of_nat 10) EmptyString.

Fixpoint drop (n : nat) (s : string) : string :=
  match n, s with
  | O, _ => s
  | S _, EmptyString => EmptyString
  | S n', String _ s' => drop n' s'
  end.

(** [strings.HasPrefix]. *)
Definition HasPrefix (s p : string) : bool := String.prefix p s.

(** [strconv.Itoa] on a non-negative index. *)
Definition Itoa (n : nat) : string := NilEmpty.string_of_uint (Nat.to_uint n).

(** [bytes.Replace(s, old, new, -1)] for a non-empty [old]: every
    non-overlapping occurrence of [old], found left to right, is replaced by
    [new].  [skip] counts the bytes of the current occurrence still to be
    dropped. *)
Fixpoint replace_from (old new : string) (skip : nat) (s : string) : string :=
  match s with
  | EmptyString => EmptyString
  | String c s' =>
      match skip with
      | S k => replace_from old new k s'
      | O =>
          if String.prefix old s
          then new ++ replace_from old new (String.length old - 1) s'
          else String c (replace_from old new 0 s')
      end
  end.

(** [utf8.DecodeRune]: the number of bytes of the UTF-8 sequence at the head
    of [s].  A byte that starts no well-formed sequence, or whose sequence
    is cut short or continued by a byte out of range, counts as a sequence
    of one byte. *)
Definition byteOf (c : ascii) : Z := Z.of_N (N_of_ascii c).

Definition continuation (lo hi : Z) (c : ascii) : bool :=
  (lo <=? byteOf c) && (byteOf c <=? hi).

Definition runeWidth (s : string) : nat :=
  match s with
  | EmptyString => 0
  | String c0 s1 =>
      let p0 := byteOf c0 in
      (* the size the first byte announces and the range of the second *)
      let '(size, lo, hi) :=
        if p0 <? 128 then (1, 0, 0)                    (* 0..127 *)
        else if p0 <? 194 then (1, 0, 0)               (* 128..193: invalid *)
        else if p0 <? 224 then (2, 128, 191)           (* 194..223 *)
        else if p0 =? 224 then (3, 160, 191)           (* 224 *)
        else if p0 =? 237 then (3, 128, 159)           (* 237 *)
        else if p0 <? 240 then (3, 128, 191)           (* 225..236, 238, 239 *)
        else if p0 =? 240 then (4, 144, 191)           (* 240 *)
        else if p0 <? 244 then (4, 128, 191)           (* 241..243 *)
        else if p0 =? 244 then (4, 128, 143)           (* 244 *)
        else (1, 0, 0) in                              (* 245..255: invalid *)
      if size =? 1 then 1%nat
      else
        match s1 with
        | EmptyString => 1%nat
        | String c1 s2 =>
            if negb (continuation lo hi c1) then 1%nat
            else if size =? 2 then 2%nat
            else
              match s2 with
              | EmptyString => 1%nat
              | String c2 s3 =>
                  if negb (continuation 128 191 c2) then 1%nat
                  else if size =? 3 then 3%nat
                  else
                    match s3 with
                    | EmptyString => 1%nat
                    | String c3 _ =>
                        if continuation 128 191 c3 then 4%nat else 1%nat
                    end
              end
        end
  end.

(** With an empty [old] Go inserts [new] before every UTF-8 sequence and at
    the end.  [skip] counts the bytes of the current sequence still to be
    copied. *)
Fixpoint intersperse_from (new : string) (skip : nat) (s : string) : string :=
  match s with
  | EmptyString => new
  | String c s' =>
      match skip with
      | S k => String c (intersperse_from new k s')
      | O => new ++ String c (intersperse_from new (runeWidth s - 1) s')
      end
  end.

Definition intersperse (new s : string) : string := intersperse_from new 0 s.

Definition Replace (s old new : string) : string :=
  match old with
  | EmptyString => intersperse new s
  | String _ _ => replace_from old new 0 s
  end.

(** [bytes.Contains(t, old)]. *)
Fixpoint Contains (t old : string) : bool :=
  String.prefix old t
  || match t with
     | EmptyString => false
     | String _ t' => Contains t' old
     end.

(** [bytes.IndexByte(s, c) >= 0]. *)
Fixpoint hasByte (c : ascii) (s : string) : bool :=
  match s with
  | EmptyString => false
  | String c' s' => Ascii.eqb c c' || hasByte c s'
  end.

(** No byte of [a] is a byte of [b]. *)
Fixpoint disjoint (a b : string) : bool :=
  match a with
  | EmptyString => true
  | String c a' => negb (hasByte c b) && disjoint a' b
  end.

End Bytes.
Import Bytes.

(* ------------------------------------------------------------------------- *)
(** ** Fixed-width arithmetic, time and float32 *)

(** [uint8] arithmetic is computed modulo 2^8. *)
Definition uint8 (z : Z) : Z := z mod 256.

(** [int64] arithmetic wraps around in two's complement. *)
Definition int64 (z : Z) : Z := (z + 2 ^ 63) mod 2 ^ 64 - 2 ^ 63.

(** [time.Duration]: an int64 count of nanoseconds. *)
Definition Duration := Z.
Definition Microsecond : Duration := 1000.
Definition Second : Duration := 1000000000.

(** [time.Time]: an instant, as nanoseconds since the zero Time.  [time.Time{}]
    is the zero instant. *)
Definition Time := Z.
Definition zeroTime : Time := 0.
Definition IsZero (t : Time) : bool := t =? 0.

(** IEEE-754 binary32 ([float32]): 24 bits of precision, emax = 128. *)
Definition float32 := spec_float.
Definition f32_add : float32 -> float32 -> float32 := SFadd 24 128.
Definition f32_of_Z (z : Z) : float32 := binary_normalize 24 128 z 0 false.

(** The conversion [time.Duration(f)] of a float32: the fraction is discarded
    (truncation towards zero).  For NaN, infinities and values outside int64
    Go leaves the result to the implementation; the model yields the most
    negative int64 in all these cases, as amd64 does. *)
Definition f32_to_int64 (f : float32) : Z :=
  match f with
  | S754_zero _ => 0
  | S754_finite s m e =>
      let mag := if 0 <=? e then Z.pos m * 2 ^ e else Z.pos m / 2 ^ (- e) in
      let v := if s then - mag else mag in
      if (- 2 ^ 63 <=? v) && (v <? 2 ^ 63) then v else - 2 ^ 63
  | S754_infinity _ | S754_nan => - 2 ^ 63
  end.

(* ------------------------------------------------------------------------- *)
(** ** Data of the pipeline *)

(** [rateLimitError]: the JSON shape of a 429 body. *)
Record rateLimitError := {
  Message : string;
  RetryAfter : float32;
  Global : bool
}.

(** [rateLimitError{}]. *)
Definition rateLimitError_zero : rateLimitError :=
  {| Message := ""; RetryAfter := S754_zero false; Global := false |}.

(** What [http.NewRequest] builds and [HTTPClient.Do] is given.  [rqBody]
    is the byte sequence the body reader still has to offer when the request
    is built ([None]: no body). *)
Record HttpRequest := {
  rqMethod : string;
  rqURL : string;
  rqHeader : list (string * string);
  rqBody : option string
}.

(** [*http.Response]: status code, status line, and what reading [res.Body]
    to the end gives ([inl] the bytes, [inr] a read error). *)
Record Response := {
  StatusCode : Z;
  Status : string;
  Body : string + string
}.

(** The network's answer to one [HTTPClient.Do]: how long the call took, how
    many bytes of the request body the transport read, and either a
    transport error ([inl]) or a response ([inr]). *)
Record DoReply := {
  took : Duration;
  consumed : nat;
  result : string + Response
}.

(** A [*bytes.Reader] / [*bytes.Buffer] used as request body: the bytes and
    the read offset.  The same object is handed to every attempt, so reads by
    one attempt are seen by the next. *)
Record Reader := {
  data : string;
  off : nat
}.

Definition NewReader (b : string) : Reader := {| data := b; off := 0 |}.

(** [Len()]: the unread part. *)
Definition unread (r : Reader) : string := drop (off r) (data r).

Definition advance (n : nat) (r : Reader) : Reader :=
  {| data := data r; off := off r + Nat.min n (String.length (unread r)) |}.

(** [*os.File] as the encoder sees it: [file.Name()], the result of
    [file.Stat()] ([inl] the base name, [inr] an error), the bytes [io.Copy]
    reads and the error, if any, that ends the copy. *)
Record File := {
  Name : string;
  Stat : string + string;
  Contents : string;
  CopyErr : option string
}.

(** [sync.RWMutex]: the number of read locks held and whether the write lock
    is held. *)
Record RWMutex := {
  readers : nat;
  writer : bool
}.

(* ------------------------------------------------------------------------- *)
(** ** Effects and programs *)

Inductive Effect : Type -> Type :=
| ReadLockedTo : Effect Time                    (* rest.lockedTo *)
| WriteLockedTo (t : Time) : Effect unit        (* rest.lockedTo = t *)
| TimeNow : Effect Time                         (* time.Now() *)
| TimeSleep (d : Duration) : Effect unit        (* time.Sleep(d) *)
| MuRLock : Effect unit                         (* rest.mu.RLock() *)
| MuRUnlock : Effect unit                       (* rest.mu.RUnlock() *)
| MuLock : Effect unit                          (* rest.mu.Lock() *)
| MuUnlock : Effect unit                        (* rest.mu.Unlock() *)
| ClientDo (rq : HttpRequest) : Effect DoReply  (* rest.HTTPClient.Do(rq) *)
| IoReadAll (b : string + string) : Effect (string + string)
                                                (* io.ReadAll(res.Body) *)
| RandomBoundary : Effect string.               (* multipart.NewWriter *)

Inductive Prog (A : Type) : Type :=
| Ret (a : A)
| Panic (msg : string)
| Vis {X : Type} (e : Effect X) (k : X -> Prog A).

Arguments Ret {A} a.
Arguments Panic {A} msg.
Arguments Vis {A X} e k.

Fixpoint bind {A B : Type} (m : Prog A) (f : A -> Prog B) : Prog B :=
  match m with
  | Ret a => f a
  | Panic msg => Panic msg
  | Vis e k => Vis e (fun x => bind (k x) f)
  end.

Definition trigger {X : Type} (e : Effect X) : Prog X := Vis e Ret.

Declare Scope prog_scope.
Delimit Scope prog_scope with prog.
Notation "x <- m ;; k" := (bind m (fun x => k))
  (at level 61, m at next level, right associativity) : prog_scope.
Notation "m ;; k" := (bind m (fun _ => k))
  (at level 61, right associativity) : prog_scope.
Local Open Scope prog_scope.

(* ------------------------------------------------------------------------- *)
(** ** The state the effects act on *)

Inductive Event :=
| EvReadLockedTo (t : Time)
| EvWriteLockedTo (t : Time)
| EvNow (t : Time)
| EvSleep (d : Duration)
| EvRLock
| EvRUnlock
| EvLock
| EvUnlock
| EvDo (rq : HttpRequest) (reply : DoReply)
| EvReadAll (b : string + string)
| EvBoundary (b : string).

(** The mutable part: the clock, the gate ([mu], [lockedTo]), the number of
    [Do] calls made so far and the log of effects performed, oldest first. *)
Record State := {
  now : Time;
  lockedTo : Time;
  mu : RWMutex;
  doCount : nat;
  trace : list Event
}.

(** The environment: the network's answer to the n-th [Do] and the boundary
    the random generator produces. *)
Record Env := {
  network : nat -> DoReply;
  boundary : string
}.

Inductive Wait := WaitRLock | WaitLock.

Inductive Reply (X : Type) : Type :=
| Answer (x : X) (s : State)
| MustWait (w : Wait)
| Fatal (msg : string).

Arguments Answer {X} x s.
Arguments MustWait {X} w.
Arguments Fatal {X} msg.

Definition log (ev : Event) (s : State) : State :=
  {| now := now s; lockedTo := lockedTo s; mu := mu s;
     doCount := doCount s; trace := trace s ++ [ev] |}.

Definition set_mu (m : RWMutex) (s : State) : State :=
  {| now := now s; lockedTo := lockedTo s; mu := m;
     doCount := doCount s; trace := trace s |}.

Definition set_lockedTo (t : Time) (s : State) : State :=
  {| now := now s; lockedTo := t; mu := mu s;
     doCount := doCount s; trace := trace s |}.

Definition elapse (d : Duration) (s : State) : State :=
  {| now := now s + Z.max 0 d; lockedTo := lockedTo s; mu := mu s;
     doCount := doCount s; trace := trace s |}.

Definition count_do (s : State) : State :=
  {| now := now s; lockedTo := lockedTo s; mu := mu s;
     doCount := S (doCount s); trace := trace s |}.

(** The meaning of one effect.  [RLock] waits while the write lock is held;
    [Lock] waits while any lock is held, read locks of the caller included
    (the mutex is not reentrant and does not know its holders); unlocking a
    mutex that is not locked is a fatal error of the Go runtime.  Go also
    makes new [RLock] calls wait as soon as a [Lock] is pending; the model
    leaves that out, which only adds executions: a goroutine that waits here
    waits in Go too, and in the executions shown below no [RLock] is taken
    after a [Lock] has begun to wait. *)
Definition handle (env : Env) {X : Type} (e : Effect X) (s : State) : Reply X :=
  match e in Effect X return Reply X with
  | ReadLockedTo => Answer (lockedTo s) (log (EvReadLockedTo (lockedTo s)) s)
  | WriteLockedTo t => Answer tt (log (EvWriteLockedTo t) (set_lockedTo t s))
  | TimeNow => Answer (now s) (log (EvNow (now s)) s)
  | TimeSleep d => Answer tt (log (EvSleep d) (elapse d s))
  | MuRLock =>
      if writer (mu s) then MustWait WaitRLock
      else Answer tt (log EvRLock
             (set_mu {| readers := S (readers (mu s)); writer := false |} s))
  | MuRUnlock =>
      match readers (mu s) with
      | O => Fatal "sync: RUnlock of unlocked RWMutex"
      | S n => Answer tt (log EvRUnlock
                 (set_mu {| readers := n; writer := writer (mu s) |} s))
      end
  | MuLock =>
      if writer (mu s) then MustWait WaitLock
      else match readers (mu s) with
           | O => Answer tt (log EvLock
                    (set_mu {| readers := O; writer := true |} s))
           | S _ => MustWait WaitLock
           end
  | MuUnlock =>
      if writer (mu s)
      then Answer tt (log EvUnlock
             (set_mu {| readers := readers (mu s); writer := false |} s))
      else Fatal "sync: Unlock of unlocked RWMutex"
  | ClientDo rq =>
      let r := network env (doCount s) in
      Answer r (log (EvDo rq r) (count_do (elapse (took r) s)))
  | IoReadAll b => Answer b (log (EvReadAll b) s)
  | RandomBoundary => Answer (boundary env) (log (EvBoundary (boundary env)) s)
  end.

(** How a call ends when it runs alone. *)
Inductive Outcome (A : Type) : Type :=
| Returned (a : A) (s : State)
| Blocked (w : Wait) (s : State)
| Panicked (msg : string) (s : State).

Arguments Returned {A} a s.
Arguments Blocked {A} w s.
Arguments Panicked {A} msg s.

(** One goroutine running a program to its end: it returns, panics, or
    stops at a lock operation that nobody else can enable. *)
Fixpoint run {A : Type} (env : Env) (p : Prog A) (s : State) : Outcome A :=
  match p with
  | Ret a => Returned a s
  | Panic msg => Panicked msg s
  | Vis e k =>
      match handle env e s with
      | Answer x s' => run env (k x) s'
      | MustWait w => Blocked w s
      | Fatal msg => Panicked msg s
      end
  end.

(* ------------------------------------------------------------------------- *)
(** ** What rest.go takes from outside the file *)

(** The package constants rest.go uses but does not declare, and the library
    functions whose results it only inspects:
    - [json_Marshal p]: [json.Marshal], [inl] the serialization or [inr] an
      error;
    - [json_Unmarshal b]: [json.Unmarshal(b, &rateErr)] on a zero
      [rateLimitError], giving the struct as the call leaves it and the
      error, if any;
    - [http_NewRequest_err method url]: the error of [http.NewRequest], which
      depends on the method and the URL only. *)
Record Externals := {
  Payload : Type;
  json_Marshal : Payload -> string + string;
  json_Unmarshal : string -> rateLimitError * option string;
  http_NewRequest_err : string -> string -> option string;
  requestSwapNullArray : string;
  requestSwapEmptyArray : string;
  CONTENT_TYPE_JSON : string;
  DISCORD_API_URL : string;
  USER_AGENT : string
}.

(** The fields of [BaseRestClient] that a call only reads.  [mu] and
    [lockedTo] live in [State], [HTTPClient] is [network]. *)
Record BaseRestClient := {
  Token : string;
  MaxRetries : Z
}.

(** [NewBaseRestClient]: [MaxRetries] is 3 and the token gets the "Bot "
    prefix when it lacks it. *)
Definition NewBaseRestClient (token : string) : BaseRestClient :=
  {| Token := if HasPrefix token "Bot " then token else "Bot " ++ token;
     MaxRetries := 3 |}.

(** The state of a fresh client at time [t0]: [lockedTo] is the zero Time
    and the mutex is free. *)
Definition fresh (t0 : Time) : State :=
  {| now := t0; lockedTo := zeroTime;
     mu := {| readers := 0; writer := false |};
     doCount := 0; trace := [] |}.

(** What [Request] and [RequestWithFiles] return: the bytes ([None] is nil)
    and the error ([None] is nil). *)
Definition Result : Type := option string * option string.

(** ** multipart.Writer *)

(** The writer appends to the buffer it was created on; [buf] is the
    content of that buffer. *)
Record Writer := {
  buf : string;
  wboundary : string;
  lastpart : bool
}.

Definition NewWriter (body b : string) : Writer :=
  {| buf := body; wboundary := b; lastpart := false |}.

(** [partHeader]: a MIME header with the two keys; [CreatePart] writes the
    keys in sorted order. *)
Definition partHeader (contentDisposition contentType : string)
  : list (string * string) :=
  [("Content-Disposition", contentDisposition); ("Content-Type", contentType)].

Definition headerLines (h : list (string * string)) : string :=
  fold_right (fun kv acc => fst kv ++ ": " ++ snd kv ++ CRLF ++ acc) "" h.

Definition CreatePart (h : list (string * string)) (w : Writer) : Writer :=
  {| buf := buf w
            ++ (if lastpart w then CRLF ++ "--" ++ wboundary w ++ CRLF
                else "--" ++ wboundary w ++ CRLF)
            ++ headerLines h ++ CRLF;
     wboundary := wboundary w;
     lastpart := true |}.

(** Writing to the current part. *)
Definition Write (b : string) (w : Writer) : Writer :=
  {| buf := buf w ++ b; wboundary := wboundary w; lastpart := lastpart w |}.

Definition Close (w : Writer) : Writer :=
  Write (CRLF ++ "--" ++ wboundary w ++ "--" ++ CRLF) w.

(** [FormDataContentType] (a generated boundary needs no quoting). *)
Definition FormDataContentType (w : Writer) : string :=
  "multipart/form-data; boundary=" ++ wboundary w.

(* ------------------------------------------------------------------------- *)
(** ** rest.go *)

(** rest.go:84 and 156: the pause after the [i]-th failed attempt,
    [time.Microsecond * time.Duration(250*i)]; [i] is a uint8 and so is the
    product [250*i]. *)
Definition backoff (i : Z) : Duration := Microsecond * uint8 (250 * i).

(** rest.go:191: the span the gate is closed for,
    [time.Second * time.Duration(rateErr.RetryAfter+5)]; the sum is a
    float32, the conversion drops its fraction. *)
Definition cooldown (r : float32) : Duration :=
  int64 (Second * f32_to_int64 (f32_add r (f32_of_Z 5))).


Section Rest.

Variable X : Externals.
Variable rest : BaseRestClient.

(** rest.go:68-73 and 95-100: the check of [lockedTo] ahead of the loop. *)
Definition awaitLockedTo : Prog unit :=
  t <- trigger ReadLockedTo ;;
  if negb (IsZero t) then
    t' <- trigger ReadLockedTo ;;
    n <- trigger TimeNow ;;
    let timeLeft := t' - n in
    if 0 <? timeLeft then trigger (TimeSleep timeLeft) else Ret tt
  else Ret tt.

(** rest.go:163-170: the request of one attempt; its body is what the reader
    still holds.  [http.NewRequest] takes an empty method for GET.  The
    header is the sequence of the three [Header.Add] calls; [http.Header] is
    a map and keeps no order among different keys. *)
Definition requestOf (method route contentType : string)
    (payload : option Reader) : HttpRequest :=
  {| rqMethod := if String.eqb method "" then "GET" else method;
     rqURL := DISCORD_API_URL X ++ route;
     rqHeader := [("Content-Type", contentType);
                  ("User-Agent", USER_AGENT X);
                  ("Authorization", Token rest)];
     rqBody := option_map unread payload |}.

(** [handleRequest]: one attempt.  Besides the three results of the Go function
    ([raw], [err], [finished]) the model returns the body reader as the
    attempt leaves it. *)
Definition handleRequest (method route : string) (payload : option Reader)
    (contentType : string)
  : Prog (option string * option string * bool * option Reader) :=
  match http_NewRequest_err X method (DISCORD_API_URL X ++ route) with
  | Some e =>
      Ret (None, Some ("failed to initialize new request: " ++ e), false, payload)
  | None =>
      let request := requestOf method route contentType payload in
      r <- trigger (ClientDo request) ;;
      let payload' := option_map (advance (consumed r)) payload in
      match result r with
      | inl e =>
          Ret (None, Some ("failed to process request: " ++ e), false, payload')
      | inr res =>
          if StatusCode res =? 204 then Ret (None, None, true, payload')
          else
            b <- trigger (IoReadAll (Body res)) ;;
            match b with
            | inr e =>
                Ret (None,
                     Some ("failed to parse response body (json): " ++ e),
                     true, payload')
            | inl body =>
                if StatusCode res =? 429 then
                  let rateErr := fst (json_Unmarshal X body) in
                  trigger MuLock ;;
                  n <- trigger TimeNow ;;
                  let timeLeft := n + cooldown (RetryAfter rateErr) in
                  trigger (WriteLockedTo timeLeft) ;;
                  trigger MuUnlock ;;
                  n' <- trigger TimeNow ;;
                  trigger (TimeSleep (timeLeft - n')) ;;
                  trigger MuLock ;;
                  trigger (WriteLockedTo zeroTime) ;;
                  trigger MuUnlock ;;
                  Ret (None, Some "rate limit", false, payload')
                else if (StatusCode res <? 200) || (299 <? StatusCode res) then
                  Ret (None, Some (Status res ++ " :: " ++ body), true, payload')
                else Ret (Some body, None, true, payload')
            end
      end
  end.

(** The retry loop of rest.go:75-85 and 147-157,
    [for i < rest.MaxRetries { i++; ... }]: [rem] is the number of turns
    left, [MaxRetries - i].  A finished attempt returns from inside the
    loop, with the read lock still held. *)
Fixpoint attempts (method route contentType : string) (exhausted : string)
    (rem : nat) (i : Z) (payload : option Reader) : Prog Result :=
  match rem with
  | O => Ret (None, Some exhausted)
  | S rem' =>
      let i := uint8 (i + 1) in
      trigger MuRLock ;;
      r <- handleRequest method route payload contentType ;;
      let '(raw, err, finished, payload') := r in
      if finished then Ret (raw, err)
      else
        trigger MuRUnlock ;;
        trigger (TimeSleep (backoff i)) ;;
        attempts method route contentType exhausted rem' i payload'
  end.

Definition retries : nat := Z.to_nat (uint8 (MaxRetries rest)).

(** rest.go:58-66: the body of a JSON request, [None] when the payload cannot
    be serialized; [Some None] is the nil reader of a nil payload. *)
Definition encodeJSON (jsonPayload : option (Payload X))
  : option (option Reader) :=
  match jsonPayload with
  | None => Some None
  | Some p =>
      match json_Marshal X p with
      | inr _ => None
      | inl raw =>
          Some (Some (NewReader (Replace raw (requestSwapNullArray X)
                                             (requestSwapEmptyArray X))))
      end
  end.

Definition exhaustedRequest (method route : string) : string :=
  "failed to make http request in set limit of attempts to " ++ method
  ++ " :: " ++ route ++ " (check internet connection and/or app credentials)".

(** rest.go:57-88. *)
Definition Request (method route : string) (jsonPayload : option (Payload X))
  : Prog Result :=
  match encodeJSON jsonPayload with
  | None =>
      Ret (None,
           Some "failed to parse provided payload (make sure it's in JSON format)")
  | Some body =>
      awaitLockedTo ;;
      attempts method route (CONTENT_TYPE_JSON X)
        (exhaustedRequest method route) retries 0 body
  end.

(** rest.go:124-140: one part per file, in order; [itx] is the index of the
    first file of [files].  [inr] carries the error returned. *)
Fixpoint writeFiles (itx : nat) (files : list File) (w : Writer)
  : Writer + string :=
  match files with
  | [] => inl w
  | file :: files' =>
      let num := Itoa itx in
      match Stat file with
      | inr err =>
          inr ("failed to read statistics of file[" ++ num ++ "]: " ++ err)
      | inl statName =>
          let w1 :=
            CreatePart
              (partHeader ("form-data; name=" ++ dquote ++ "files[" ++ num
                           ++ "]" ++ dquote ++ "; filename=" ++ dquote
                           ++ statName ++ dquote)
                          "application/octet-stream") w in
          let w2 := Write (Contents file) w1 in
          match CopyErr file with
          | Some err =>
              inr ("failed to encode your " ++ dquote ++ Name file ++ dquote
                   ++ " file data into multipart payload: " ++ err)
          | None => writeFiles (S itx) files' w2
          end
      end
  end.

Definition nilDereference : string :=
  "runtime error: invalid memory address or nil pointer dereference".

Definition payloadHeader : list (string * string) :=
  partHeader ("form-data; name=" ++ dquote ++ "payload_json" ++ dquote)
             (CONTENT_TYPE_JSON X).

(** rest.go:110-145 for a payload that serializes to [raw]: the buffer
    starts out holding the rewritten JSON, the writer is created on that
    buffer, the JSON part is written by a fresh
    [json.NewEncoder(jsonPart).Encode(jsonPayload)] (the serialization and a
    newline), the file parts follow, and the writer is closed. *)
Definition encodeMultipart (raw b : string) (files : list File)
  : Writer + string :=
  let writer :=
    NewWriter (Replace raw (requestSwapNullArray X) (requestSwapEmptyArray X)) b in
  let jsonPart := CreatePart payloadHeader writer in
  let encoded := Write (raw ++ LF) jsonPart in
  match writeFiles 0 files encoded with
  | inr err => inr err
  | inl w => inl (Close w)
  end.

Definition exhaustedFiles (method route : string) : string :=
  "failed to make http request 3 times to " ++ method ++ " :: " ++ route
  ++ " (check internet connection and/or app credentials)".

(** rest.go:102-160, after the check of the gate. *)
Definition sendFiles (method route : string) (jsonPayload : option (Payload X))
    (files : list File) : Prog Result :=
  (* var body *bytes.Buffer; var writer *multipart.Writer *)
  match jsonPayload with
  | None =>
      (* writer is still nil at writer.CreatePart (rest.go:114) *)
      Panic nilDereference
  | Some p =>
      match json_Marshal X p with
      | inr _ =>
          Ret (None,
               Some "failed to parse provided payload (make sure it's in JSON format)")
      | inl raw =>
          b <- trigger RandomBoundary ;;
          match encodeMultipart raw b files with
          | inr err => Ret (None, Some err)
          | inl w =>
              attempts method route (FormDataContentType w)
                (exhaustedFiles method route) retries 0
                (Some (NewReader (buf w)))
          end
      end
  end.

(** rest.go:90-160. *)
Definition RequestWithFiles (method route : string)
    (jsonPayload : option (Payload X)) (files : list File) : Prog Result :=
  match files with
  | [] => Request method route jsonPayload
  | _ :: _ => awaitLockedTo ;; sendFiles method route jsonPayload files
  end.

End Rest.


(* ------------------------------------------------------------------------- *)
(** ** States reached by the steps of a call *)

(** The state [awaitLockedTo] leaves: it reads the deadline and, when the
    deadline is set and still ahead, sleeps until it. *)
Definition afterAwait (s : State) : State :=
  let s1 := log (EvReadLockedTo (lockedTo s)) s in
  if negb (IsZero (lockedTo s)) then
    let s2 := log (EvNow (now s)) (log (EvReadLockedTo (lockedTo s)) s1) in
    if 0 <? lockedTo s - now s
    then log (EvSleep (lockedTo s - now s)) (elapse (lockedTo s - now s) s2)
    else s2
  else s1.

(** After [rest.mu.RLock()]. *)
Definition rlocked (s : State) : State :=
  log EvRLock (set_mu {| readers := S (readers (mu s)); writer := false |} s).

(** After [rest.HTTPClient.Do(rq)]. *)
Definition didDo (env : Env) (rq : HttpRequest) (s : State) : State :=
  log (EvDo rq (network env (doCount s)))
      (count_do (elapse (took (network env (doCount s))) s)).

(** After [io.ReadAll(res.Body)]. *)
Definition didRead (b : string + string) (s : State) : State :=
  log (EvReadAll b) s.

(** After [rest.mu.RUnlock()] with a read lock held. *)
Definition runlocked (s : State) : State :=
  log EvRUnlock
      (set_mu {| readers := Nat.pred (readers (mu s)); writer := writer (mu s) |} s).

(** After [time.Sleep(d)]. *)
Definition slept (d : Duration) (s : State) : State :=
  log (EvSleep d) (elapse d s).

(** rest.go:190-199 on a mutex nobody holds: the deadline is installed, the
    attempt sleeps until it, then clears it. *)
Definition afterRateLimit (r : float32) (s : State) : State :=
  let deadline := now s + cooldown r in
  let s1 := log EvLock (set_mu {| readers := 0; writer := true |} s) in
  let s2 := log (EvNow (now s)) s1 in
  let s3 := log (EvWriteLockedTo deadline) (set_lockedTo deadline s2) in
  let s4 := log EvUnlock (set_mu {| readers := 0; writer := false |} s3) in
  let s5 := log (EvNow (now s)) s4 in
  let s6 := slept (deadline - now s) s5 in
  let s7 := log EvLock (set_mu {| readers := 0; writer := true |} s6) in
  let s8 := log (EvWriteLockedTo zeroTime) (set_lockedTo zeroTime s7) in
  log EvUnlock (set_mu {| readers := 0; writer := false |} s8).

(** Where a JSON call stands once its first attempt was sent and the body of
    the answer read: the gate was checked, the read lock taken. *)
Definition stoppedAt (X : Externals) (rest : BaseRestClient) (env : Env)
    (method route : string) (body : option Reader) (s : State) (b : string)
  : State :=
  didRead (inl b)
    (didDo env (requestOf X rest method route (CONTENT_TYPE_JSON X) body)
       (rlocked (afterAwait s))).

(* ------------------------------------------------------------------------- *)
(** ** Several goroutines on one client *)

(** The goroutines of a pool share the [State] (one client, one gate); each
    is a program of its own.  A goroutine moves when the effect at its head
    is answered; it cannot move while that effect has to wait.  The clock is
    shared as well: a sleep or a [Do] of one goroutine is one step that
    moves the clock for all. *)
Definition Pool (A : Type) : Type := list (Prog A).
Definition Config (A : Type) : Type := (State * Pool A)%type.

Definition step_thread {A : Type} (env : Env) (p : Prog A) (s : State)
  : option (Prog A * State) :=
  match p with
  | Vis e k =>
      match handle env e s with
      | Answer x s' => Some (k x, s')
      | _ => None
      end
  | _ => None
  end.

Definition finished {A : Type} (p : Prog A) : bool :=
  match p with Ret _ => true | _ => false end.

Definition waiting {A : Type} (env : Env) (p : Prog A) (s : State) : bool :=
  match p with
  | Vis e k =>
      match handle env e s with
      | MustWait _ => true
      | _ => false
      end
  | _ => false
  end.

Inductive pstep {A : Type} (env : Env) : Config A -> Config A -> Prop :=
| pstep_thread (s s' : State) (before after : Pool A) (p p' : Prog A) :
    step_thread env p s = Some (p', s') ->
    pstep env (s, before ++ p :: after)%list (s', before ++ p' :: after)%list.

Definition reachable {A : Type} (env : Env) : Config A -> Config A -> Prop :=
  clos_refl_trans_1n (Config A) (pstep env).

(** A deadlock: some goroutine waits, and every goroutine has returned or
    waits. *)
Definition deadlocked {A : Type} (env : Env) (c : Config A) : Prop :=
  Exists (fun p => waiting env p (fst c) = true) (snd c) /\
  Forall (fun p => finished p = true \/ waiting env p (fst c) = true) (snd c).

Definition deadlockedb {A : Type} (env : Env) (c : Config A) : bool :=
  existsb (fun p => waiting env p (fst c)) (snd c) &&
  forallb (fun p => finished p || waiting env p (fst c)) (snd c).

(** Running a pool by a schedule: each entry names the goroutine to move
    next; an entry whose goroutine cannot move is skipped. *)
Fixpoint replace_nth {A : Type} (n : nat) (x : A) (l : list A) : list A :=
  match l, n with
  | [], _ => []
  | _ :: l', O => x :: l'
  | y :: l', S n' => y :: replace_nth n' x l'
  end.

Fixpoint exec {A : Type} (env : Env) (schedule : list nat) (c : Config A)
  : Config A :=
  match schedule with
  | [] => c
  | i :: schedule' =>
      match nth_error (snd c) i with
      | Some p =>
          match step_thread env p (fst c) with
          | Some (p', s') => exec env schedule' (s', replace_nth i p' (snd c))
          | None => exec env schedule' c
          end
      | None => exec env schedule' c
      end
  end.

(* ------------------------------------------------------------------------- *)
(** ** A concrete client and network, for examples *)

Module Demo.

(** Payloads are given by their JSON text; the rewrite constants are the
    literal [null] and the empty array. *)
Definition rateBody : string := "{" ++ dquote ++ "retry_after" ++ dquote ++ ":2.0}".

Definition X0 : Externals :=
  {| Payload := string;
     json_Marshal := fun p => inl p;
     json_Unmarshal := fun b =>
       if String.eqb b rateBody
       then ({| Message := ""; RetryAfter := f32_of_Z 2; Global := false |}, None)
       else (rateLimitError_zero, Some "invalid character");
     http_NewRequest_err := fun _ _ => None;
     requestSwapNullArray := "null";
     requestSwapEmptyArray := "[]";
     CONTENT_TYPE_JSON := "application/json";
     DISCORD_API_URL := "https://discord.com/api/v10";
     USER_AGENT := "DiscordApp" |}.

Definition client : BaseRestClient := NewBaseRestClient "token".

(** A transport failure after the whole request was written. *)
Definition timedOut : DoReply :=
  {| took := 3 * Second; consumed := 4096; result := inl "context deadline exceeded" |}.

Definition answer (code : Z) (status body : string) : DoReply :=
  {| took := 40000000; consumed := 4096;
     result := inr {| StatusCode := code; Status := status; Body := inl body |} |}.

(** Every [Do] gets the same answer. *)
Definition always (r : DoReply) : Env :=
  {| network := fun _ => r; boundary := "5f1c" |}.

(** The first [Do] gets [r], the later ones [r']. *)
Definition firstThen (r r' : DoReply) : Env :=
  {| network := fun n => match n with O => r | S _ => r' end; boundary := "5f1c" |}.

Definition embedsNull : string := "{" ++ dquote ++ "embeds" ++ dquote ++ ":null}".

Definition picture : File :=
  {| Name := "/tmp/cat.png"; Stat := inl "cat.png"; Contents := "PNG"; CopyErr := None |}.

(** The multipart body of [embedsNull] with one attachment. *)
Definition encoded : Writer :=
  match encodeMultipart X0 embedsNull "5f1c" [picture] with
  | inl w => w
  | inr _ => NewWriter "" ""
  end.

End Demo.

(* ------------------------------------------------------------------------- *)
(** ** Reading traces *)

Definition outcome_state {A : Type} (o : Outcome A) : State :=
  match o with
  | Returned _ s => s
  | Blocked _ s => s
  | Panicked _ s => s
  end.

Definition isDo (ev : Event) : bool :=
  match ev with EvDo _ _ => true | _ => false end.

Definition isReadLockedTo (ev : Event) : bool :=
  match ev with EvReadLockedTo _ => true | _ => false end.

Definition isWriteLockedTo (ev : Event) : bool :=
  match ev with EvWriteLockedTo _ => true | _ => false end.

(** The bodies offered to the network, one per attempt, in order. *)
Fixpoint sentBodies (tr : list Event) : list (option string) :=
  match tr with
  | [] => []
  | EvDo rq _ :: tr' => rqBody rq :: sentBodies tr'
  | _ :: tr' => sentBodies tr'
  end.

(** The pauses taken, in order. *)
Fixpoint sleeps (tr : list Event) : list Duration :=
  match tr with
  | [] => []
  | EvSleep d :: tr' => d :: sleeps tr'
  | _ :: tr' => sleeps tr'
  end.

(** The pauses of [rem] failed turns that follow turn [i]. *)
Fixpoint pauses (rem : nat) (i : Z) : list Duration :=
  match rem with
  | O => []
  | S rem' => backoff (uint8 (i + 1)) :: pauses rem' (uint8 (i + 1))
  end.

(** "The delay strictly grows from one pause to the next". *)
Fixpoint strictlyGrowing (ds : list Duration) : bool :=
  match ds with
  | d :: ((d' :: _) as ds') => (d <? d') && strictlyGrowing ds'
  | _ => true
  end.

(** "Before every attempt the gate is consulted": in a trace, each [Do] has
    a read of [lockedTo] between it and the [Do] before it.  [checked] tells
    whether such a read was seen since the last [Do]. *)
Fixpoint consultedBeforeEvery (checked : bool) (tr : list Event) : bool :=
  match tr with
  | [] => true
  | EvReadLockedTo _ :: tr' => consultedBeforeEvery true tr'
  | EvDo _ _ :: tr' => checked && consultedBeforeEvery false tr'
  | _ :: tr' => consultedBeforeEvery checked tr'
  end.

(** A program that never reads [lockedTo]. *)
Definition readsGate {Y : Type} (e : Effect Y) : bool :=
  match e with ReadLockedTo => true | _ => false end.

Fixpoint neverReadsGate {A : Type} (p : Prog A) : Prop :=
  match p with
  | Ret _ => True
  | Panic _ => True
  | Vis e k => readsGate e = false /\ forall x, neverReadsGate (k x)
  end.

(* ------------------------------------------------------------------------- *)
(** ** The layout of a multipart body *)

Record Part := {
  pHeader : list (string * string);
  pContent : string
}.

(** The bytes of a part: the boundary line (the first one has no leading
    CRLF), the header lines, an empty line, the content. *)
Definition renderPart (b : string) (first : bool) (p : Part) : string :=
  (if first then "--" ++ b ++ CRLF else CRLF ++ "--" ++ b ++ CRLF)
  ++ headerLines (pHeader p) ++ CRLF ++ pContent p.

Fixpoint renderParts (b : string) (first : bool) (ps : list Part) : string :=
  match ps with
  | [] => ""
  | p :: ps' => renderPart b first p ++ renderParts b false ps'
  end.

Definition closingLine (b : string) : string := CRLF ++ "--" ++ b ++ "--" ++ CRLF.

(** The part rest.go:132-137 writes for the file at index [itx] whose
    [Stat] gave [name]. *)
Definition filePart (itx : nat) (name : string) (file : File) : Part :=
  {| pHeader :=
       partHeader ("form-data; name=" ++ dquote ++ "files[" ++ Itoa itx ++ "]"
                   ++ dquote ++ "; filename=" ++ dquote ++ name ++ dquote)
                  "application/octet-stream";
     pContent := Contents file |}.

Fixpoint fileParts (itx : nat) (files : list File) : list Part :=
  match files with
  | [] => []
  | file :: files' =>
      filePart itx (match Stat file with inl name => name | inr _ => "" end) file
      :: fileParts (S itx) files'
  end.

(** The part rest.go:114-119 writes for a payload that serializes to
    [raw]. *)
Definition jsonPart (X : Externals) (raw : string) : Part :=
  {| pHeader := payloadHeader X; pContent := raw ++ LF |}.

(* ------------------------------------------------------------------------- *)
(** ** More ways to read a run *)

(** The value of [i] after [k] more turns of the loop. *)
Fixpoint turnIndex (k : nat) (i : Z) : Z :=
  match k with
  | O => i
  | S k' => turnIndex k' (uint8 (i + 1))
  end.

(** An event fits a call to [method] [route] with [contentType] when, if it
    is a [Do], its request has that method (GET for the empty method), the
    full URL and the three headers of rest.go:168-170. *)
Definition sentAs (X : Externals) (rest : BaseRestClient)
    (method route contentType : string) (ev : Event) : Prop :=
  match ev with
  | EvDo rq _ =>
      rqMethod rq = (if String.eqb method "" then "GET" else method)
      /\ rqURL rq = DISCORD_API_URL X ++ route
      /\ rqHeader rq = [("Content-Type", contentType);
                        ("User-Agent", USER_AGENT X);
                        ("Authorization", Token rest)]
  | _ => True
  end.

Definition isLockEvent (ev : Event) : bool :=
  match ev with
  | EvLock | EvUnlock => true
  | _ => false
  end.

Definition panicked {A : Type} (o : Outcome A) : bool :=
  match o with Panicked _ _ => true | _ => false end.

(** A file the encoder can read to its end. *)
Definition readable (file : File) : bool :=
  match Stat file, CopyErr file with
  | inl _, None => true
  | _, _ => false
  end.

(* ------------------------------------------------------------------------- *)
(** ** More examples *)

Module Demo2.

(** Payloads that may fail to serialize ([None]), and a method
    [http.NewRequest] refuses when it holds a space. *)
Definition X1 : Externals :=
  {| Payload := option string;
     json_Marshal := fun p =>
       match p with
       | Some raw => inl raw
       | None => inr "json: unsupported type: chan int"
       end;
     json_Unmarshal := json_Unmarshal Demo.X0;
     http_NewRequest_err := fun method _ =>
       if Contains method " " then Some "net/http: invalid method" else None;
     requestSwapNullArray := "null";
     requestSwapEmptyArray := "[]";
     CONTENT_TYPE_JSON := "application/json";
     DISCORD_API_URL := "https://discord.com/api/v10";
     USER_AGENT := "DiscordApp" |}.

(** A 429 whose body breaks off. *)
Definition cutOff429 : DoReply :=
  {| took := 40000000; consumed := 4096;
     result := inr {| StatusCode := 429; Status := "429 Too Many Requests";
                      Body := inr "unexpected EOF" |} |}.

(** A file that was closed before the call, and one whose device fails
    while it is read. *)
Definition closedFile : File :=
  {| Name := "/tmp/gone.png"; Stat := inr "file already closed";
     Contents := ""; CopyErr := None |}.

Definition brokenFile : File :=
  {| Name := "/mnt/usb/a.bin"; Stat := inl "a.bin";
     Contents := "PK"; CopyErr := Some "input/output error" |}.

End Demo2.

(* ------------------------------------------------------------------------- *)
(** ** client.go *)

Module Client.

(** A value of type [any] as client.go looks at it: nil, a string, or a
    value of another dynamic type, of which only the name matters. *)
Inductive Any :=
| AnyNil
| AnyString (s : string)
| AnyOther (dynamicType : string).

(** A [map[string]interface{}]: the binding found first is the current
    one. *)
Definition Map : Type := list (string * Any).

Definition mapSet (k : string) (v : Any) (m : Map) : Map := (k, v) :: m.

Fixpoint mapGet (k : string) (m : Map) : option Any :=
  match m with
  | [] => None
  | (k', v) :: m' => if String.eqb k k' then Some v else mapGet k m'
  end.

(** The [Rest] field of a client: the interface of rest.go:19-22. *)
Record RestHandler (X : Externals) := {
  doRequest : string -> string -> option (Payload X) -> Prog Result;
  doRequestWithFiles :
    string -> string -> option (Payload X) -> list File -> Prog Result
}.

Arguments doRequest {X} _ _ _ _.
Arguments doRequestWithFiles {X} _ _ _ _ _.

(** The handler rest.go implements. *)
Definition BaseRestHandler (X : Externals) (rest : BaseRestClient)
  : RestHandler X :=
  {| doRequest := Request X rest;
     doRequestWithFiles := RequestWithFiles X rest |}.

(** The types client.go uses but does not declare, with the operations it
    applies to them:
    - [SnowflakeString]: [Snowflake.String()];
    - [emptyMessage], [contentMessage c], [setChannelID id m]: [Message{}],
      [Message{Content: c}] and [m.ChannelID = id];
    - [messagePayload], [recipientPayload id]: a message, and the map
      holding [recipient_id], as the payload handed to the REST call;
    - [decodeMessage], [decodeUser], [decodeMember]: [json.Unmarshal] of
      the bytes returned ([None]: nil) into a zero value, [None] on error;
    - [decodeObject]: the members [json.Unmarshal] would store into a map,
      in order, [None] on error. *)
Record Types (X : Externals) := {
  Snowflake : Type;
  SnowflakeString : Snowflake -> string;
  StringToSnowflake : string -> Snowflake + string;
  Message : Type;
  emptyMessage : Message;
  contentMessage : string -> Message;
  setChannelID : Snowflake -> Message -> Message;
  User : Type;
  emptyUser : User;
  Member : Type;
  emptyMember : Member;
  messagePayload : Message -> Payload X;
  recipientPayload : Snowflake -> Payload X;
  decodeMessage : option string -> option Message;
  decodeUser : option string -> option User;
  decodeMember : option string -> option Member;
  decodeObject : option string -> option (list (string * Any))
}.

Arguments Snowflake {X} _.
Arguments SnowflakeString {X} _ _.
Arguments StringToSnowflake {X} _ _.
Arguments Message {X} _.
Arguments emptyMessage {X} _.
Arguments contentMessage {X} _ _.
Arguments setChannelID {X} _ _ _.
Arguments User {X} _.
Arguments emptyUser {X} _.
Arguments Member {X} _.
Arguments emptyMember {X} _.
Arguments messagePayload {X} _ _.
Arguments recipientPayload {X} _ _.
Arguments decodeMessage {X} _ _.
Arguments decodeUser {X} _ _.
Arguments decodeMember {X} _ _.
Arguments decodeObject {X} _ _.

Definition parseFailed : string := "failed to parse received data from discord".

Section Methods.

Variable X : Externals.
Variable T : Types X.
Variable h : RestHandler X.

(** client.go:61-65. *)
Definition Ping : Prog Duration :=
  start <- trigger TimeNow ;;
  _ <- doRequest h "GET" "/gateway" None ;;
  n <- trigger TimeNow ;;
  Ret (n - start).

(** client.go:67-80. *)
Definition SendMessage (channelID : Snowflake T) (message : Message T)
    (files : list File) : Prog (Message T * option string) :=
  r <- doRequestWithFiles h "POST"
         ("/channels/" ++ SnowflakeString T channelID ++ "/messages")
         (Some (messagePayload T message)) files ;;
  match snd r with
  | Some err => Ret (emptyMessage T, Some err)
  | None =>
      match decodeMessage T (fst r) with
      | None => Ret (emptyMessage T, Some parseFailed)
      | Some res => Ret (res, None)
      end
  end.

(** client.go:82-84. *)
Definition SendLinearMessage (channelID : Snowflake T) (content : string)
  : Prog (Message T * option string) :=
  SendMessage channelID (contentMessage T content) [].

(** client.go:88-111.  [res["id"].(string)] is a type assertion with one
    result: it panics unless the map holds a string under "id". *)
Definition SendPrivateMessage (userID : Snowflake T) (content : Message T)
    (files : list File) : Prog (Message T * option string) :=
  let res := mapSet "recipient_id" (AnyOther "ashara.Snowflake") [] in
  r <- doRequest h "POST" "/users/@me/channels" (Some (recipientPayload T userID)) ;;
  match snd r with
  | Some err => Ret (emptyMessage T, Some err)
  | None =>
      match decodeObject T (fst r) with
      | None => Ret (emptyMessage T, Some parseFailed)
      | Some members =>
          let res := fold_left (fun m kv => mapSet (fst kv) (snd kv) m) members res in
          match mapGet "id" res with
          | Some (AnyString id) =>
              match StringToSnowflake T id with
              | inr err => Ret (emptyMessage T, Some err)
              | inl channelID =>
                  m <- SendMessage channelID content files ;;
                  Ret (setChannelID T channelID (fst m), snd m)
              end
          | Some (AnyOther t) =>
              Panic ("interface conversion: interface {} is " ++ t ++ ", not string")
          | Some AnyNil | None =>
              Panic "interface conversion: interface {} is nil, not string"
          end
      end
  end.

(** client.go:113-116. *)
Definition EditMessage (channelID messageID : Snowflake T) (content : Message T)
  : Prog (option string) :=
  r <- doRequest h "PATCH"
         ("/channels/" ++ SnowflakeString T channelID ++ "/messages/"
          ++ SnowflakeString T messageID)
         (Some (messagePayload T content)) ;;
  Ret (snd r).

(** client.go:118-121. *)
Definition DeleteMessage (channelID messageID : Snowflake T) : Prog (option string) :=
  r <- doRequest h "DELETE"
         ("/channels/" ++ SnowflakeString T channelID ++ "/messages/"
          ++ SnowflakeString T messageID)
         None ;;
  Ret (snd r).

(** client.go:123-126. *)
Definition CrosspostMessage (channelID messageID : Snowflake T)
  : Prog (option string) :=
  r <- doRequest h "POST"
         ("/channels/" ++ SnowflakeString T channelID ++ "/messages/"
          ++ SnowflakeString T messageID ++ "/crosspost")
         None ;;
  Ret (snd r).

(** client.go:128-141. *)
Definition FetchUser (id : Snowflake T) : Prog (User T * option string) :=
  r <- doRequest h "GET" ("/users/" ++ SnowflakeString T id) None ;;
  match snd r with
  | Some err => Ret (emptyUser T, Some err)
  | None =>
      match decodeUser T (fst r) with
      | None => Ret (emptyUser T, Some parseFailed)
      | Some res => Ret (res, None)
      end
  end.

(** client.go:143-156. *)
Definition FetchMember (guildID memberID : Snowflake T)
  : Prog (Member T * option string) :=
  r <- doRequest h "GET"
         ("/guilds/" ++ SnowflakeString T guildID ++ "/members/"
          ++ SnowflakeString T memberID)
         None ;;
  match snd r with
  | Some err => Ret (emptyMember T, Some err)
  | None =>
      match decodeMember T (fst r) with
      | None => Ret (emptyMember T, Some parseFailed)
      | Some res => Ret (res, None)
      end
  end.

End Methods.

End Client.

(** Types for the examples. *)
Module DemoClient.

Definition snowflakeOf (s : string) : nat + string :=
  match NilEmpty.uint_of_string s with
  | Some d => inl (Nat.of_uint d)
  | None => inr "strconv.ParseUint: invalid syntax"
  end.

(** The text up to the first double quote, and what follows that quote. *)
Fixpoint untilQuote (s : string) : option (string * string) :=
  match s with
  | EmptyString => None
  | String c s' =>
      if Ascii.eqb c (ascii_of_nat 34) then Some (EmptyString, s')
      else match untilQuote s' with
           | Some (a, b) => Some (String c a, b)
           | None => None
           end
  end.

(** The JSON texts the examples decode: the empty object ([Some None]) and
    an object whose only member is [key] with a string without escapes
    ([Some] of that string); any other text is refused, as is nil. *)
Definition memberOf (key : string) (raw : option string) : option (option string) :=
  let opening := "{" ++ dquote ++ key ++ dquote ++ ":" ++ dquote in
  match raw with
  | None => None
  | Some b =>
      if String.eqb b "{}" then Some None
      else if String.prefix opening b then
        match untilQuote (drop (String.length opening) b) with
        | Some (v, closing) => if String.eqb closing "}" then Some (Some v) else None
        | None => None
        end
      else None
  end.

(** Snowflakes are numbers in decimal; a message is its content and its
    channel; a user and a member are their ids. *)
Definition T0 : Client.Types Demo.X0 :=
  {| Client.Snowflake := nat;
     Client.SnowflakeString := Itoa;
     Client.StringToSnowflake := snowflakeOf;
     Client.Message := (string * nat)%type;
     Client.emptyMessage := ("", 0%nat);
     Client.contentMessage := fun c => (c, 0%nat);
     Client.setChannelID := fun id m => (fst m, id);
     Client.User := string;
     Client.emptyUser := "";
     Client.Member := string;
     Client.emptyMember := "";
     Client.messagePayload := fun m =>
       ("{" ++ dquote ++ "content" ++ dquote ++ ":" ++ dquote ++ fst m ++ dquote
        ++ "}" : Payload Demo.X0);
     Client.recipientPayload := fun id =>
       ("{" ++ dquote ++ "recipient_id" ++ dquote ++ ":" ++ Itoa id ++ "}"
        : Payload Demo.X0);
     Client.decodeMessage := fun raw =>
       match memberOf "content" raw with
       | Some (Some c) => Some (c, 0%nat)
       | Some None => Some ("", 0%nat)
       | None => None
       end;
     Client.decodeUser := fun raw =>
       match memberOf "id" raw with
       | Some (Some id) => Some id
       | Some None => Some ""
       | None => None
       end;
     Client.decodeMember := fun raw =>
       match memberOf "id" raw with
       | Some (Some id) => Some id
       | Some None => Some ""
       | None => None
       end;
     Client.decodeObject := fun raw =>
       match memberOf "id" raw with
       | Some (Some id) => Some [("id", Client.AnyString id)]
       | Some None => Some []
       | None => None
       end |}.

Definition h0 : Client.RestHandler Demo.X0 :=
  Client.BaseRestHandler Demo.X0 Demo.client.

(** The answer to the channel request: an object with the id 123. *)
Definition channelBody : string :=
  "{" ++ dquote ++ "id" ++ dquote ++ ":" ++ dquote ++ "123" ++ dquote ++ "}".

End DemoClient.

(* ------------------------------------------------------------------------- *)
(** ** Attempts, answers and the gate *)

Definition isClientDo {Y : Type} (e : Effect Y) : bool :=
  match e with ClientDo _ => true | _ => false end.

(** The gate is open in a state when [lockedTo] is unset or not ahead of
    the clock. *)
Definition gateOpen (s : State) : bool :=
  IsZero (lockedTo s) || (lockedTo s <=? now s).

(** The states in which the attempts of a run are issued: [doStates]
    follows [run] effect by effect and keeps the state each
    [HTTPClient.Do] starts from. *)
Fixpoint doStates {A : Type} (env : Env) (p : Prog A) (s : State) : list State :=
  match p with
  | Vis e k =>
      ((if isClientDo e then [s] else [])
       ++ match handle env e s with
          | Answer x s' => doStates env (k x) s'
          | _ => []
          end)%list
  | _ => []
  end.

(** [P reply post] holds of every [Do] of a list of events, [reply] being
    the answer to it and [post] the events after it. *)
Fixpoint afterEachDo (P : DoReply -> list Event -> Prop) (evs : list Event)
  : Prop :=
  match evs with
  | [] => True
  | EvDo _ reply :: post => P reply post /\ afterEachDo P post
  | _ :: post => afterEachDo P post
  end.

(** What a call makes of the answer to one [Do] (rest.go:172-205 and the
    return from inside the loop, rest.go:80-82 and 152-154), for a call that
    runs alone: [post] are the events after the [Do], [o] is how the call
    ends. *)
Definition settled (o : Outcome Result) (reply : DoReply) (post : list Event)
  : Prop :=
  match result reply with
  | inl _ => True
  | inr res =>
      if StatusCode res =? 204
      then post = [] /\ exists s', o = Returned (None, None) s'
      else
        post = [EvReadAll (Body res)]
        /\ match Body res with
           | inr e =>
               exists s',
                 o = Returned
                       (None, Some ("failed to parse response body (json): " ++ e)) s'
           | inl b =>
               if StatusCode res =? 429
               then exists s', o = Blocked WaitLock s'
               else if (StatusCode res <? 200) || (299 <? StatusCode res)
               then exists s', o = Returned (None, Some (Status res ++ " :: " ++ b)) s'
               else exists s', o = Returned (Some b, None) s'
           end
  end.

(** A call gets as far as its loop when its payload can be serialized and,
    if it has files, when it has a payload and every file can be read. *)
Definition reachesLoop (X : Externals) (env : Env)
    (jsonPayload : option (Payload X)) (files : list File) : bool :=
  match files with
  | [] =>
      match encodeJSON X jsonPayload with
      | Some _ => true
      | None => false
      end
  | _ :: _ =>
      match jsonPayload with
      | None => false
      | Some p =>
          match json_Marshal X p with
          | inr _ => false
          | inl raw =>
              match encodeMultipart X raw (boundary env) files with
              | inl _ => true
              | inr _ => false
              end
          end
      end
  end.

(** What a call returned, if it did. *)
Definition returned {A : Type} (o : Outcome A) : option A :=
  match o with
  | Returned a _ => Some a
  | _ => None
  end.

(** "The error carries the status line": the text of the error holds
    [status]. *)
Definition carriesStatus (status : string) (r : Result) : bool :=
  match snd r with
  | Some err => Contains err status
  | None => false
  end.

Module Demo3.

(** A state in which the deadline is set and four microseconds ahead. *)
Definition gated : State :=
  {| now := 1000; lockedTo := 5000;
     mu := {| readers := 0; writer := false |};
     doCount := 0; trace := [] |}.

(** An answer whose body breaks off while it is read. *)
Definition cutOff (code : Z) (status : string) : DoReply :=
  {| took := 40000000; consumed := 4096;
     result := inr {| StatusCode := code; Status := status;
                      Body := inr "unexpected EOF" |} |}.

End Demo3.

(* ========================================================================= *)
(** * Properties *)

(** ** Running programs: general facts *)

Lemma run_bind {A B : Type} (env : Env) (m : Prog A) (f : A -> Prog B) :
  forall s,
    run env (bind m f) s =
    match run env m s with
    | Returned a s' => run env (f a) s'
    | Blocked w s' => Blocked w s'
    | Panicked msg s' => Panicked msg s'
    end.
Proof.
  induction m as [a | msg | Y e k IH]; intros s; simpl; try reflexivity.
  destruct (handle env e s); auto.
Qed.

Lemma handle_clock {Y : Type} (env : Env) (e : Effect Y) (s : State) :
  match handle env e s with
  | Answer _ s' => now s <= now s'
  | _ => True
  end.
Proof.
  destruct e; cbn; try lia.
  - destruct (writer (mu s)); cbn; [exact I | lia].
  - destruct (readers (mu s)); cbn; [exact I | lia].
  - destruct (writer (mu s)); [exact I |]. destruct (readers (mu s)); cbn; [lia | exact I].
  - destruct (writer (mu s)); cbn; [lia | exact I].
Qed.

(** The clock never runs backwards during a run. *)
Lemma run_clock {A : Type} (env : Env) (p : Prog A) :
  forall s, now s <= now (outcome_state (run env p s)).
Proof.
  induction p as [a | msg | Y e k IH]; intros s; cbn; try lia.
  pose proof (handle_clock env e s) as H.
  destruct (handle env e s) as [x s1 | w | msg]; cbn; try lia.
  specialize (IH x s1). lia.
Qed.

Lemma run_awaitLockedTo (env : Env) (s : State) :
  run env awaitLockedTo s = Returned tt (afterAwait s).
Proof.
  unfold awaitLockedTo, afterAwait. cbn.
  destruct (negb (IsZero (lockedTo s))); cbn; [| reflexivity].
  destruct (0 <? lockedTo s - now s); reflexivity.
Qed.

Lemma afterAwait_mu s : mu (afterAwait s) = mu s.
Proof.
  unfold afterAwait.
  destruct (negb (IsZero (lockedTo s))); [| reflexivity].
  destruct (0 <? lockedTo s - now s); reflexivity.
Qed.

Lemma afterAwait_doCount s : doCount (afterAwait s) = doCount s.
Proof.
  unfold afterAwait.
  destruct (negb (IsZero (lockedTo s))); [| reflexivity].
  destruct (0 <? lockedTo s - now s); reflexivity.
Qed.

Lemma afterAwait_lockedTo s : lockedTo (afterAwait s) = lockedTo s.
Proof.
  unfold afterAwait.
  destruct (negb (IsZero (lockedTo s))); [| reflexivity].
  destruct (0 <? lockedTo s - now s); reflexivity.
Qed.

(** After the check the deadline read is not ahead any more, unless it is the
    zero Time. *)
Lemma afterAwait_now s :
  now s <= now (afterAwait s) /\
  (lockedTo s = zeroTime \/ lockedTo s <= now (afterAwait s)).
Proof.
  unfold afterAwait, IsZero, zeroTime.
  destruct (Z.eqb_spec (lockedTo s) 0) as [E | E]; cbn; [lia |].
  destruct (Z.ltb_spec 0 (lockedTo s - now s)); cbn; lia.
Qed.

Lemma mu_eta (m : RWMutex) :
  writer m = false -> {| readers := readers m; writer := false |} = m.
Proof. destruct m as [r w]. cbn. intros ->. reflexivity. Qed.

(** [Request] is the encoding, the check of the gate, then the loop. *)
Lemma run_Request (X : Externals) (rest : BaseRestClient) (env : Env)
    method route jsonPayload body s :
  encodeJSON X jsonPayload = Some body ->
  run env (Request X rest method route jsonPayload) s =
  run env (attempts X rest method route (CONTENT_TYPE_JSON X)
             (exhaustedRequest method route) (retries rest) 0 body)
          (afterAwait s).
Proof.
  unfold Request. intros ->.
  rewrite run_bind, run_awaitLockedTo. reflexivity.
Qed.

Lemma retries_pos (rest : BaseRestClient) :
  0 < uint8 (MaxRetries rest) -> exists rem, retries rest = S rem.
Proof.
  unfold retries. intros H.
  exists (Nat.pred (Z.to_nat (uint8 (MaxRetries rest)))). lia.
Qed.

(** ** One attempt, by the network's answer *)

Section OneAttempt.

Variable X : Externals.
Variable rest : BaseRestClient.
Variable env : Env.
Variables method route contentType : string.
Variable payload : option Reader.
Variable s : State.

Let rq := requestOf X rest method route contentType payload.
Let reply := network env (doCount s).
Let payload' := option_map (advance (consumed reply)) payload.

(** [http.NewRequest] fails: retryable, nothing is sent. *)
Lemma handleRequest_newRequest_error e :
  http_NewRequest_err X method (DISCORD_API_URL X ++ route) = Some e ->
  run env (handleRequest X rest method route payload contentType) s =
  Returned (None, Some ("failed to initialize new request: " ++ e), false, payload) s.
Proof. intros H. unfold handleRequest. rewrite H. reflexivity. Qed.

Hypothesis newRequest_ok :
  http_NewRequest_err X method (DISCORD_API_URL X ++ route) = None.

(** Transport failure: retryable. *)
Lemma handleRequest_transport_error e :
  result reply = inl e ->
  run env (handleRequest X rest method route payload contentType) s =
  Returned (None, Some ("failed to process request: " ++ e), false, payload')
           (didDo env rq s).
Proof.
  intros H. unfold handleRequest. rewrite newRequest_ok. cbn.
  fold reply. rewrite H. reflexivity.
Qed.

(** Status 204: finished, nil bytes, nil error; the body is not read. *)
Lemma handleRequest_204 res :
  result reply = inr res -> StatusCode res = 204 ->
  run env (handleRequest X rest method route payload contentType) s =
  Returned (None, None, true, payload') (didDo env rq s).
Proof.
  intros H H204. unfold handleRequest. rewrite newRequest_ok. cbn.
  fold reply. rewrite H, H204. reflexivity.
Qed.

(** The body cannot be read: finished, with an error. *)
Lemma handleRequest_read_error res e :
  result reply = inr res -> StatusCode res <> 204 -> Body res = inr e ->
  run env (handleRequest X rest method route payload contentType) s =
  Returned (None, Some ("failed to parse response body (json): " ++ e), true,
            payload')
           (didRead (inr e) (didDo env rq s)).
Proof.
  intros H H204 Hb. unfold handleRequest. rewrite newRequest_ok. cbn.
  fold reply. rewrite H.
  destruct (Z.eqb_spec (StatusCode res) 204); [contradiction |].
  cbn. rewrite Hb. reflexivity.
Qed.

(** Status 429 while some lock on [rest.mu] is held: the attempt waits at
    [rest.mu.Lock()] (rest.go:190) and [lockedTo] is not written. *)
Lemma handleRequest_429_waits res body :
  result reply = inr res -> StatusCode res = 429 -> Body res = inl body ->
  writer (mu s) = true \/ (0 < readers (mu s))%nat ->
  run env (handleRequest X rest method route payload contentType) s =
  Blocked WaitLock (didRead (inl body) (didDo env rq s)).
Proof.
  intros H H429 Hb Hmu. unfold handleRequest. rewrite newRequest_ok. cbn.
  fold reply. rewrite H, H429. cbn. rewrite Hb. cbn.
  destruct (writer (mu s)); [reflexivity |].
  destruct (readers (mu s)); [| reflexivity].
  destruct Hmu; [discriminate | lia].
Qed.

(** Status 429 on a mutex nobody holds: the gate is closed for [cooldown],
    the attempt sleeps that long and reports a retryable failure. *)
Lemma handleRequest_429_free res body :
  result reply = inr res -> StatusCode res = 429 -> Body res = inl body ->
  writer (mu s) = false -> readers (mu s) = O ->
  run env (handleRequest X rest method route payload contentType) s =
  Returned (None, Some "rate limit", false, payload')
           (afterRateLimit (RetryAfter (fst (json_Unmarshal X body)))
                           (didRead (inl body) (didDo env rq s))).
Proof.
  intros H H429 Hb Hw Hr. unfold handleRequest. rewrite newRequest_ok. cbn.
  fold reply. rewrite H, H429. cbn. rewrite Hb. cbn.
  rewrite Hw, Hr. reflexivity.
Qed.

(** Any other status outside 200..299: finished, with the status line and
    the body in the error. *)
Lemma handleRequest_rejected res body :
  result reply = inr res -> Body res = inl body ->
  StatusCode res <> 429 -> StatusCode res < 200 \/ 299 < StatusCode res ->
  run env (handleRequest X rest method route payload contentType) s =
  Returned (None, Some (Status res ++ " :: " ++ body), true, payload')
           (didRead (inl body) (didDo env rq s)).
Proof.
  intros H Hb H429 Hout. unfold handleRequest. rewrite newRequest_ok. cbn.
  fold reply. rewrite H.
  destruct (Z.eqb_spec (StatusCode res) 204); [lia |].
  cbn. rewrite Hb.
  destruct (Z.eqb_spec (StatusCode res) 429); [contradiction |].
  replace ((StatusCode res <? 200) || (299 <? StatusCode res)) with true;
    [reflexivity |].
  symmetry. apply orb_true_iff.
  destruct Hout; [left; apply Z.ltb_lt | right; apply Z.ltb_lt]; assumption.
Qed.

(** Status 200..299 other than 204: finished, with the body. *)
Lemma handleRequest_success res body :
  result reply = inr res -> Body res = inl body ->
  StatusCode res <> 204 -> 200 <= StatusCode res <= 299 ->
  run env (handleRequest X rest method route payload contentType) s =
  Returned (Some body, None, true, payload')
           (didRead (inl body) (didDo env rq s)).
Proof.
  intros H Hb H204 Hin. unfold handleRequest. rewrite newRequest_ok. cbn.
  fold reply. rewrite H.
  destruct (Z.eqb_spec (StatusCode res) 204); [contradiction |].
  cbn. rewrite Hb.
  destruct (Z.eqb_spec (StatusCode res) 429); [lia |].
  replace ((StatusCode res <? 200) || (299 <? StatusCode res)) with false;
    [reflexivity |].
  symmetry. apply orb_false_iff.
  split; apply Z.ltb_ge; lia.
Qed.

End OneAttempt.

(** ** One turn of the retry loop *)

Section Loop.

Variable X : Externals.
Variable rest : BaseRestClient.
Variable env : Env.
Variables method route contentType exhausted : string.

(** A turn takes the read lock, runs one attempt, and either returns with the
    read lock still held (finished) or releases it, pauses and goes on. *)
Lemma attempts_turn rem i payload s :
  writer (mu s) = false ->
  run env (attempts X rest method route contentType exhausted (S rem) i payload) s =
  match run env (handleRequest X rest method route payload contentType) (rlocked s) with
  | Returned (raw, err, finished, payload') s1 =>
      if finished then Returned (raw, err) s1
      else match readers (mu s1) with
           | O => Panicked "sync: RUnlock of unlocked RWMutex" s1
           | S _ =>
               run env (attempts X rest method route contentType exhausted rem
                          (uint8 (i + 1)) payload')
                   (slept (backoff (uint8 (i + 1))) (runlocked s1))
           end
  | Blocked w s1 => Blocked w s1
  | Panicked msg s1 => Panicked msg s1
  end.
Proof.
  intros Hw. cbn [attempts]. cbn [trigger bind run handle].
  rewrite Hw. fold (rlocked s).
  rewrite run_bind.
  destruct (run env (handleRequest X rest method route payload contentType) (rlocked s))
    as [[[[raw err] finished] payload'] s1 | w s1 | msg s1]; try reflexivity.
  destruct finished; [reflexivity |].
  cbn [trigger bind run handle].
  destruct (readers (mu s1)) eqn:E; [reflexivity |].
  unfold slept, runlocked, backoff. rewrite E. reflexivity.
Qed.

End Loop.

(** ** The read lock of a finished call *)

(** The finished-return path (rest.go:80-82) returns without [RUnlock]:
    a call that ends this way leaves one more read lock held than it
    found. *)
Lemma Request_204_leaves_read_lock
    (X : Externals) (rest : BaseRestClient) (env : Env) (s : State)
    (method route : string) (jsonPayload : option (Payload X))
    (body : option Reader) (res : Response) :
  0 < uint8 (MaxRetries rest) ->
  writer (mu s) = false ->
  encodeJSON X jsonPayload = Some body ->
  http_NewRequest_err X method (DISCORD_API_URL X ++ route) = None ->
  result (network env (doCount s)) = inr res ->
  StatusCode res = 204 ->
  mu (outcome_state (run env (Request X rest method route jsonPayload) s))
  = {| readers := S (readers (mu s)); writer := false |}.
Proof.
  intros Hpos Hw Henc Hnr Hres H204.
  destruct (retries_pos rest Hpos) as [rem Hrem].
  rewrite (run_Request X rest env method route jsonPayload body s Henc), Hrem.
  rewrite attempts_turn by (rewrite afterAwait_mu; exact Hw).
  assert (Hd : doCount (rlocked (afterAwait s)) = doCount s)
    by (cbn; apply afterAwait_doCount).
  rewrite (handleRequest_204 X rest env method route (CONTENT_TYPE_JSON X) body
             (rlocked (afterAwait s)) Hnr res)
    by (rewrite ?Hd; assumption).
  cbn. rewrite afterAwait_mu. reflexivity.
Qed.

(** ** Pools: deadlocks are final, single runs embed *)

Lemma waiting_no_step {A : Type} (env : Env) (p : Prog A) (s : State) :
  waiting env p s = true -> step_thread env p s = None.
Proof.
  destruct p as [a | msg | Y e k]; cbn; try discriminate.
  destruct (handle env e s); [discriminate | reflexivity | discriminate].
Qed.

Lemma finished_no_step {A : Type} (env : Env) (p : Prog A) (s : State) :
  finished p = true -> step_thread env p s = None.
Proof. destruct p; cbn; [reflexivity | discriminate | discriminate]. Qed.

(** No goroutine of a deadlocked pool ever moves again. *)
Lemma deadlocked_final {A : Type} (env : Env) (c c' : Config A) :
  deadlocked env c -> ~ pstep env c c'.
Proof.
  intros [_ Hall] Hstep. inversion Hstep as [s s' before after p p' Hp]; subst.
  cbn in Hall. rewrite Forall_forall in Hall.
  assert (Hin : In p (before ++ p :: after)) by (apply in_elt).
  destruct (Hall p Hin) as [Hf | Hw].
  - rewrite (finished_no_step env p s Hf) in Hp. discriminate.
  - rewrite (waiting_no_step env p s Hw) in Hp. discriminate.
Qed.

Lemma deadlockedb_sound {A : Type} (env : Env) (c : Config A) :
  deadlockedb env c = true -> deadlocked env c.
Proof.
  unfold deadlockedb, deadlocked. intros H.
  apply andb_true_iff in H as [Hex Hall]. split.
  - apply existsb_exists in Hex as [p [Hin Hp]].
    apply Exists_exists. exists p. split; assumption.
  - rewrite forallb_forall in Hall. apply Forall_forall.
    intros p Hin. apply orb_true_iff. apply Hall. exact Hin.
Qed.

Lemma reachable_step {A : Type} (env : Env) (c1 c2 c3 : Config A) :
  pstep env c1 c2 -> reachable env c2 c3 -> reachable env c1 c3.
Proof. intros H1 H2. unfold reachable. econstructor 2; eassumption. Qed.

Lemma replace_nth_split {A : Type} (i : nat) (x y : A) (l : list A) :
  nth_error l i = Some y ->
  exists before after,
    l = (before ++ y :: after)%list /\
    replace_nth i x l = (before ++ x :: after)%list.
Proof.
  revert l. induction i as [| i IH]; intros [| z l] H; cbn in H; try discriminate.
  - injection H as ->. exists [], l. split; reflexivity.
  - destruct (IH l H) as [before [after [E1 E2]]].
    exists (z :: before), after. cbn. rewrite <- E1, E2. split; reflexivity.
Qed.

(** Every schedule is an execution of the pool. *)
Lemma exec_reachable {A : Type} (env : Env) (schedule : list nat) :
  forall c : Config A, reachable env c (exec env schedule c).
Proof.
  induction schedule as [| i schedule IH]; intros [s pool]; cbn.
  - constructor 1.
  - destruct (nth_error pool i) as [p |] eqn:Hnth; [| apply IH].
    destruct (step_thread env p s) as [[p' s'] |] eqn:Hstep; [| apply IH].
    destruct (replace_nth_split i p' p pool Hnth) as [before [after [E1 E2]]].
    eapply reachable_step; [| apply IH].
    rewrite E2. rewrite E1 at 1. constructor. exact Hstep.
Qed.

(** A call that ends waiting when run alone leaves its goroutine waiting in
    the pool that holds just that call. *)
Lemma run_Blocked_pool {A : Type} (env : Env) (p : Prog A) :
  forall s w s',
    run env p s = Blocked w s' ->
    exists p', reachable env (s, [p]) (s', [p']) /\ waiting env p' s' = true.
Proof.
  induction p as [a | msg | Y e k IH]; intros s w s' H; cbn in H; try discriminate.
  destruct (handle env e s) as [x s1 | w1 | msg] eqn:He; try discriminate.
  - destruct (IH x s1 w s' H) as [p' [Hreach Hwait]].
    exists p'. split; [| exact Hwait].
    eapply reachable_step; [| exact Hreach].
    apply (pstep_thread env s s1 [] [] (Vis e k) (k x)).
    cbn. rewrite He. reflexivity.
  - injection H as <- <-. exists (Vis e k). split; [constructor 1 |].
    cbn. rewrite He. reflexivity.
Qed.

Lemma waiting_alone_deadlocked {A : Type} (env : Env) (p : Prog A) (s : State) :
  waiting env p s = true -> deadlocked env (s, [p]).
Proof.
  intros H. split; cbn.
  - apply Exists_cons_hd. exact H.
  - apply Forall_cons; [right; exact H | apply Forall_nil].
Qed.

(** ** Status 429 under the read lock *)

Section RateLimited.

Variable X : Externals.
Variable rest : BaseRestClient.
Variable env : Env.
Variables method route : string.
Variable jsonPayload : option (Payload X).
Variable body : option Reader.
Variable s : State.
Variable res : Response.
Variable b : string.

Hypothesis one_attempt : 0 < uint8 (MaxRetries rest).
Hypothesis no_writer : writer (mu s) = false.
Hypothesis encoded : encodeJSON X jsonPayload = Some body.
Hypothesis newRequest_ok :
  http_NewRequest_err X method (DISCORD_API_URL X ++ route) = None.
Hypothesis answered : result (network env (doCount s)) = inr res.
Hypothesis status_429 : StatusCode res = 429.
Hypothesis body_read : Body res = inl b.

(** A call whose first attempt is answered 429 stops at [rest.mu.Lock()]
    (rest.go:190): the loop took the read lock at rest.go:78 and still
    holds it. *)
Lemma Request_429_run :
  run env (Request X rest method route jsonPayload) s =
  Blocked WaitLock (stoppedAt X rest env method route body s b).
Proof.
  destruct (retries_pos rest one_attempt) as [rem Hrem].
  rewrite (run_Request X rest env method route jsonPayload body s encoded), Hrem.
  rewrite attempts_turn by (rewrite afterAwait_mu; exact no_writer).
  assert (Hd : doCount (rlocked (afterAwait s)) = doCount s)
    by (cbn; apply afterAwait_doCount).
  rewrite (handleRequest_429_waits X rest env method route (CONTENT_TYPE_JSON X)
             body (rlocked (afterAwait s)) newRequest_ok res b);
    rewrite ?Hd; try assumption; try reflexivity.
  right. cbn. lia.
Qed.

Lemma stoppedAt_lockedTo :
  lockedTo (stoppedAt X rest env method route body s b) = lockedTo s.
Proof. unfold stoppedAt. cbn. apply afterAwait_lockedTo. Qed.

Lemma stoppedAt_mu :
  mu (stoppedAt X rest env method route body s b)
  = {| readers := S (readers (mu s)); writer := false |}.
Proof. unfold stoppedAt. cbn. rewrite afterAwait_mu. reflexivity. Qed.

End RateLimited.

(** The same at any turn: when the attempts before the 429 failed in the
    transport, the loop stops at that [Lock] all the same.  From the start
    of the loop to the stop [lockedTo] is not written. *)
Section RateLimitedLater.

Variable X : Externals.
Variable rest : BaseRestClient.
Variable env : Env.
Variables method route contentType exhausted : string.
Variable res : Response.
Variable b : string.

Hypothesis newRequest_ok :
  http_NewRequest_err X method (DISCORD_API_URL X ++ route) = None.
Hypothesis status_429 : StatusCode res = 429.
Hypothesis body_read : Body res = inl b.

Lemma attempts_429_blocks (k : nat) :
  forall rem i payload s,
    (k < rem)%nat ->
    writer (mu s) = false ->
    (forall j, (j < k)%nat -> exists e, result (network env (doCount s + j)) = inl e) ->
    result (network env (doCount s + k)) = inr res ->
    exists s' evs,
      run env (attempts X rest method route contentType exhausted rem i payload) s
      = Blocked WaitLock s'
      /\ trace s' = (trace s ++ evs)%list
      /\ Forall (fun ev => isWriteLockedTo ev = false) evs
      /\ lockedTo s' = lockedTo s
      /\ doCount s' = S (doCount s + k)
      /\ (0 < readers (mu s'))%nat.
Proof.
  induction k as [| k IH]; intros rem i payload s Hk Hw Hfail Hres;
    (destruct rem as [| rem]; [lia |]);
    rewrite attempts_turn by exact Hw.
  - rewrite Nat.add_0_r in Hres.
    rewrite (handleRequest_429_waits X rest env method route contentType payload
               (rlocked s) newRequest_ok res b Hres status_429 body_read)
      by (right; cbn; lia).
    eexists. eexists. split; [reflexivity |].
    split; [cbn; rewrite <- !app_assoc; reflexivity |].
    split; [repeat constructor |].
    split; [reflexivity |].
    split; [cbn; lia | cbn; lia].
  - destruct (Hfail 0%nat) as [e He]; [lia |]. rewrite Nat.add_0_r in He.
    rewrite (handleRequest_transport_error X rest env method route contentType
               payload (rlocked s) newRequest_ok e He).
    cbn [readers mu didDo rlocked log set_mu count_do elapse].
    set (s1 := slept _ _).
    assert (Hmu1 : mu s1 = mu s) by (subst s1; cbn; apply mu_eta; exact Hw).
    assert (Hd1 : doCount s1 = S (doCount s)) by (subst s1; reflexivity).
    destruct (IH rem (uint8 (i + 1))
                 (option_map (advance (consumed (network env (doCount (rlocked s)))))
                             payload) s1)
      as [s' [evs [Hrun [Htr [Hnw [Hlk [Hdo Hrd]]]]]]].
    + lia.
    + rewrite Hmu1. exact Hw.
    + intros j Hj. rewrite Hd1.
      destruct (Hfail (S j)) as [e' He']; [lia |].
      exists e'. rewrite <- He'. f_equal. f_equal. lia.
    + rewrite Hd1. rewrite <- Hres. f_equal. f_equal. lia.
    + exists s'. eexists. split; [exact Hrun |].
      split; [rewrite Htr; subst s1; cbn; rewrite <- !app_assoc; cbn; reflexivity |].
      split; [repeat constructor; exact Hnw |].
      split; [rewrite Hlk; reflexivity |].
      split; [rewrite Hdo, Hd1; lia | exact Hrd].
Qed.

End RateLimitedLater.

(** C1.  A single call whose first attempt is answered 429 deadlocks by
    itself: the pool holding just that call reaches a configuration in which
    its goroutine waits for the write lock while holding the read lock, and
    no goroutine can move.  The deadline is as it was: it has not been
    installed. *)
Theorem Request_429_deadlock
    (X : Externals) (rest : BaseRestClient) (env : Env) (s : State)
    (method route : string) (jsonPayload : option (Payload X))
    (body : option Reader) (res : Response) (b : string) :
  0 < uint8 (MaxRetries rest) ->
  writer (mu s) = false ->
  encodeJSON X jsonPayload = Some body ->
  http_NewRequest_err X method (DISCORD_API_URL X ++ route) = None ->
  result (network env (doCount s)) = inr res ->
  StatusCode res = 429 ->
  Body res = inl b ->
  exists c : Config Result,
    reachable env (s, [Request X rest method route jsonPayload]) c
    /\ deadlocked env c
    /\ (forall c', ~ pstep env c c')
    /\ (0 < readers (mu (fst c)))%nat
    /\ lockedTo (fst c) = lockedTo s.
Proof.
  intros Hpos Hw Henc Hnr Hres H429 Hb.
  pose proof (Request_429_run X rest env method route jsonPayload body s res b
                Hpos Hw Henc Hnr Hres H429 Hb) as Hrun.
  destruct (run_Blocked_pool env _ _ _ _ Hrun) as [p' [Hreach Hwait]].
  exists (stoppedAt X rest env method route body s b, [p']).
  pose proof (waiting_alone_deadlocked env p' _ Hwait) as Hdead.
  split; [exact Hreach |]. split; [exact Hdead |].
  split; [intros c'; apply deadlocked_final; exact Hdead |].
  split.
  - cbn [fst]. rewrite stoppedAt_mu. cbn. lia.
  - cbn [fst]. apply stoppedAt_lockedTo.
Qed.

Lemma Request_429_deadlock_witness :
  exists c : Config Result,
    reachable (Demo.always (Demo.answer 429 "429 Too Many Requests" Demo.rateBody))
      (fresh 1000, [Request Demo.X0 Demo.client "GET" "/gateway" None]) c
    /\ deadlocked (Demo.always (Demo.answer 429 "429 Too Many Requests" Demo.rateBody)) c
    /\ (forall c', ~ pstep (Demo.always (Demo.answer 429 "429 Too Many Requests" Demo.rateBody)) c c')
    /\ (0 < readers (mu (fst c)))%nat
    /\ lockedTo (fst c) = lockedTo (fresh 1000).
Proof.
  apply (Request_429_deadlock Demo.X0 Demo.client
           (Demo.always (Demo.answer 429 "429 Too Many Requests" Demo.rateBody))
           (fresh 1000) "GET" "/gateway" None None
           {| StatusCode := 429; Status := "429 Too Many Requests";
              Body := inl Demo.rateBody |} Demo.rateBody);
    reflexivity.
Defined.

(** Ten calls at once, the first of them answered 429 and the others 200:
    under a round-robin schedule the nine others return, each leaving its
    read lock held, and the first waits for the write lock for ever. *)
Example ten_calls_one_429 :
  let env := Demo.firstThen (Demo.answer 429 "429 Too Many Requests" Demo.rateBody)
                            (Demo.answer 200 "200 OK" "{}") in
  let pool := repeat (Request Demo.X0 Demo.client "GET" "/gateway" None) 10 in
  let c := exec env (List.concat (repeat (seq 0 10) 5)) (fresh 1000, pool) in
  reachable env (fresh 1000, pool) c
  /\ deadlocked env c
  /\ map finished (snd c)
     = [false; true; true; true; true; true; true; true; true; true]
  /\ mu (fst c) = {| readers := 10; writer := false |}
  /\ lockedTo (fst c) = zeroTime.
Proof.
  cbv zeta. split; [apply exec_reachable |].
  split; [apply deadlockedb_sound; vm_compute; reflexivity |].
  split; [vm_compute; reflexivity |].
  split; vm_compute; reflexivity.
Qed.

(** What the 429 branch computes for the gate. *)
Example cooldown_two_seconds : cooldown (f32_of_Z 2) = 7 * Second.
Proof. vm_compute. reflexivity. Qed.

Example cooldown_unset : cooldown (RetryAfter rateLimitError_zero) = 5 * Second.
Proof. vm_compute. reflexivity. Qed.

(** 2.5 is 5 * 2^-1: the conversion to [time.Duration] drops the half
    second. *)
Example cooldown_fraction_dropped :
  cooldown (S754_finite false 5 (-1)) = 7 * Second.
Proof. vm_compute. reflexivity. Qed.

Lemma afterRateLimit_lockedTo r s : lockedTo (afterRateLimit r s) = zeroTime.
Proof. reflexivity. Qed.

Lemma afterRateLimit_now r s :
  now (afterRateLimit r s) = now s + Z.max 0 (cooldown r).
Proof.
  unfold afterRateLimit, slept. cbn. f_equal. f_equal. lia.
Qed.

(** C4.  A call that is answered 429 with a body that parses to [rateErr],
    at its first attempt or after attempts that failed in the transport,
    does not install the deadline now + (retry_after + 5) s, does not sleep
    until it and does not report a retryable failure: it stops at [rest.mu.Lock()] (rest.go:190) under
    its own read lock, and from the check of the gate to that stop
    [lockedTo] is not written. *)
Theorem Request_429_deadline_not_installed
    (X : Externals) (rest : BaseRestClient) (env : Env) (s : State)
    (method route : string) (jsonPayload : option (Payload X))
    (body : option Reader) (res : Response) (b : string)
    (rateErr : rateLimitError) (k : nat) :
  (k < retries rest)%nat ->
  writer (mu s) = false ->
  encodeJSON X jsonPayload = Some body ->
  http_NewRequest_err X method (DISCORD_API_URL X ++ route) = None ->
  (forall j, (j < k)%nat -> exists e, result (network env (doCount s + j)) = inl e) ->
  result (network env (doCount s + k)) = inr res ->
  StatusCode res = 429 ->
  Body res = inl b ->
  json_Unmarshal X b = (rateErr, None) ->
  exists s' evs,
    run env (Request X rest method route jsonPayload) s = Blocked WaitLock s'
    /\ trace s' = (trace (afterAwait s) ++ evs)%list
    /\ Forall (fun ev => isWriteLockedTo ev = false) evs
    /\ lockedTo s' = lockedTo s
    /\ doCount s' = S (doCount s + k).
Proof.
  intros Hk Hw Henc Hnr Hfail Hres H429 Hb _.
  rewrite (run_Request X rest env method route jsonPayload body s Henc).
  destruct (attempts_429_blocks X rest env method route (CONTENT_TYPE_JSON X)
              (exhaustedRequest method route) res b Hnr H429 Hb k
              (retries rest) 0 body (afterAwait s))
    as [s' [evs [Hrun [Htr [Hnw [Hlk [Hdo _]]]]]]];
    rewrite ?afterAwait_mu, ?afterAwait_doCount; try assumption.
  exists s', evs. rewrite afterAwait_lockedTo, afterAwait_doCount in *.
  repeat split; assumption.
Qed.

Lemma Request_429_deadline_not_installed_witness :
  exists s' evs,
    run (Demo.firstThen Demo.timedOut
           (Demo.answer 429 "429 Too Many Requests" Demo.rateBody))
        (Request Demo.X0 Demo.client "GET" "/gateway" None) (fresh 1000)
    = Blocked WaitLock s'
    /\ trace s' = (trace (afterAwait (fresh 1000)) ++ evs)%list
    /\ Forall (fun ev => isWriteLockedTo ev = false) evs
    /\ lockedTo s' = lockedTo (fresh 1000)
    /\ doCount s' = 2%nat.
Proof.
  apply (Request_429_deadline_not_installed Demo.X0 Demo.client
           (Demo.firstThen Demo.timedOut
              (Demo.answer 429 "429 Too Many Requests" Demo.rateBody))
           (fresh 1000) "GET" "/gateway" None None
           {| StatusCode := 429; Status := "429 Too Many Requests";
              Body := inl Demo.rateBody |} Demo.rateBody
           {| Message := ""; RetryAfter := f32_of_Z 2; Global := false |} 1%nat);
    try reflexivity.
  - apply Nat.ltb_lt. reflexivity.
  - intros j Hj. exists "context deadline exceeded".
    destruct j as [| j]; [reflexivity |].
    apply Nat.succ_lt_mono in Hj. inversion Hj.
Defined.

(** C10.  A call that is answered 429 with a body that does not parse, at
    its first attempt or after attempts that failed in the transport, does
    not engage the gate for five seconds and does not return a retryable
    failure either: it stops at the same [rest.mu.Lock()]; [lockedTo] is
    neither set nor reset and keeps the value it had. *)
Theorem Request_429_unparsable_body_blocks
    (X : Externals) (rest : BaseRestClient) (env : Env) (s : State)
    (method route : string) (jsonPayload : option (Payload X))
    (body : option Reader) (res : Response) (b e : string) (k : nat) :
  (k < retries rest)%nat ->
  writer (mu s) = false ->
  encodeJSON X jsonPayload = Some body ->
  http_NewRequest_err X method (DISCORD_API_URL X ++ route) = None ->
  (forall j, (j < k)%nat -> exists e', result (network env (doCount s + j)) = inl e') ->
  result (network env (doCount s + k)) = inr res ->
  StatusCode res = 429 ->
  Body res = inl b ->
  json_Unmarshal X b = (rateLimitError_zero, Some e) ->
  exists s' evs,
    run env (Request X rest method route jsonPayload) s = Blocked WaitLock s'
    /\ trace s' = (trace (afterAwait s) ++ evs)%list
    /\ Forall (fun ev => isWriteLockedTo ev = false) evs
    /\ lockedTo s' = lockedTo s
    /\ (0 < readers (mu s'))%nat.
Proof.
  intros Hk Hw Henc Hnr Hfail Hres H429 Hb _.
  rewrite (run_Request X rest env method route jsonPayload body s Henc).
  destruct (attempts_429_blocks X rest env method route (CONTENT_TYPE_JSON X)
              (exhaustedRequest method route) res b Hnr H429 Hb k
              (retries rest) 0 body (afterAwait s))
    as [s' [evs [Hrun [Htr [Hnw [Hlk [_ Hrd]]]]]]];
    rewrite ?afterAwait_mu, ?afterAwait_doCount; try assumption.
  exists s', evs. rewrite afterAwait_lockedTo in *.
  repeat split; assumption.
Qed.

Lemma Request_429_unparsable_body_blocks_witness :
  exists s' evs,
    run (Demo.always (Demo.answer 429 "429 Too Many Requests" "<html>"))
        (Request Demo.X0 Demo.client "GET" "/gateway" None) (fresh 1000)
    = Blocked WaitLock s'
    /\ trace s' = (trace (afterAwait (fresh 1000)) ++ evs)%list
    /\ Forall (fun ev => isWriteLockedTo ev = false) evs
    /\ lockedTo s' = lockedTo (fresh 1000)
    /\ (0 < readers (mu s'))%nat.
Proof.
  apply (Request_429_unparsable_body_blocks Demo.X0 Demo.client
           (Demo.always (Demo.answer 429 "429 Too Many Requests" "<html>"))
           (fresh 1000) "GET" "/gateway" None None
           {| StatusCode := 429; Status := "429 Too Many Requests";
              Body := inl "<html>" |} "<html>" "invalid character" 0%nat);
    try reflexivity.
  - apply Nat.ltb_lt. reflexivity.
  - intros j Hj. inversion Hj.
Defined.

(** ** The retry budget and the pauses *)

Lemma backoff_1 : backoff 1 = 250 * Microsecond.
Proof. reflexivity. Qed.

Lemma backoff_2 : backoff 2 = 244 * Microsecond.
Proof. reflexivity. Qed.

Lemma backoff_3 : backoff 3 = 238 * Microsecond.
Proof. reflexivity. Qed.

(** [250*i] is a uint8: from the second turn on the product wraps, and the
    second pause is shorter than the first. *)
Lemma backoff_shrinks : backoff 2 < backoff 1.
Proof. rewrite backoff_1, backoff_2. reflexivity. Qed.

Section Exhaustion.

Variable X : Externals.
Variable rest : BaseRestClient.
Variable env : Env.
Variables method route contentType exhausted : string.

Hypothesis newRequest_ok :
  http_NewRequest_err X method (DISCORD_API_URL X ++ route) = None.
Hypothesis all_fail : forall n, exists e, result (network env n) = inl e.

(** When every [Do] fails in the transport, the loop makes exactly [rem]
    attempts, pauses after each of them, the last one included, and returns
    the exhausted-retries error; the gate is left as it was. *)
Lemma attempts_all_fail rem :
  forall i payload s,
    writer (mu s) = false ->
    exists s' evs,
      run env (attempts X rest method route contentType exhausted rem i payload) s
      = Returned (None, Some exhausted) s'
      /\ trace s' = (trace s ++ evs)%list
      /\ doCount s' = (doCount s + rem)%nat
      /\ mu s' = mu s
      /\ lockedTo s' = lockedTo s
      /\ sleeps evs = pauses rem i
      /\ List.length (filter isDo evs) = rem.
Proof.
  induction rem as [| rem IH]; intros i payload s Hw.
  - exists s, []. cbn. rewrite app_nil_r, Nat.add_0_r. repeat split; reflexivity.
  - rewrite attempts_turn by exact Hw.
    destruct (all_fail (doCount (rlocked s))) as [e He].
    rewrite (handleRequest_transport_error X rest env method route contentType
               payload (rlocked s) newRequest_ok e He).
    cbn [readers mu didDo rlocked log set_mu count_do elapse].
    set (s1 := slept _ _).
    assert (Hmu1 : mu s1 = mu s).
    { subst s1. cbn. apply mu_eta. exact Hw. }
    assert (Hw1 : writer (mu s1) = false) by (rewrite Hmu1; exact Hw).
    destruct (IH (uint8 (i + 1))
                 (option_map (advance (consumed (network env (doCount (rlocked s)))))
                             payload) s1 Hw1)
      as [s' [evs [Hrun [Htr [Hdo [Hmu [Hlk [Hsl Hn]]]]]]]].
    exists s'. eexists. split; [exact Hrun |].
    split.
    { rewrite Htr. subst s1. cbn. rewrite <- !app_assoc. cbn. reflexivity. }
    split; [rewrite Hdo; subst s1; cbn; lia |].
    split; [rewrite Hmu; exact Hmu1 |].
    split; [rewrite Hlk; reflexivity |].
    split; [cbn; rewrite Hsl; reflexivity |].
    cbn. rewrite Hn. reflexivity.
Qed.

End Exhaustion.

(** C6.  With the default budget of three attempts and a network that fails
    every time, the call makes exactly three attempts and returns the
    exhausted-retries error; the pauses after the attempts are 250, 244 and
    238 microseconds: they shrink. *)
Theorem Request_exhausted_pauses_shrink
    (X : Externals) (rest : BaseRestClient) (env : Env) (s : State)
    (method route : string) (jsonPayload : option (Payload X))
    (body : option Reader) :
  MaxRetries rest = 3 ->
  writer (mu s) = false ->
  encodeJSON X jsonPayload = Some body ->
  http_NewRequest_err X method (DISCORD_API_URL X ++ route) = None ->
  (forall n, exists e, result (network env n) = inl e) ->
  exists s' evs,
    run env (Request X rest method route jsonPayload) s
    = Returned (None, Some (exhaustedRequest method route)) s'
    /\ trace s' = (trace (afterAwait s) ++ evs)%list
    /\ List.length (filter isDo evs) = 3%nat
    /\ sleeps evs = [250 * Microsecond; 244 * Microsecond; 238 * Microsecond]
    /\ strictlyGrowing (sleeps evs) = false.
Proof.
  intros HM Hw Henc Hnr Hfail.
  rewrite (run_Request X rest env method route jsonPayload body s Henc).
  assert (Hret : retries rest = 3%nat) by (unfold retries; rewrite HM; reflexivity).
  rewrite Hret.
  destruct (attempts_all_fail X rest env method route (CONTENT_TYPE_JSON X)
              (exhaustedRequest method route) Hnr Hfail 3 0 body (afterAwait s))
    as [s' [evs [Hrun [Htr [_ [_ [_ [Hsl Hn]]]]]]]].
  { rewrite afterAwait_mu. exact Hw. }
  exists s', evs. repeat split; try assumption.
  rewrite Hsl. reflexivity.
Qed.

Lemma Request_exhausted_pauses_shrink_witness :
  exists s' evs,
    run (Demo.always Demo.timedOut)
        (Request Demo.X0 Demo.client "GET" "/gateway" None) (fresh 1000)
    = Returned (None, Some (exhaustedRequest "GET" "/gateway")) s'
    /\ trace s' = (trace (afterAwait (fresh 1000)) ++ evs)%list
    /\ List.length (filter isDo evs) = 3%nat
    /\ sleeps evs = [250 * Microsecond; 244 * Microsecond; 238 * Microsecond]
    /\ strictlyGrowing (sleeps evs) = false.
Proof.
  apply (Request_exhausted_pauses_shrink Demo.X0 Demo.client
           (Demo.always Demo.timedOut) (fresh 1000) "GET" "/gateway" None None);
    try reflexivity.
  intros n. exists "context deadline exceeded". reflexivity.
Defined.

(** ** The body of a retry *)

Lemma drop_all (d : string) (n : nat) :
  (String.length d <= n)%nat -> drop n d = "".
Proof.
  revert n. induction d as [| c d IH]; intros [| n] H; cbn in *;
    try reflexivity; try lia.
  apply IH. lia.
Qed.

(** A reader the transport has read to the end offers nothing more. *)
Lemma unread_advance_all (d : string) (n : nat) :
  (String.length d <= n)%nat -> unread (advance n (NewReader d)) = "".
Proof.
  intros H. unfold unread, advance, NewReader. cbn.
  apply drop_all. lia.
Qed.

Lemma unread_NewReader (d : string) : unread (NewReader d) = d.
Proof. reflexivity. Qed.

(** C5.  A JSON call whose first attempt fails in the transport after the
    body was written sends an empty body in its second attempt: the reader
    made once before the loop is shared by the attempts, and the first one
    has read it to the end. *)
Theorem Request_retry_sends_drained_body
    (X : Externals) (rest : BaseRestClient) (env : Env) (s : State)
    (method route : string) (p : Payload X) (raw e : string) (res : Response) :
  1 < uint8 (MaxRetries rest) ->
  writer (mu s) = false ->
  json_Marshal X p = inl raw ->
  http_NewRequest_err X method (DISCORD_API_URL X ++ route) = None ->
  result (network env (doCount s)) = inl e ->
  (String.length (Replace raw (requestSwapNullArray X) (requestSwapEmptyArray X))
   <= consumed (network env (doCount s)))%nat ->
  result (network env (S (doCount s))) = inr res ->
  StatusCode res = 204 ->
  exists s' evs,
    run env (Request X rest method route (Some p)) s = Returned (None, None) s'
    /\ trace s' = (trace (afterAwait s) ++ evs)%list
    /\ sentBodies evs
       = [Some (Replace raw (requestSwapNullArray X) (requestSwapEmptyArray X));
          Some ""].
Proof.
  intros Hpos Hw Hm Hnr Hfail Hcons Hres H204.
  set (patched := Replace raw (requestSwapNullArray X) (requestSwapEmptyArray X)) in *.
  assert (Henc : encodeJSON X (Some p) = Some (Some (NewReader patched)))
    by (unfold encodeJSON; rewrite Hm; reflexivity).
  assert (Hrem : exists rem, retries rest = S (S rem)).
  { unfold retries.
    exists (Nat.pred (Nat.pred (Z.to_nat (uint8 (MaxRetries rest))))). lia. }
  destruct Hrem as [rem Hrem].
  rewrite (run_Request X rest env method route (Some p) _ s Henc), Hrem.
  assert (Hd : doCount (rlocked (afterAwait s)) = doCount s)
    by (cbn; apply afterAwait_doCount).
  rewrite attempts_turn by (rewrite afterAwait_mu; exact Hw).
  rewrite (handleRequest_transport_error X rest env method route (CONTENT_TYPE_JSON X)
             (Some (NewReader patched)) (rlocked (afterAwait s)) Hnr e)
    by (rewrite Hd; exact Hfail).
  cbn [readers mu didDo rlocked log set_mu count_do elapse].
  rewrite attempts_turn by reflexivity.
  rewrite (handleRequest_204 X rest env method route (CONTENT_TYPE_JSON X) _ _ Hnr res);
    [| cbn; rewrite afterAwait_doCount; assumption | assumption].
  eexists. eexists. split; [reflexivity |].
  split.
  - cbn. rewrite <- !app_assoc. cbn. rewrite afterAwait_doCount. reflexivity.
  - cbn. rewrite drop_all by lia. reflexivity.
Qed.

Lemma Request_retry_sends_drained_body_witness :
  exists s' evs,
    run (Demo.firstThen Demo.timedOut (Demo.answer 204 "204 No Content" ""))
        (Request Demo.X0 Demo.client "PATCH" "/channels/1/messages/2"
                 (Some Demo.embedsNull)) (fresh 1000)
    = Returned (None, None) s'
    /\ trace s' = (trace (afterAwait (fresh 1000)) ++ evs)%list
    /\ sentBodies evs
       = [Some (Replace Demo.embedsNull "null" "[]"); Some ""].
Proof.
  apply (Request_retry_sends_drained_body Demo.X0 Demo.client
           (Demo.firstThen Demo.timedOut (Demo.answer 204 "204 No Content" ""))
           (fresh 1000) "PATCH" "/channels/1/messages/2" Demo.embedsNull
           Demo.embedsNull "context deadline exceeded"
           {| StatusCode := 204; Status := "204 No Content"; Body := inl "" |});
    try reflexivity.
  apply Nat.leb_le. reflexivity.
Defined.

(** ** The rewrite of the serialized payload *)

Lemma prefix_head (c : ascii) (o t : string) :
  String.prefix (String c o) t = true ->
  exists t', t = String c t' /\ String.prefix o t' = true.
Proof.
  destruct t as [| c' t']; cbn; [discriminate |].
  destruct (ascii_dec c c') as [-> | _]; [| discriminate].
  intros H. exists t'. split; [reflexivity | exact H].
Qed.

Lemma prefix_cons (c : ascii) (o t : string) :
  String.prefix o t = true -> String.prefix (String c o) (String c t) = true.
Proof. cbn. destruct (ascii_dec c c) as [_ | N]; [auto | contradiction]. Qed.

Lemma disjoint_tail (a : string) (x : ascii) (b : string) :
  disjoint a (String x b) = true -> disjoint a b = true.
Proof.
  induction a as [| c a IH]; cbn; [reflexivity |].
  intros H. apply andb_true_iff in H as [H1 H2].
  apply negb_true_iff, orb_false_iff in H1 as [_ H1].
  rewrite H1, (IH H2). reflexivity.
Qed.

Lemma Replace_nonempty (s : string) (c : ascii) (o new : string) :
  Replace s (String c o) new = replace_from (String c o) new 0 s.
Proof. reflexivity. Qed.

Section Rewrite.

Variables old new : string.
Variable n : ascii.
Variable new' : string.

Hypothesis new_shape : new = String n new'.

(** A block that shares no byte with [new] and starts the output started
    the input already. *)
Lemma prefix_replace_from (s : string) :
  forall o,
    disjoint new o = true ->
    String.prefix o (replace_from old new 0 s) = true ->
    String.prefix o s = true.
Proof.
  induction s as [| c s IH]; intros o Ho H; [exact H |].
  destruct o as [| x o]; [reflexivity |].
  cbn [replace_from] in H.
  destruct (String.prefix old (String c s)).
  - exfalso. rewrite new_shape in H, Ho. cbn [append] in H.
    apply prefix_head in H as [t' [E _]]. injection E as -> _.
    cbn in Ho. rewrite Ascii.eqb_refl in Ho. discriminate.
  - apply prefix_head in H as [t' [E Hp]]. injection E as Ec Et. subst.
    apply prefix_cons. apply IH; [| exact Hp].
    eapply disjoint_tail. exact Ho.
Qed.

Variable c0 : ascii.
Variable old' : string.

Hypothesis old_shape : old = String c0 old'.
Hypothesis apart : disjoint new old = true.

Lemma Contains_after (a t : string) :
  disjoint a old = true ->
  Contains t old = false -> Contains (a ++ t) old = false.
Proof.
  induction a as [| x a IH]; cbn [append]; intros Ha Ht; [exact Ht |].
  cbn in Ha. apply andb_true_iff in Ha as [Hx Ha].
  cbn [Contains]. rewrite (IH Ha Ht), orb_false_r.
  rewrite old_shape in Hx |- *. cbn.
  destruct (ascii_dec c0 x) as [-> | _]; [| reflexivity].
  cbn in Hx. rewrite Ascii.eqb_refl in Hx. discriminate.
Qed.

(** The pattern does not occur in what the rewrite gives. *)
Lemma replace_from_clean (s : string) :
  forall skip, Contains (replace_from old new skip s) old = false.
Proof.
  induction s as [| c s IH]; intros skip.
  - cbn. rewrite old_shape. reflexivity.
  - cbn [replace_from]. destruct skip as [| k]; [| apply IH].
    destruct (String.prefix old (String c s)) eqn:Hp.
    + apply Contains_after; [exact apart | apply IH].
    + cbn [Contains]. rewrite IH, orb_false_r.
      destruct (String.prefix old (String c (replace_from old new 0 s))) eqn:Hq;
        [| reflexivity].
      rewrite old_shape in Hq, Hp.
      apply prefix_head in Hq as [t' [E Hq]]. injection E as Ec Et.
      rewrite <- Et in Hq. rewrite Ec in Hp. rewrite <- old_shape in Hq.
      rewrite prefix_cons in Hp; [discriminate |].
      apply prefix_replace_from; [| exact Hq].
      apply disjoint_tail with (x := c0). rewrite <- old_shape. exact apart.
Qed.

Lemma replace_from_fixed (t : string) :
  Contains t old = false -> replace_from old new 0 t = t.
Proof.
  induction t as [| c t IH]; intros H; [reflexivity |].
  cbn [Contains] in H. apply orb_false_iff in H as [Hp Ht].
  cbn [replace_from]. rewrite Hp, (IH Ht). reflexivity.
Qed.

(** On the JSON path the rewrite leaves no occurrence of the pattern, and
    rewriting again changes nothing, provided the replacement is not empty
    and shares no byte with the pattern. *)
Lemma Replace_clean (s : string) : Contains (Replace s old new) old = false.
Proof.
  rewrite old_shape, Replace_nonempty, <- old_shape.
  apply replace_from_clean.
Qed.

Lemma Replace_idempotent (s : string) :
  Replace (Replace s old new) old new = Replace s old new.
Proof.
  rewrite old_shape, !Replace_nonempty, <- old_shape.
  apply replace_from_fixed. apply replace_from_clean.
Qed.

End Rewrite.

(** So it is for the literal null and the empty array. *)
Example Replace_null_idempotent (s : string) :
  Replace (Replace s "null" "[]") "null" "[]" = Replace s "null" "[]".
Proof. apply (Replace_idempotent "null" "[]" "["%char "]" eq_refl "n"%char "ull" eq_refl eq_refl). Qed.

(** It is not for every pair of constants. *)
Example Replace_not_idempotent_in_general :
  Replace (Replace "abb" "ab" "a") "ab" "a" <> Replace "abb" "ab" "a".
Proof. vm_compute. discriminate. Qed.

(** ** Multipart bodies *)

Lemma append_assoc (a b c : string) : (a ++ b) ++ c = a ++ (b ++ c).
Proof. induction a as [| x a IH]; cbn; [reflexivity | rewrite IH; reflexivity]. Qed.

Lemma append_nil_r (a : string) : a ++ "" = a.
Proof. induction a as [| x a IH]; cbn; [reflexivity | rewrite IH; reflexivity]. Qed.

(** The loop over the files appends one part per file, in order. *)
Lemma writeFiles_layout (files : list File) :
  forall itx w w',
    lastpart w = true ->
    writeFiles itx files w = inl w' ->
    buf w' = buf w ++ renderParts (wboundary w) false (fileParts itx files)
    /\ wboundary w' = wboundary w.
Proof.
  induction files as [| file files IH]; intros itx w w' Hlast H; cbn in H.
  - injection H as <-. cbn. rewrite append_nil_r. split; reflexivity.
  - destruct (Stat file) as [name | err] eqn:Hstat; [| discriminate].
    destruct (CopyErr file) as [err |]; [discriminate |].
    apply IH in H; [| reflexivity].
    destruct H as [Hbuf Hb].
    unfold Write, CreatePart in Hbuf, Hb.
    cbn [buf wboundary lastpart] in Hbuf, Hb. rewrite Hlast in Hbuf.
    split; [| exact Hb].
    rewrite Hbuf. cbn [fileParts renderParts]. rewrite Hstat.
    unfold renderPart, filePart. cbn [pHeader pContent].
    rewrite !append_assoc. reflexivity.
Qed.

Lemma fileParts_length (files : list File) :
  forall itx, List.length (fileParts itx files) = List.length files.
Proof.
  induction files as [| file files IH]; intros itx; cbn;
    [reflexivity | rewrite IH; reflexivity].
Qed.

Lemma fileParts_octet_stream (files : list File) :
  forall itx,
    Forall (fun p => In ("Content-Type", "application/octet-stream") (pHeader p))
           (fileParts itx files).
Proof.
  induction files as [| file files IH]; intros itx; cbn [fileParts].
  - constructor.
  - constructor; [cbn; right; left; reflexivity | apply IH].
Qed.

(** With a payload and N files the writer makes N+1 parts, the JSON part
    first and the files in the order given, each file part of type
    application/octet-stream; the bytes of the rewritten JSON stand in front
    of the first boundary. *)
Lemma encodeMultipart_layout (X : Externals) (raw b : string)
    (files : list File) (w : Writer) :
  encodeMultipart X raw b files = inl w ->
  buf w = Replace raw (requestSwapNullArray X) (requestSwapEmptyArray X)
          ++ renderParts b true (jsonPart X raw :: fileParts 0 files)
          ++ closingLine b
  /\ List.length (jsonPart X raw :: fileParts 0 files) = S (List.length files)
  /\ Forall (fun p => In ("Content-Type", "application/octet-stream") (pHeader p))
            (fileParts 0 files).
Proof.
  unfold encodeMultipart. intros H.
  destruct (writeFiles 0 files _) as [w1 | err] eqn:Hw; [| discriminate].
  injection H as <-.
  apply writeFiles_layout in Hw; [| reflexivity].
  destruct Hw as [Hbuf Hb].
  unfold Write, CreatePart, NewWriter in Hbuf, Hb.
  cbn [buf wboundary lastpart] in Hbuf, Hb.
  split; [| split].
  - unfold Close, Write. cbn [buf]. rewrite Hbuf, Hb.
    cbn [renderParts]. unfold renderPart, jsonPart, closingLine.
    cbn [pHeader pContent]. rewrite !append_assoc. reflexivity.
  - cbn. rewrite fileParts_length. reflexivity.
  - apply fileParts_octet_stream.
Qed.

(** C3.  With no payload (nil) and at least one file, [RequestWithFiles]
    produces no body at all: after the check of the gate it dereferences the
    nil [*multipart.Writer] at [writer.CreatePart] (rest.go:114) and
    panics. *)
Theorem RequestWithFiles_nil_payload_panics
    (X : Externals) (rest : BaseRestClient) (env : Env) (s : State)
    (method route : string) (file : File) (files : list File) :
  run env (RequestWithFiles X rest method route None (file :: files)) s
  = Panicked nilDereference (afterAwait s).
Proof.
  unfold RequestWithFiles. rewrite run_bind, run_awaitLockedTo. reflexivity.
Qed.

(** C7.  In a multipart body the rewrite of null arrays does not reach the
    JSON part: the rewritten bytes are what the buffer held before the writer
    was created on it, so they precede the first boundary, and the content
    of the payload_json part is the serialization as [json.Marshal] gave
    it, followed by a newline. *)
Theorem encodeMultipart_json_part_not_rewritten
    (X : Externals) (raw b : string) (files : list File) (w : Writer) :
  encodeMultipart X raw b files = inl w ->
  buf w = Replace raw (requestSwapNullArray X) (requestSwapEmptyArray X)
          ++ renderPart b true {| pHeader := payloadHeader X; pContent := raw ++ LF |}
          ++ renderParts b false (fileParts 0 files)
          ++ closingLine b.
Proof.
  intros H. destruct (encodeMultipart_layout X raw b files w H) as [Hbuf _].
  rewrite Hbuf. cbn [renderParts]. unfold jsonPart.
  rewrite !append_assoc. reflexivity.
Qed.

Lemma encodeMultipart_json_part_not_rewritten_witness :
  encodeMultipart Demo.X0 Demo.embedsNull "5f1c" [Demo.picture] = inl Demo.encoded
  /\ Replace Demo.embedsNull "null" "[]" = "{" ++ dquote ++ "embeds" ++ dquote ++ ":[]}"
  /\ buf Demo.encoded
     = Replace Demo.embedsNull "null" "[]"
       ++ renderPart "5f1c" true
            {| pHeader := payloadHeader Demo.X0;
               pContent := "{" ++ dquote ++ "embeds" ++ dquote ++ ":null}" ++ LF |}
       ++ renderParts "5f1c" false (fileParts 0 [Demo.picture])
       ++ closingLine "5f1c".
Proof.
  split; [reflexivity |]. split; [reflexivity |].
  apply (encodeMultipart_json_part_not_rewritten Demo.X0 Demo.embedsNull "5f1c"
           [Demo.picture] Demo.encoded).
  reflexivity.
Defined.

(** What [encodeMultipart] builds is what the first attempt offers to the
    network. *)
Lemma RequestWithFiles_sends_encoded
    (X : Externals) (rest : BaseRestClient) (env : Env) (s : State)
    (method route : string) (p : Payload X) (raw : string)
    (file : File) (files : list File) (w : Writer) (res : Response) :
  0 < uint8 (MaxRetries rest) ->
  writer (mu s) = false ->
  json_Marshal X p = inl raw ->
  encodeMultipart X raw (boundary env) (file :: files) = inl w ->
  http_NewRequest_err X method (DISCORD_API_URL X ++ route) = None ->
  result (network env (doCount s)) = inr res ->
  StatusCode res = 204 ->
  exists s' evs,
    run env (RequestWithFiles X rest method route (Some p) (file :: files)) s
    = Returned (None, None) s'
    /\ trace s' = (trace (afterAwait s) ++ evs)%list
    /\ sentBodies evs = [Some (buf w)].
Proof.
  intros Hpos Hw Hm Henc Hnr Hres H204.
  destruct (retries_pos rest Hpos) as [rem Hrem].
  unfold RequestWithFiles. rewrite run_bind, run_awaitLockedTo.
  unfold sendFiles. rewrite Hm.
  cbn [trigger bind run handle]. rewrite Henc, Hrem.
  rewrite attempts_turn by (cbn; rewrite afterAwait_mu; exact Hw).
  rewrite (handleRequest_204 X rest env method route _ _ _ Hnr res);
    [| cbn; rewrite afterAwait_doCount; assumption | assumption].
  eexists. eexists. split; [reflexivity |]. split.
  - cbn. rewrite <- !app_assoc. reflexivity.
  - reflexivity.
Qed.

(** ** When the gate is consulted *)

Lemma handle_keeps_trace {Y : Type} (env : Env) (e : Effect Y) (s : State) :
  readsGate e = false ->
  match handle env e s with
  | Answer _ s' =>
      exists ev, trace s' = (trace s ++ [ev])%list /\ isReadLockedTo ev = false
  | _ => True
  end.
Proof.
  destruct e; cbn; intros H; try discriminate;
    try (eexists; split; reflexivity).
  - destruct (writer (mu s)); [exact I | eexists; split; reflexivity].
  - destruct (readers (mu s)); [exact I | eexists; split; reflexivity].
  - destruct (writer (mu s)); [exact I |].
    destruct (readers (mu s)); [eexists; split; reflexivity | exact I].
  - destruct (writer (mu s)); [eexists; split; reflexivity | exact I].
Qed.

(** A program that never reads [lockedTo] leaves no such read in the
    trace, however it ends. *)
Lemma run_neverReadsGate {A : Type} (env : Env) (p : Prog A) :
  neverReadsGate p ->
  forall s, exists evs,
    trace (outcome_state (run env p s)) = (trace s ++ evs)%list
    /\ Forall (fun ev => isReadLockedTo ev = false) evs.
Proof.
  induction p as [a | msg | Y e k IH]; intros Hp s; cbn.
  - exists []. rewrite app_nil_r. split; [reflexivity | constructor].
  - exists []. rewrite app_nil_r. split; [reflexivity | constructor].
  - destruct Hp as [He Hk].
    pose proof (handle_keeps_trace env e s He) as Hh.
    destruct (handle env e s) as [x s1 | w | msg]; cbn.
    + destruct Hh as [ev [Htr Hev]].
      destruct (IH x (Hk x) s1) as [evs [Htr' Hall]].
      exists (ev :: evs). split.
      * rewrite Htr', Htr, <- app_assoc. reflexivity.
      * constructor; assumption.
    + exists []. rewrite app_nil_r. split; [reflexivity | constructor].
    + exists []. rewrite app_nil_r. split; [reflexivity | constructor].
Qed.

Lemma neverReadsGate_bind {A B : Type} (m : Prog A) (f : A -> Prog B) :
  neverReadsGate m -> (forall a, neverReadsGate (f a)) ->
  neverReadsGate (bind m f).
Proof.
  induction m as [a | msg | Y e k IH]; cbn; intros Hm Hf.
  - apply Hf.
  - exact I.
  - destruct Hm as [He Hk]. split; [exact He |].
    intros x. apply IH; [apply Hk | exact Hf].
Qed.

Ltac never_reads :=
  repeat first
    [ exact I
    | reflexivity
    | apply neverReadsGate_bind
    | progress cbn [neverReadsGate trigger readsGate]
    | split
    | intro ].

Lemma neverReadsGate_handleRequest (X : Externals) (rest : BaseRestClient)
    method route payload contentType :
  neverReadsGate (handleRequest X rest method route payload contentType).
Proof.
  unfold handleRequest.
  destruct (http_NewRequest_err X method (DISCORD_API_URL X ++ route));
    [exact I |].
  apply neverReadsGate_bind; [never_reads |].
  intros r. destruct (result r) as [e | res]; [exact I |].
  destruct (StatusCode res =? 204); [exact I |].
  apply neverReadsGate_bind; [never_reads |].
  intros [body | e]; [| exact I].
  destruct (StatusCode res =? 429).
  - never_reads.
  - destruct ((StatusCode res <? 200) || (299 <? StatusCode res)); exact I.
Qed.

Lemma neverReadsGate_attempts (X : Externals) (rest : BaseRestClient)
    method route contentType exhausted rem :
  forall i payload,
    neverReadsGate (attempts X rest method route contentType exhausted rem i payload).
Proof.
  induction rem as [| rem IH]; intros i payload; cbn [attempts].
  - exact I.
  - apply neverReadsGate_bind; [never_reads |]. intros _.
    apply neverReadsGate_bind; [apply neverReadsGate_handleRequest |].
    intros [[[raw err] fin] payload']. destruct fin; [exact I |].
    apply neverReadsGate_bind; [never_reads |]. intros _.
    apply neverReadsGate_bind; [never_reads |]. intros _.
    apply IH.
Qed.

Lemma neverReadsGate_sendFiles (X : Externals) (rest : BaseRestClient)
    method route jsonPayload files :
  neverReadsGate (sendFiles X rest method route jsonPayload files).
Proof.
  unfold sendFiles. destruct jsonPayload as [p |]; [| exact I].
  destruct (json_Marshal X p) as [raw | e]; [| exact I].
  apply neverReadsGate_bind; [never_reads |]. intros b.
  destruct (encodeMultipart X raw b files); [| exact I].
  apply neverReadsGate_attempts.
Qed.

(** With files the order is the same: the check of the gate, then the
    encoding and the loop, which do not read [lockedTo]. *)
Lemma RequestWithFiles_gate_consulted_once
    (X : Externals) (rest : BaseRestClient) (env : Env) (s : State)
    (method route : string) (jsonPayload : option (Payload X))
    (file : File) (files : list File) :
  run env (RequestWithFiles X rest method route jsonPayload (file :: files)) s
  = run env (sendFiles X rest method route jsonPayload (file :: files)) (afterAwait s)
  /\ exists evs,
       trace (outcome_state
                (run env (RequestWithFiles X rest method route jsonPayload
                            (file :: files)) s))
       = (trace (afterAwait s) ++ evs)%list
       /\ Forall (fun ev => isReadLockedTo ev = false) evs.
Proof.
  assert (E : run env (RequestWithFiles X rest method route jsonPayload (file :: files)) s
              = run env (sendFiles X rest method route jsonPayload (file :: files))
                    (afterAwait s)).
  { unfold RequestWithFiles. rewrite run_bind, run_awaitLockedTo. reflexivity. }
  split; [exact E |]. rewrite E.
  apply run_neverReadsGate. apply neverReadsGate_sendFiles.
Qed.

(** A call that needs one attempt only has a read of [lockedTo] before
    each attempt. *)
Example Request_single_attempt_checked :
  consultedBeforeEvery false
    (trace (outcome_state
              (run (Demo.always (Demo.answer 200 "200 OK" "{}"))
                   (Request Demo.X0 Demo.client "GET" "/gateway" None)
                   (fresh 1000))))
  = true.
Proof. vm_compute. reflexivity. Qed.

(* ========================================================================= *)
(** * Further properties of rest.go *)

(** ** The gate under the read lock *)

Section UnderReadLock.

Variable X : Externals.
Variable rest : BaseRestClient.
Variable env : Env.
Variables method route contentType : string.

(** One attempt made while a read lock is held never gets the write lock:
    it leaves the mutex and [lockedTo] as they are, writes nothing to the
    gate, does not sleep, does not panic, and if it stops it stops at
    [Lock]. *)
Lemma handleRequest_under_read_lock payload s :
  writer (mu s) = false ->
  (0 < readers (mu s))%nat ->
  exists evs,
    let o := run env (handleRequest X rest method route payload contentType) s in
    trace (outcome_state o) = (trace s ++ evs)%list
    /\ mu (outcome_state o) = mu s
    /\ lockedTo (outcome_state o) = lockedTo s
    /\ Forall (fun ev => sentAs X rest method route contentType ev
                         /\ isWriteLockedTo ev = false
                         /\ isLockEvent ev = false) evs
    /\ sleeps evs = []
    /\ panicked o = false
    /\ (forall w s', o = Blocked w s' -> w = WaitLock).
Proof.
  intros Hw Hr. unfold handleRequest.
  destruct (http_NewRequest_err X method (DISCORD_API_URL X ++ route)).
  { exists []. cbn. rewrite app_nil_r. repeat split; try constructor; discriminate. }
  cbn [trigger bind run handle].
  destruct (result (network env (doCount s))) as [e | res].
  { eexists. cbn. repeat split; try reflexivity; repeat constructor; discriminate. }
  destruct (StatusCode res =? 204).
  { eexists. cbn. repeat split; try reflexivity; repeat constructor; discriminate. }
  cbn [trigger bind run handle].
  destruct (Body res) as [body | e].
  2:{ eexists. cbn. rewrite <- app_assoc. cbn.
      repeat split; try reflexivity; repeat constructor; discriminate. }
  destruct (StatusCode res =? 429).
  - cbn [trigger bind run handle mu log count_do elapse]. rewrite Hw.
    destruct (readers (mu s)) as [| n]; [lia |].
    eexists. cbn. rewrite <- app_assoc. cbn.
    repeat split; try reflexivity; repeat constructor.
    intros w s' E. injection E as <- _. reflexivity.
  - destruct ((StatusCode res <? 200) || (299 <? StatusCode res));
      eexists; cbn; rewrite <- app_assoc; cbn;
      repeat split; try reflexivity; repeat constructor; discriminate.
Qed.

End UnderReadLock.

Section LoopInvariant.

Variable X : Externals.
Variable rest : BaseRestClient.
Variable env : Env.
Variables method route contentType exhausted : string.

Let fits (ev : Event) : Prop :=
  sentAs X rest method route contentType ev
  /\ isWriteLockedTo ev = false
  /\ isLockEvent ev = false.

(** The loop, from any state and on any network: [lockedTo] is never
    written and the write lock never taken; every request goes to the same
    URL with the same method and headers; the loop never panics; when it
    returns because the budget ran out the mutex is as it was found, and
    when it returns from inside a turn one more read lock is held. *)
Lemma attempts_keep_gate rem :
  forall i payload s,
  exists evs,
    let o := run env (attempts X rest method route contentType exhausted
                        rem i payload) s in
    trace (outcome_state o) = (trace s ++ evs)%list
    /\ lockedTo (outcome_state o) = lockedTo s
    /\ Forall fits evs
    /\ match o with
       | Returned r s1 =>
           (r = (None, Some exhausted) /\ mu s1 = mu s)
           \/ mu s1 = {| readers := S (readers (mu s)); writer := false |}
       | Blocked _ _ => True
       | Panicked _ _ => False
       end.
Proof.
  induction rem as [| rem IH]; intros i payload s; cbv zeta.
  - exists []. cbn. rewrite app_nil_r.
    repeat split; [constructor | left; split; reflexivity].
  - destruct (writer (mu s)) eqn:Hw.
    + exists []. cbn [attempts trigger bind run handle]. rewrite Hw. cbn.
      rewrite app_nil_r. repeat split; constructor.
    + rewrite attempts_turn by exact Hw.
      destruct (handleRequest_under_read_lock X rest env method route contentType
                  payload (rlocked s)) as [evs1 H1]; [reflexivity | cbn; lia |].
      cbv zeta in H1.
      destruct (run env (handleRequest X rest method route payload contentType)
                    (rlocked s))
        as [[[[raw err] fin] payload'] s1 | w s1 | msg s1];
        cbn [outcome_state panicked] in H1;
        destruct H1 as [Htr [Hmu [Hlk [Hall [_ [Hp _]]]]]]; [| | discriminate].
      * destruct fin.
        -- exists (EvRLock :: evs1). cbn [outcome_state].
           split; [rewrite Htr; cbn; rewrite <- app_assoc; reflexivity |].
           split; [rewrite Hlk; reflexivity |].
           split; [constructor; [repeat split | exact Hall] |].
           right. rewrite Hmu. reflexivity.
        -- rewrite Hmu. cbn [readers mu rlocked log set_mu].
           set (s2 := slept _ _).
           assert (Hmu2 : mu s2 = mu s).
           { subst s2. cbn. rewrite Hmu. cbn. apply mu_eta. exact Hw. }
           destruct (IH (uint8 (i + 1)) payload' s2) as [evs2 H2].
           cbv zeta in H2. destruct H2 as [Htr2 [Hlk2 [Hall2 Hend]]].
           exists (EvRLock :: evs1 ++ EvRUnlock :: EvSleep (backoff (uint8 (i + 1))) :: evs2)%list.
           split.
           { rewrite Htr2. subst s2. cbn. rewrite Htr. cbn.
             repeat (rewrite <- app_assoc; cbn). reflexivity. }
           split; [rewrite Hlk2; subst s2; cbn; rewrite Hlk; reflexivity |].
           split.
           { constructor; [repeat split |].
             apply Forall_app. split; [exact Hall |].
             constructor; [repeat split |].
             constructor; [repeat split | exact Hall2]. }
           rewrite Hmu2 in Hend. exact Hend.
      * exists (EvRLock :: evs1). cbn [outcome_state].
        split; [rewrite Htr; cbn; rewrite <- app_assoc; reflexivity |].
        split; [rewrite Hlk; reflexivity |].
        split; [constructor; [repeat split | exact Hall] | exact I].
Qed.

End LoopInvariant.

Lemma afterAwait_trace (s : State) :
  exists gate,
    trace (afterAwait s) = (trace s ++ gate)%list
    /\ Forall (fun ev => isDo ev = false
                         /\ isWriteLockedTo ev = false
                         /\ isLockEvent ev = false) gate.
Proof.
  unfold afterAwait.
  destruct (negb (IsZero (lockedTo s)));
    [destruct (0 <? lockedTo s - now s) |]; cbn;
    repeat (rewrite <- app_assoc; cbn);
    eexists; (split; [reflexivity | repeat constructor]).
Qed.

Lemma Forall_fits_quiet (X : Externals) (rest : BaseRestClient)
    (method route contentType : string) (evs : list Event) :
  Forall (fun ev => sentAs X rest method route contentType ev
                    /\ isWriteLockedTo ev = false
                    /\ isLockEvent ev = false) evs ->
  Forall (fun ev => isWriteLockedTo ev = false /\ isLockEvent ev = false) evs.
Proof.
  intros H. eapply Forall_impl; [| exact H].
  intros ev [_ H']. exact H'.
Qed.

Lemma Forall_gate_quiet (gate : list Event) :
  Forall (fun ev => isDo ev = false
                    /\ isWriteLockedTo ev = false
                    /\ isLockEvent ev = false) gate ->
  Forall (fun ev => isWriteLockedTo ev = false /\ isLockEvent ev = false) gate.
Proof.
  intros H. eapply Forall_impl; [| exact H].
  intros ev [_ H']. exact H'.
Qed.

(** What [sendFiles] does to the gate and how it can end. *)
Lemma sendFiles_keep_gate (X : Externals) (rest : BaseRestClient) (env : Env)
    (method route : string) (jsonPayload : option (Payload X))
    (files : list File) (s : State) :
  exists evs,
    let o := run env (sendFiles X rest method route jsonPayload files) s in
    trace (outcome_state o) = (trace s ++ evs)%list
    /\ lockedTo (outcome_state o) = lockedTo s
    /\ Forall (fun ev => isWriteLockedTo ev = false /\ isLockEvent ev = false) evs
    /\ (panicked o = true <-> jsonPayload = None).
Proof.
  unfold sendFiles. destruct jsonPayload as [p |].
  2:{ exists []. cbn. rewrite app_nil_r.
      repeat split; try constructor; auto. }
  destruct (json_Marshal X p) as [raw | e].
  2:{ exists []. cbn. rewrite app_nil_r.
      repeat split; try constructor; discriminate. }
  cbn [trigger bind run handle].
  destruct (encodeMultipart X raw (boundary env) files) as [w | err].
  2:{ eexists. cbn. repeat split; try reflexivity; repeat constructor; discriminate. }
  destruct (attempts_keep_gate X rest env method route (FormDataContentType w)
              (exhaustedFiles method route) (retries rest) 0
              (Some (NewReader (buf w))) (log (EvBoundary (boundary env)) s))
    as [evs [Htr [Hlk [Hall Hend]]]].
  cbv zeta in *.
  exists (EvBoundary (boundary env) :: evs).
  split; [rewrite Htr; cbn; rewrite <- app_assoc; reflexivity |].
  split; [rewrite Hlk; reflexivity |].
  split; [constructor; [split; reflexivity | eapply Forall_fits_quiet; exact Hall] |].
  destruct (run env _ _); cbn; split; try discriminate; contradiction.
Qed.

(** ** What no call ever does *)

(** No run of [Request] or [RequestWithFiles], from whatever state and on
    whatever network, writes [lockedTo] or takes the write lock: the
    deadline a call finds is the deadline it leaves, whether it returns,
    stops or panics. *)
Theorem calls_never_write_the_gate
    (X : Externals) (rest : BaseRestClient) (env : Env) (s : State)
    (method route : string) (jsonPayload : option (Payload X))
    (files : list File) :
  let o := run env (RequestWithFiles X rest method route jsonPayload files) s in
  let o' := run env (Request X rest method route jsonPayload) s in
  (lockedTo (outcome_state o) = lockedTo s
   /\ exists evs,
        trace (outcome_state o) = (trace s ++ evs)%list
        /\ Forall (fun ev => isWriteLockedTo ev = false /\ isLockEvent ev = false) evs)
  /\ (lockedTo (outcome_state o') = lockedTo s
      /\ exists evs,
           trace (outcome_state o') = (trace s ++ evs)%list
           /\ Forall (fun ev => isWriteLockedTo ev = false /\ isLockEvent ev = false) evs).
Proof.
  cbv zeta.
  assert (HR : lockedTo (outcome_state (run env (Request X rest method route jsonPayload) s))
               = lockedTo s
               /\ exists evs,
                    trace (outcome_state (run env (Request X rest method route jsonPayload) s))
                    = (trace s ++ evs)%list
                    /\ Forall (fun ev => isWriteLockedTo ev = false
                                         /\ isLockEvent ev = false) evs).
  { destruct (encodeJSON X jsonPayload) as [body |] eqn:Henc.
    - rewrite (run_Request X rest env method route jsonPayload body s Henc).
      destruct (attempts_keep_gate X rest env method route (CONTENT_TYPE_JSON X)
                  (exhaustedRequest method route) (retries rest) 0 body (afterAwait s))
        as [evs [Htr [Hlk [Hall _]]]].
      cbv zeta in *. destruct (afterAwait_trace s) as [gate [Hg Hgq]].
      split; [rewrite Hlk; apply afterAwait_lockedTo |].
      exists (gate ++ evs)%list. split.
      + rewrite Htr, Hg, <- app_assoc. reflexivity.
      + apply Forall_app. split;
          [apply Forall_gate_quiet; exact Hgq | eapply Forall_fits_quiet; exact Hall].
    - unfold Request. rewrite Henc. cbn. split; [reflexivity |].
      exists []. rewrite app_nil_r. split; [reflexivity | constructor]. }
  split; [| exact HR].
  destruct files as [| file files]; [exact HR |].
  unfold RequestWithFiles. rewrite run_bind, run_awaitLockedTo.
  destruct (sendFiles_keep_gate X rest env method route jsonPayload (file :: files)
              (afterAwait s)) as [evs [Htr [Hlk [Hall _]]]].
  cbv zeta in *. destruct (afterAwait_trace s) as [gate [Hg Hgq]].
  split; [rewrite Hlk; apply afterAwait_lockedTo |].
  exists (gate ++ evs)%list. split.
  - rewrite Htr, Hg, <- app_assoc. reflexivity.
  - apply Forall_app. split; [apply Forall_gate_quiet; exact Hgq | exact Hall].
Qed.

Lemma Request_no_panic
    (X : Externals) (rest : BaseRestClient) (env : Env) (s : State)
    (method route : string) (jsonPayload : option (Payload X)) :
  panicked (run env (Request X rest method route jsonPayload) s) = false.
Proof.
  destruct (encodeJSON X jsonPayload) as [body |] eqn:Henc.
  - rewrite (run_Request X rest env method route jsonPayload body s Henc).
    destruct (attempts_keep_gate X rest env method route (CONTENT_TYPE_JSON X)
                (exhaustedRequest method route) (retries rest) 0 body (afterAwait s))
      as [evs [_ [_ [_ Hend]]]].
    cbv zeta in Hend. destruct (run env _ _); [reflexivity | reflexivity | contradiction].
  - unfold Request. rewrite Henc. reflexivity.
Qed.

Lemma RequestWithFiles_no_panic
    (X : Externals) (rest : BaseRestClient) (env : Env) (s : State)
    (method route : string) (p : Payload X) (files : list File) :
  panicked (run env (RequestWithFiles X rest method route (Some p) files) s) = false.
Proof.
  destruct files as [| file files].
  - apply Request_no_panic.
  - unfold RequestWithFiles. rewrite run_bind, run_awaitLockedTo.
    destruct (sendFiles_keep_gate X rest env method route (Some p) (file :: files)
                (afterAwait s)) as [evs [_ [_ [_ Hp]]]].
    cbv zeta in Hp. destruct (panicked _); [| reflexivity].
    destruct Hp as [Hp _]. discriminate (Hp eq_refl).
Qed.

(** [Request] never panics, and [RequestWithFiles] panics exactly when it is
    given files and no payload. *)
Theorem RequestWithFiles_panics_iff
    (X : Externals) (rest : BaseRestClient) (env : Env) (s : State)
    (method route : string) (jsonPayload : option (Payload X))
    (files : list File) :
  panicked (run env (Request X rest method route jsonPayload) s) = false
  /\ (panicked (run env (RequestWithFiles X rest method route jsonPayload files) s)
      = true
      <-> jsonPayload = None /\ files <> []).
Proof.
  pose proof (Request_no_panic X rest env s method route jsonPayload) as HR.
  split; [exact HR |].
  destruct files as [| file files].
  - cbn [RequestWithFiles]. rewrite HR. split; [discriminate |].
    intros [_ H]. contradiction.
  - unfold RequestWithFiles. rewrite run_bind, run_awaitLockedTo.
    destruct (sendFiles_keep_gate X rest env method route jsonPayload (file :: files)
                (afterAwait s)) as [evs [_ [_ [_ Hp]]]].
    cbv zeta in Hp. rewrite Hp. split.
    + intros ->. split; [reflexivity | discriminate].
    + intros [-> _]. reflexivity.
Qed.

(** A call that returns has either run out of budget or failed to serialize
    its payload, and then the mutex is as it was found, or it has returned
    from inside a turn of the loop, and then it holds one read lock more
    than it found: rest.go:80-82 returns without [RUnlock]. *)
Theorem Request_lock_balance
    (X : Externals) (rest : BaseRestClient) (env : Env) (s s' : State)
    (method route : string) (jsonPayload : option (Payload X)) (r : Result) :
  run env (Request X rest method route jsonPayload) s = Returned r s' ->
  (mu s' = mu s
   /\ (r = (None, Some (exhaustedRequest method route))
       \/ r = (None,
               Some "failed to parse provided payload (make sure it's in JSON format)")))
  \/ mu s' = {| readers := S (readers (mu s)); writer := false |}.
Proof.
  intros H.
  destruct (encodeJSON X jsonPayload) as [body |] eqn:Henc.
  - rewrite (run_Request X rest env method route jsonPayload body s Henc) in H.
    destruct (attempts_keep_gate X rest env method route (CONTENT_TYPE_JSON X)
                (exhaustedRequest method route) (retries rest) 0 body (afterAwait s))
      as [evs [_ [_ [_ Hend]]]].
    cbv zeta in Hend. rewrite H in Hend. rewrite afterAwait_mu in Hend.
    destruct Hend as [[-> Hmu] | Hmu]; [left | right]; auto.
  - unfold Request in H. rewrite Henc in H. cbn in H. injection H as <- <-.
    left. auto.
Qed.

Lemma Request_lock_balance_witness :
  let env := Demo.always (Demo.answer 200 "200 OK" "{}") in
  let o := run env (Request Demo.X0 Demo.client "GET" "/gateway" None) (fresh 1000) in
  (mu (outcome_state o) = mu (fresh 1000)
   /\ ((Some "{}", None) = (None, Some (exhaustedRequest "GET" "/gateway"))
       \/ (Some "{}", None)
          = (None,
             Some "failed to parse provided payload (make sure it's in JSON format)")))
  \/ mu (outcome_state o) = {| readers := 1; writer := false |}.
Proof.
  cbv zeta.
  apply (Request_lock_balance Demo.X0 Demo.client
           (Demo.always (Demo.answer 200 "200 OK" "{}")) (fresh 1000) _
           "GET" "/gateway" None (Some "{}", None)).
  reflexivity.
Defined.

(** ** Failures that are retried *)

Lemma sleeps_app (l1 l2 : list Event) :
  sleeps (l1 ++ l2) = (sleeps l1 ++ sleeps l2)%list.
Proof.
  induction l1 as [| ev l1 IH]; [reflexivity |].
  destruct ev; cbn; rewrite ?IH; reflexivity.
Qed.

Section Retried.

Variable X : Externals.
Variable rest : BaseRestClient.
Variable env : Env.
Variables method route contentType exhausted : string.

Hypothesis newRequest_ok :
  http_NewRequest_err X method (DISCORD_API_URL X ++ route) = None.

(** [k] attempts that fail in the transport cost [k] turns: the loop goes
    on with the budget that is left, from a state in which the gate is as it
    was. *)
Lemma attempts_skip_failures (k : nat) :
  forall rem i payload s,
    writer (mu s) = false ->
    (forall j, (j < k)%nat -> exists e, result (network env (doCount s + j)) = inl e) ->
    exists s1 payload1 evs,
      run env (attempts X rest method route contentType exhausted (k + rem) i payload) s
      = run env (attempts X rest method route contentType exhausted rem
                   (turnIndex k i) payload1) s1
      /\ mu s1 = mu s
      /\ lockedTo s1 = lockedTo s
      /\ doCount s1 = (doCount s + k)%nat
      /\ trace s1 = (trace s ++ evs)%list
      /\ sleeps evs = pauses k i
      /\ List.length (filter isDo evs) = k
      /\ (payload = None -> payload1 = None).
Proof.
  induction k as [| k IH]; intros rem i payload s Hw Hfail.
  - exists s, payload, []. cbn. rewrite app_nil_r, Nat.add_0_r.
    repeat split; auto.
  - cbn [Nat.add]. rewrite attempts_turn by exact Hw.
    destruct (Hfail 0%nat) as [e He]; [lia |]. rewrite Nat.add_0_r in He.
    rewrite (handleRequest_transport_error X rest env method route contentType
               payload (rlocked s) newRequest_ok e He).
    cbn [readers mu didDo rlocked log set_mu count_do elapse].
    set (s2 := slept _ _).
    assert (Hmu2 : mu s2 = mu s) by (subst s2; cbn; apply mu_eta; exact Hw).
    assert (Hd2 : doCount s2 = S (doCount s)) by (subst s2; reflexivity).
    destruct (IH rem (uint8 (i + 1))
                 (option_map (advance (consumed (network env (doCount (rlocked s)))))
                             payload) s2)
      as [s1 [payload1 [evs [Hrun [Hmu [Hlk [Hdo [Htr [Hsl [Hn Hp]]]]]]]]]].
    + rewrite Hmu2. exact Hw.
    + intros j Hj. rewrite Hd2.
      destruct (Hfail (S j)) as [e' He']; [lia |].
      exists e'. rewrite <- He'. f_equal. f_equal. lia.
    + exists s1, payload1. eexists. split; [exact Hrun |].
      split; [rewrite Hmu; exact Hmu2 |].
      split; [rewrite Hlk; reflexivity |].
      split; [rewrite Hdo, Hd2; lia |].
      split; [rewrite Htr; subst s2; cbn; repeat (rewrite <- app_assoc; cbn);
              reflexivity |].
      split; [cbn; rewrite Hsl; reflexivity |].
      split; [cbn; rewrite Hn; reflexivity |].
      intros ->. apply Hp. reflexivity.
Qed.

End Retried.

(** A call recovers from transport failures: when [k] attempts fail, [k]
    below the budget, and the next one is answered with a status of 200..299
    other than 204, the call returns the body of that answer and no error,
    after [k] + 1 attempts and the [k] pauses in between. *)
Theorem Request_recovers_after_failures
    (X : Externals) (rest : BaseRestClient) (env : Env) (s : State)
    (method route : string) (jsonPayload : option (Payload X))
    (body : option Reader) (res : Response) (b : string) (k : nat) :
  (k < retries rest)%nat ->
  writer (mu s) = false ->
  encodeJSON X jsonPayload = Some body ->
  http_NewRequest_err X method (DISCORD_API_URL X ++ route) = None ->
  (forall j, (j < k)%nat -> exists e, result (network env (doCount s + j)) = inl e) ->
  result (network env (doCount s + k)) = inr res ->
  200 <= StatusCode res <= 299 ->
  StatusCode res <> 204 ->
  Body res = inl b ->
  exists s' evs,
    run env (Request X rest method route jsonPayload) s = Returned (Some b, None) s'
    /\ trace s' = (trace (afterAwait s) ++ evs)%list
    /\ List.length (filter isDo evs) = S k
    /\ sleeps evs = pauses k 0
    /\ doCount s' = S (doCount s + k).
Proof.
  intros Hk Hw Henc Hnr Hfail Hres Hin H204 Hb.
  rewrite (run_Request X rest env method route jsonPayload body s Henc).
  assert (Hsplit : exists rem, retries rest = (k + S rem)%nat)
    by (exists (retries rest - S k)%nat; lia).
  destruct Hsplit as [rem ->].
  destruct (attempts_skip_failures X rest env method route (CONTENT_TYPE_JSON X)
              (exhaustedRequest method route) Hnr k (S rem) 0 body (afterAwait s))
    as [s1 [payload1 [evs [Hrun [Hmu [_ [Hdo [Htr [Hsl [Hn _]]]]]]]]]].
  { rewrite afterAwait_mu. exact Hw. }
  { intros j Hj. rewrite afterAwait_doCount. apply Hfail. exact Hj. }
  rewrite Hrun.
  rewrite attempts_turn by (rewrite Hmu, afterAwait_mu; exact Hw).
  rewrite afterAwait_doCount in Hdo.
  rewrite (handleRequest_success X rest env method route (CONTENT_TYPE_JSON X)
             payload1 (rlocked s1) Hnr res b);
    [| cbn; rewrite Hdo; exact Hres | exact Hb | exact H204 | exact Hin].
  eexists. eexists. split; [reflexivity |].
  split; [cbn; rewrite Htr; repeat (rewrite <- app_assoc; cbn); reflexivity |].
  split.
  { rewrite filter_app, length_app, Hn. cbn. lia. }
  split.
  { rewrite sleeps_app, Hsl. cbn. apply app_nil_r. }
  cbn. rewrite Hdo. reflexivity.
Qed.

Lemma Request_recovers_after_failures_witness :
  exists s' evs,
    run (Demo.firstThen Demo.timedOut (Demo.answer 200 "200 OK" "{}"))
        (Request Demo.X0 Demo.client "GET" "/gateway" None) (fresh 1000)
    = Returned (Some "{}", None) s'
    /\ trace s' = (trace (afterAwait (fresh 1000)) ++ evs)%list
    /\ List.length (filter isDo evs) = 2%nat
    /\ sleeps evs = pauses 1 0
    /\ doCount s' = 2%nat.
Proof.
  apply (Request_recovers_after_failures Demo.X0 Demo.client
           (Demo.firstThen Demo.timedOut (Demo.answer 200 "200 OK" "{}"))
           (fresh 1000) "GET" "/gateway" None None
           {| StatusCode := 200; Status := "200 OK"; Body := inl "{}" |} "{}" 1%nat);
    try reflexivity.
  - apply Nat.ltb_lt. reflexivity.
  - intros j Hj. exists "context deadline exceeded".
    destruct j as [| j]; [reflexivity |].
    apply Nat.succ_lt_mono in Hj. inversion Hj.
  - split; apply Z.leb_le; reflexivity.
  - discriminate.
Defined.

(** When [http.NewRequest] refuses the method or the URL, a turn fails
    before anything is sent. *)
Section Unbuildable.

Variable X : Externals.
Variable rest : BaseRestClient.
Variable env : Env.
Variables method route contentType exhausted e : string.

Hypothesis newRequest_fails :
  http_NewRequest_err X method (DISCORD_API_URL X ++ route) = Some e.

Lemma attempts_unbuildable rem :
  forall i payload s,
    writer (mu s) = false ->
    exists s' evs,
      run env (attempts X rest method route contentType exhausted rem i payload) s
      = Returned (None, Some exhausted) s'
      /\ trace s' = (trace s ++ evs)%list
      /\ filter isDo evs = []
      /\ sleeps evs = pauses rem i
      /\ doCount s' = doCount s
      /\ mu s' = mu s.
Proof.
  induction rem as [| rem IH]; intros i payload s Hw.
  - exists s, []. cbn. rewrite app_nil_r. repeat split; reflexivity.
  - rewrite attempts_turn by exact Hw.
    rewrite (handleRequest_newRequest_error X rest env method route contentType
               payload (rlocked s) e newRequest_fails).
    cbn [readers mu rlocked log set_mu].
    set (s2 := slept _ _).
    assert (Hmu2 : mu s2 = mu s) by (subst s2; cbn; apply mu_eta; exact Hw).
    destruct (IH (uint8 (i + 1)) payload s2) as [s' [evs [Hrun [Htr [Hn [Hsl [Hdo Hmu]]]]]]].
    { rewrite Hmu2. exact Hw. }
    exists s'. eexists. split; [exact Hrun |].
    split; [rewrite Htr; subst s2; cbn; repeat (rewrite <- app_assoc; cbn);
            reflexivity |].
    split; [cbn; exact Hn |].
    split; [cbn; rewrite Hsl; reflexivity |].
    split; [rewrite Hdo; reflexivity | rewrite Hmu; exact Hmu2].
Qed.

End Unbuildable.

(** A request that cannot be built is retried all the same: every turn
    fails before anything is sent, so the call spends its whole budget and
    all the pauses without a single [Do], and ends with the
    exhausted-retries error, the reason given by [http.NewRequest] being
    lost. *)
Theorem Request_unbuildable_request_exhausts_budget
    (X : Externals) (rest : BaseRestClient) (env : Env) (s : State)
    (method route : string) (jsonPayload : option (Payload X))
    (body : option Reader) (e : string) :
  writer (mu s) = false ->
  encodeJSON X jsonPayload = Some body ->
  http_NewRequest_err X method (DISCORD_API_URL X ++ route) = Some e ->
  exists s' evs,
    run env (Request X rest method route jsonPayload) s
    = Returned (None, Some (exhaustedRequest method route)) s'
    /\ trace s' = (trace (afterAwait s) ++ evs)%list
    /\ filter isDo evs = []
    /\ sleeps evs = pauses (retries rest) 0
    /\ doCount s' = doCount s.
Proof.
  intros Hw Henc Hnr.
  rewrite (run_Request X rest env method route jsonPayload body s Henc).
  destruct (attempts_unbuildable X rest env method route (CONTENT_TYPE_JSON X)
              (exhaustedRequest method route) e Hnr (retries rest) 0 body
              (afterAwait s))
    as [s' [evs [Hrun [Htr [Hn [Hsl [Hdo _]]]]]]].
  { rewrite afterAwait_mu. exact Hw. }
  exists s', evs. rewrite afterAwait_doCount in Hdo. repeat split; assumption.
Qed.

Lemma Request_unbuildable_request_exhausts_budget_witness :
  exists s' evs,
    run (Demo.always (Demo.answer 200 "200 OK" "{}"))
        (Request Demo2.X1 Demo.client "GET /" "/gateway" None) (fresh 1000)
    = Returned (None, Some (exhaustedRequest "GET /" "/gateway")) s'
    /\ trace s' = (trace (afterAwait (fresh 1000)) ++ evs)%list
    /\ filter isDo evs = []
    /\ sleeps evs = pauses (retries Demo.client) 0
    /\ doCount s' = doCount (fresh 1000).
Proof.
  apply (Request_unbuildable_request_exhausts_budget Demo2.X1 Demo.client
           (Demo.always (Demo.answer 200 "200 OK" "{}")) (fresh 1000)
           "GET /" "/gateway" None None "net/http: invalid method");
    reflexivity.
Defined.

(** ** Failures that are not retried *)

(** An answer whose body cannot be read ends the call at once, whatever its
    status other than 204, 429 included: the read comes before the look at
    the status (rest.go:181-186), so the call returns the read error after
    one attempt, without a pause and without going near the gate. *)
Theorem Request_unreadable_body_is_terminal
    (X : Externals) (rest : BaseRestClient) (env : Env) (s : State)
    (method route : string) (jsonPayload : option (Payload X))
    (body : option Reader) (res : Response) (e : string) :
  0 < uint8 (MaxRetries rest) ->
  writer (mu s) = false ->
  encodeJSON X jsonPayload = Some body ->
  http_NewRequest_err X method (DISCORD_API_URL X ++ route) = None ->
  result (network env (doCount s)) = inr res ->
  StatusCode res <> 204 ->
  Body res = inr e ->
  exists s',
    run env (Request X rest method route jsonPayload) s
    = Returned (None, Some ("failed to parse response body (json): " ++ e)) s'
    /\ trace s' = (trace (afterAwait s)
                   ++ [EvRLock;
                       EvDo (requestOf X rest method route (CONTENT_TYPE_JSON X) body)
                            (network env (doCount s));
                       EvReadAll (inr e)])%list
    /\ lockedTo s' = lockedTo s.
Proof.
  intros Hpos Hw Henc Hnr Hres H204 Hb.
  destruct (retries_pos rest Hpos) as [rem Hrem].
  rewrite (run_Request X rest env method route jsonPayload body s Henc), Hrem.
  rewrite attempts_turn by (rewrite afterAwait_mu; exact Hw).
  rewrite (handleRequest_read_error X rest env method route (CONTENT_TYPE_JSON X) body
             (rlocked (afterAwait s)) Hnr res e);
    [| cbn; rewrite afterAwait_doCount; exact Hres | exact H204 | exact Hb].
  eexists. split; [reflexivity |]. cbn. rewrite afterAwait_doCount.
  split; [repeat (rewrite <- app_assoc; cbn); reflexivity |].
  apply afterAwait_lockedTo.
Qed.

Lemma Request_unreadable_body_is_terminal_witness :
  exists s',
    run (Demo.always Demo2.cutOff429)
        (Request Demo.X0 Demo.client "GET" "/gateway" None) (fresh 1000)
    = Returned (None, Some ("failed to parse response body (json): " ++ "unexpected EOF")) s'
    /\ trace s' = (trace (afterAwait (fresh 1000))
                   ++ [EvRLock;
                       EvDo (requestOf Demo.X0 Demo.client "GET" "/gateway"
                               "application/json" None)
                            Demo2.cutOff429;
                       EvReadAll (inr "unexpected EOF")])%list
    /\ lockedTo s' = lockedTo (fresh 1000).
Proof.
  apply (Request_unreadable_body_is_terminal Demo.X0 Demo.client
           (Demo.always Demo2.cutOff429) (fresh 1000) "GET" "/gateway" None None
           {| StatusCode := 429; Status := "429 Too Many Requests";
              Body := inr "unexpected EOF" |} "unexpected EOF");
    try reflexivity.
  discriminate.
Defined.

(** A payload that cannot be serialized is refused before anything else
    happens in [Request]: no look at the gate, no lock, no request, the
    state is untouched.  [RequestWithFiles] with files looks at the gate
    first, and may sleep there, before it refuses.  In both the error of
    [json.Marshal] is replaced by a fixed text. *)
Theorem unserializable_payload_is_refused
    (X : Externals) (rest : BaseRestClient) (env : Env) (s : State)
    (method route : string) (p : Payload X) (e : string)
    (file : File) (files : list File) :
  json_Marshal X p = inr e ->
  run env (Request X rest method route (Some p)) s
  = Returned (None,
              Some "failed to parse provided payload (make sure it's in JSON format)") s
  /\ run env (RequestWithFiles X rest method route (Some p) (file :: files)) s
     = Returned (None,
                 Some "failed to parse provided payload (make sure it's in JSON format)")
                (afterAwait s).
Proof.
  intros Hm. split.
  - unfold Request, encodeJSON. rewrite Hm. reflexivity.
  - unfold RequestWithFiles. rewrite run_bind, run_awaitLockedTo.
    unfold sendFiles. rewrite Hm. reflexivity.
Qed.

Lemma unserializable_payload_is_refused_witness :
  run (Demo.always (Demo.answer 200 "200 OK" "{}"))
      (Request Demo2.X1 Demo.client "POST" "/x" (Some None)) (fresh 1000)
  = Returned (None,
              Some "failed to parse provided payload (make sure it's in JSON format)")
             (fresh 1000)
  /\ run (Demo.always (Demo.answer 200 "200 OK" "{}"))
         (RequestWithFiles Demo2.X1 Demo.client "POST" "/x" (Some None)
            [Demo.picture]) (fresh 1000)
     = Returned (None,
                 Some "failed to parse provided payload (make sure it's in JSON format)")
                (afterAwait (fresh 1000)).
Proof.
  apply (unserializable_payload_is_refused Demo2.X1 Demo.client
           (Demo.always (Demo.answer 200 "200 OK" "{}")) (fresh 1000) "POST" "/x"
           None "json: unsupported type: chan int" Demo.picture []).
  reflexivity.
Defined.

(** With a budget of zero no attempt is made: the call looks at the gate
    and returns the exhausted-retries error, whatever the network would
    have answered. *)
Theorem Request_zero_budget
    (X : Externals) (rest : BaseRestClient) (env : Env) (s : State)
    (method route : string) (jsonPayload : option (Payload X))
    (body : option Reader) :
  uint8 (MaxRetries rest) = 0 ->
  encodeJSON X jsonPayload = Some body ->
  run env (Request X rest method route jsonPayload) s
  = Returned (None, Some (exhaustedRequest method route)) (afterAwait s).
Proof.
  intros H0 Henc.
  rewrite (run_Request X rest env method route jsonPayload body s Henc).
  unfold retries. rewrite H0. reflexivity.
Qed.

Lemma Request_zero_budget_witness :
  run (Demo.always (Demo.answer 200 "200 OK" "{}"))
      (Request Demo.X0 {| Token := "Bot token"; MaxRetries := 0 |}
               "GET" "/gateway" None) (fresh 1000)
  = Returned (None, Some (exhaustedRequest "GET" "/gateway")) (afterAwait (fresh 1000)).
Proof.
  apply (Request_zero_budget Demo.X0 {| Token := "Bot token"; MaxRetries := 0 |}
           (Demo.always (Demo.answer 200 "200 OK" "{}")) (fresh 1000)
           "GET" "/gateway" None None); reflexivity.
Defined.

(** ** Attachments *)

Lemma writeFiles_readable (files : list File) :
  forall itx w,
    forallb readable files = true ->
    exists w', writeFiles itx files w = inl w'.
Proof.
  induction files as [| file files IH]; intros itx w H; cbn.
  - exists w. reflexivity.
  - cbn in H. apply andb_true_iff in H as [Hf H]. unfold readable in Hf.
    destruct (Stat file) as [name | err]; [| discriminate].
    destruct (CopyErr file); [discriminate |]. apply IH. exact H.
Qed.

Lemma writeFiles_first_unreadable (good : list File) :
  forall itx w bad others,
    forallb readable good = true ->
    readable bad = false ->
    writeFiles itx (good ++ bad :: others) w
    = inr (match Stat bad with
           | inr err =>
               "failed to read statistics of file["
               ++ Itoa (itx + List.length good) ++ "]: " ++ err
           | inl _ =>
               "failed to encode your " ++ dquote ++ Name bad ++ dquote
               ++ " file data into multipart payload: "
               ++ match CopyErr bad with Some err => err | None => "" end
           end).
Proof.
  induction good as [| file good IH]; intros itx w bad others Hg Hb.
  - cbn [app writeFiles List.length]. rewrite Nat.add_0_r. unfold readable in Hb.
    destruct (Stat bad) as [name | err]; [| reflexivity].
    destruct (CopyErr bad); [reflexivity | discriminate].
  - cbn in Hg. apply andb_true_iff in Hg as [Hf Hg]. unfold readable in Hf.
    cbn [app writeFiles].
    destruct (Stat file) as [name | err]; [| discriminate].
    destruct (CopyErr file); [discriminate |].
    rewrite (IH (S itx) _ bad others Hg Hb). cbn [List.length].
    replace (S itx + List.length good)%nat with (itx + S (List.length good))%nat by lia.
    reflexivity.
Qed.

(** The first attachment whose metadata cannot be read ends
    [RequestWithFiles] before anything is sent: the error names the position
    of that file in the list, counted from 0, and carries the error of
    [Stat]. *)
Theorem RequestWithFiles_stat_error_names_position
    (X : Externals) (rest : BaseRestClient) (env : Env) (s : State)
    (method route : string) (p : Payload X) (raw err : string)
    (good : list File) (bad : File) (others : list File) :
  json_Marshal X p = inl raw ->
  forallb readable good = true ->
  Stat bad = inr err ->
  run env (RequestWithFiles X rest method route (Some p) (good ++ bad :: others)) s
  = Returned (None,
              Some ("failed to read statistics of file["
                    ++ Itoa (List.length good) ++ "]: " ++ err))
             (log (EvBoundary (boundary env)) (afterAwait s)).
Proof.
  intros Hm Hg Hb.
  assert (E : run env (RequestWithFiles X rest method route (Some p)
                         (good ++ bad :: others)) s
              = run env (sendFiles X rest method route (Some p) (good ++ bad :: others))
                    (afterAwait s)).
  { destruct good; cbn [app]; unfold RequestWithFiles;
      rewrite run_bind, run_awaitLockedTo; reflexivity. }
  rewrite E. unfold sendFiles. rewrite Hm. cbn [trigger bind run handle].
  unfold encodeMultipart.
  rewrite (writeFiles_first_unreadable good 0 _ bad others Hg);
    [| unfold readable; rewrite Hb; reflexivity].
  rewrite Hb. reflexivity.
Qed.

Lemma RequestWithFiles_stat_error_names_position_witness :
  run (Demo.always (Demo.answer 200 "200 OK" "{}"))
      (RequestWithFiles Demo.X0 Demo.client "POST" "/channels/1/messages"
         (Some Demo.embedsNull) ([Demo.picture] ++ Demo2.closedFile :: [Demo.picture]))
      (fresh 1000)
  = Returned (None,
              Some ("failed to read statistics of file[" ++ Itoa 1 ++ "]: "
                    ++ "file already closed"))
             (log (EvBoundary "5f1c") (afterAwait (fresh 1000))).
Proof.
  apply (RequestWithFiles_stat_error_names_position Demo.X0 Demo.client
           (Demo.always (Demo.answer 200 "200 OK" "{}")) (fresh 1000)
           "POST" "/channels/1/messages" Demo.embedsNull Demo.embedsNull
           "file already closed" [Demo.picture] Demo2.closedFile [Demo.picture]);
    reflexivity.
Defined.

(** The first attachment whose content cannot be copied ends the call as
    well, before anything is sent; this error names the file by
    [file.Name()], not by its position. *)
Theorem RequestWithFiles_copy_error_names_file
    (X : Externals) (rest : BaseRestClient) (env : Env) (s : State)
    (method route : string) (p : Payload X) (raw name err : string)
    (good : list File) (bad : File) (others : list File) :
  json_Marshal X p = inl raw ->
  forallb readable good = true ->
  Stat bad = inl name ->
  CopyErr bad = Some err ->
  run env (RequestWithFiles X rest method route (Some p) (good ++ bad :: others)) s
  = Returned (None,
              Some ("failed to encode your " ++ dquote ++ Name bad ++ dquote
                    ++ " file data into multipart payload: " ++ err))
             (log (EvBoundary (boundary env)) (afterAwait s)).
Proof.
  intros Hm Hg Hst Hc.
  assert (E : run env (RequestWithFiles X rest method route (Some p)
                         (good ++ bad :: others)) s
              = run env (sendFiles X rest method route (Some p) (good ++ bad :: others))
                    (afterAwait s)).
  { destruct good; cbn [app]; unfold RequestWithFiles;
      rewrite run_bind, run_awaitLockedTo; reflexivity. }
  rewrite E. unfold sendFiles. rewrite Hm. cbn [trigger bind run handle].
  unfold encodeMultipart.
  rewrite (writeFiles_first_unreadable good 0 _ bad others Hg);
    [| unfold readable; rewrite Hst, Hc; reflexivity].
  rewrite Hst, Hc. reflexivity.
Qed.

Lemma RequestWithFiles_copy_error_names_file_witness :
  run (Demo.always (Demo.answer 200 "200 OK" "{}"))
      (RequestWithFiles Demo.X0 Demo.client "POST" "/channels/1/messages"
         (Some Demo.embedsNull) ([Demo.picture] ++ Demo2.brokenFile :: []))
      (fresh 1000)
  = Returned (None,
              Some ("failed to encode your " ++ dquote ++ "/mnt/usb/a.bin" ++ dquote
                    ++ " file data into multipart payload: " ++ "input/output error"))
             (log (EvBoundary "5f1c") (afterAwait (fresh 1000))).
Proof.
  apply (RequestWithFiles_copy_error_names_file Demo.X0 Demo.client
           (Demo.always (Demo.answer 200 "200 OK" "{}")) (fresh 1000)
           "POST" "/channels/1/messages" Demo.embedsNull Demo.embedsNull
           "a.bin" "input/output error" [Demo.picture] Demo2.brokenFile []);
    reflexivity.
Defined.

Lemma fileParts_nth (files : list File) :
  forall itx i file name,
    nth_error files i = Some file ->
    Stat file = inl name ->
    nth_error (fileParts itx files) i = Some (filePart (itx + i) name file).
Proof.
  induction files as [| f files IH]; intros itx i file name Hn Hs.
  - destruct i; discriminate.
  - destruct i as [| i]; cbn in Hn |- *.
    + injection Hn as ->. rewrite Hs, Nat.add_0_r. reflexivity.
    + rewrite (IH (S itx) i file name Hn Hs). f_equal. f_equal. lia.
Qed.

(** When every attachment can be read the encoding cannot fail, and the body
    is the rewritten JSON, then the payload_json part, then one part per
    file in the order of the list, the [i]-th named files[i] with the
    display name of the file and the type application/octet-stream, then the
    closing line; the content type of the request names the boundary of the
    body. *)
Theorem encodeMultipart_readable_files
    (X : Externals) (raw b : string) (files : list File) :
  forallb readable files = true ->
  exists w,
    encodeMultipart X raw b files = inl w
    /\ buf w = Replace raw (requestSwapNullArray X) (requestSwapEmptyArray X)
               ++ renderParts b true (jsonPart X raw :: fileParts 0 files)
               ++ closingLine b
    /\ FormDataContentType w = "multipart/form-data; boundary=" ++ b
    /\ List.length (jsonPart X raw :: fileParts 0 files) = S (List.length files)
    /\ forall i file name,
         nth_error files i = Some file ->
         Stat file = inl name ->
         nth_error (fileParts 0 files) i
         = Some {| pHeader :=
                     [("Content-Disposition",
                       "form-data; name=" ++ dquote ++ "files[" ++ Itoa i ++ "]"
                       ++ dquote ++ "; filename=" ++ dquote ++ name ++ dquote);
                      ("Content-Type", "application/octet-stream")];
                   pContent := Contents file |}.
Proof.
  intros Hr.
  destruct (writeFiles_readable files 0
              (Write (raw ++ LF)
                 (CreatePart (payloadHeader X)
                    (NewWriter (Replace raw (requestSwapNullArray X)
                                            (requestSwapEmptyArray X)) b))) Hr)
    as [w' Hw'].
  assert (Henc : encodeMultipart X raw b files = inl (Close w'))
    by (unfold encodeMultipart; rewrite Hw'; reflexivity).
  exists (Close w'). split; [exact Henc |].
  destruct (encodeMultipart_layout X raw b files (Close w') Henc) as [Hbuf [Hlen _]].
  split; [exact Hbuf |].
  split.
  { apply writeFiles_layout in Hw' as [_ Hb]; [| reflexivity].
    unfold FormDataContentType, Close, Write. cbn [wboundary]. rewrite Hb.
    reflexivity. }
  split; [exact Hlen |].
  intros i file name Hn Hs. apply (fileParts_nth files 0 i file name Hn Hs).
Qed.

Lemma encodeMultipart_readable_files_witness :
  exists w,
    encodeMultipart Demo.X0 Demo.embedsNull "5f1c" [Demo.picture; Demo.picture] = inl w
    /\ buf w = Replace Demo.embedsNull "null" "[]"
               ++ renderParts "5f1c" true
                    (jsonPart Demo.X0 Demo.embedsNull
                     :: fileParts 0 [Demo.picture; Demo.picture])
               ++ closingLine "5f1c"
    /\ FormDataContentType w = "multipart/form-data; boundary=" ++ "5f1c"
    /\ List.length (jsonPart Demo.X0 Demo.embedsNull
                    :: fileParts 0 [Demo.picture; Demo.picture]) = 3%nat
    /\ forall i file name,
         nth_error [Demo.picture; Demo.picture] i = Some file ->
         Stat file = inl name ->
         nth_error (fileParts 0 [Demo.picture; Demo.picture]) i
         = Some {| pHeader :=
                     [("Content-Disposition",
                       "form-data; name=" ++ dquote ++ "files[" ++ Itoa i ++ "]"
                       ++ dquote ++ "; filename=" ++ dquote ++ name ++ dquote);
                      ("Content-Type", "application/octet-stream")];
                   pContent := Contents file |}.
Proof.
  apply (encodeMultipart_readable_files Demo.X0 Demo.embedsNull "5f1c"
           [Demo.picture; Demo.picture]).
  reflexivity.
Defined.

(** A multipart body is not sent again either: the buffer the writer filled
    is the reader of every attempt, so after an attempt that failed in the
    transport once the body was written, the retry goes out with the
    multipart content type and an empty body. *)
Theorem RequestWithFiles_retry_sends_drained_body
    (X : Externals) (rest : BaseRestClient) (env : Env) (s : State)
    (method route : string) (p : Payload X) (raw e : string)
    (file : File) (files : list File) (w : Writer) (res : Response) :
  1 < uint8 (MaxRetries rest) ->
  writer (mu s) = false ->
  json_Marshal X p = inl raw ->
  encodeMultipart X raw (boundary env) (file :: files) = inl w ->
  http_NewRequest_err X method (DISCORD_API_URL X ++ route) = None ->
  result (network env (doCount s)) = inl e ->
  (String.length (buf w) <= consumed (network env (doCount s)))%nat ->
  result (network env (S (doCount s))) = inr res ->
  StatusCode res = 204 ->
  exists s' evs,
    run env (RequestWithFiles X rest method route (Some p) (file :: files)) s
    = Returned (None, None) s'
    /\ trace s' = (trace (afterAwait s) ++ evs)%list
    /\ sentBodies evs = [Some (buf w); Some ""]
    /\ Forall (sentAs X rest method route (FormDataContentType w)) evs.
Proof.
  intros Hpos Hw Hm Henc Hnr Hfail Hcons Hres H204.
  assert (Hrem : exists rem, retries rest = S (S rem)).
  { unfold retries.
    exists (Nat.pred (Nat.pred (Z.to_nat (uint8 (MaxRetries rest))))). lia. }
  destruct Hrem as [rem Hrem].
  unfold RequestWithFiles. rewrite run_bind, run_awaitLockedTo.
  unfold sendFiles. rewrite Hm.
  cbn [trigger bind run handle]. rewrite Henc, Hrem.
  rewrite attempts_turn by (cbn; rewrite afterAwait_mu; exact Hw).
  rewrite (handleRequest_transport_error X rest env method route _ _ _ Hnr e)
    by (cbn; rewrite afterAwait_doCount; exact Hfail).
  cbn [readers mu didDo rlocked log set_mu count_do elapse].
  rewrite attempts_turn by reflexivity.
  rewrite (handleRequest_204 X rest env method route _ _ _ Hnr res);
    [| cbn; rewrite afterAwait_doCount; assumption | assumption].
  eexists. eexists. split; [reflexivity |].
  split; [cbn; repeat (rewrite <- app_assoc; cbn); reflexivity |].
  split.
  - cbn. rewrite afterAwait_doCount. unfold unread, advance, NewReader. cbn.
    rewrite drop_all by lia. reflexivity.
  - repeat constructor.
Qed.

Lemma RequestWithFiles_retry_sends_drained_body_witness :
  exists s' evs,
    run (Demo.firstThen Demo.timedOut (Demo.answer 204 "204 No Content" ""))
        (RequestWithFiles Demo.X0 Demo.client "POST" "/channels/1/messages"
           (Some Demo.embedsNull) [Demo.picture]) (fresh 1000)
    = Returned (None, None) s'
    /\ trace s' = (trace (afterAwait (fresh 1000)) ++ evs)%list
    /\ sentBodies evs = [Some (buf Demo.encoded); Some ""]
    /\ Forall (sentAs Demo.X0 Demo.client "POST" "/channels/1/messages"
                 (FormDataContentType Demo.encoded)) evs.
Proof.
  apply (RequestWithFiles_retry_sends_drained_body Demo.X0 Demo.client
           (Demo.firstThen Demo.timedOut (Demo.answer 204 "204 No Content" ""))
           (fresh 1000) "POST" "/channels/1/messages" Demo.embedsNull Demo.embedsNull
           "context deadline exceeded" Demo.picture [] Demo.encoded
           {| StatusCode := 204; Status := "204 No Content"; Body := inl "" |});
    try reflexivity.
  apply Nat.leb_le. reflexivity.
Defined.

(** ** The budget *)

(** Whatever the budget, a call on a network that fails every time makes
    exactly that many attempts, pauses after each of them, returns the
    exhausted-retries error, and leaves the mutex and the deadline as it
    found them. *)
Theorem Request_exhausts_budget
    (X : Externals) (rest : BaseRestClient) (env : Env) (s : State)
    (method route : string) (jsonPayload : option (Payload X))
    (body : option Reader) :
  writer (mu s) = false ->
  encodeJSON X jsonPayload = Some body ->
  http_NewRequest_err X method (DISCORD_API_URL X ++ route) = None ->
  (forall n, exists e, result (network env n) = inl e) ->
  exists s' evs,
    run env (Request X rest method route jsonPayload) s
    = Returned (None, Some (exhaustedRequest method route)) s'
    /\ trace s' = (trace (afterAwait s) ++ evs)%list
    /\ List.length (filter isDo evs) = retries rest
    /\ sleeps evs = pauses (retries rest) 0
    /\ mu s' = mu s
    /\ lockedTo s' = lockedTo s.
Proof.
  intros Hw Henc Hnr Hfail.
  rewrite (run_Request X rest env method route jsonPayload body s Henc).
  destruct (attempts_all_fail X rest env method route (CONTENT_TYPE_JSON X)
              (exhaustedRequest method route) Hnr Hfail (retries rest) 0 body
              (afterAwait s))
    as [s' [evs [Hrun [Htr [_ [Hmu [Hlk [Hsl Hn]]]]]]]].
  { rewrite afterAwait_mu. exact Hw. }
  exists s', evs. rewrite afterAwait_mu in Hmu. rewrite afterAwait_lockedTo in Hlk.
  repeat split; assumption.
Qed.

Lemma Request_exhausts_budget_witness :
  exists s' evs,
    run (Demo.always Demo.timedOut)
        (Request Demo.X0 {| Token := "Bot token"; MaxRetries := 5 |}
                 "GET" "/gateway" None) (fresh 1000)
    = Returned (None, Some (exhaustedRequest "GET" "/gateway")) s'
    /\ trace s' = (trace (afterAwait (fresh 1000)) ++ evs)%list
    /\ List.length (filter isDo evs) = 5%nat
    /\ sleeps evs = pauses 5 0
    /\ mu s' = mu (fresh 1000)
    /\ lockedTo s' = lockedTo (fresh 1000).
Proof.
  apply (Request_exhausts_budget Demo.X0 {| Token := "Bot token"; MaxRetries := 5 |}
           (Demo.always Demo.timedOut) (fresh 1000) "GET" "/gateway" None None);
    try reflexivity.
  intros n. exists "context deadline exceeded". reflexivity.
Defined.

(** [RequestWithFiles] follows the budget of the client too, yet its
    exhausted-retries error says "3 times" whatever that budget is. *)
Theorem RequestWithFiles_exhausted_says_three
    (X : Externals) (rest : BaseRestClient) (env : Env) (s : State)
    (method route : string) (p : Payload X) (raw : string)
    (file : File) (files : list File) (w : Writer) :
  writer (mu s) = false ->
  json_Marshal X p = inl raw ->
  encodeMultipart X raw (boundary env) (file :: files) = inl w ->
  http_NewRequest_err X method (DISCORD_API_URL X ++ route) = None ->
  (forall n, exists e, result (network env n) = inl e) ->
  exists s' evs,
    run env (RequestWithFiles X rest method route (Some p) (file :: files)) s
    = Returned (None,
                Some ("failed to make http request 3 times to " ++ method ++ " :: "
                      ++ route
                      ++ " (check internet connection and/or app credentials)")) s'
    /\ trace s' = (trace (afterAwait s) ++ evs)%list
    /\ List.length (filter isDo evs) = retries rest.
Proof.
  intros Hw Hm Henc Hnr Hfail.
  unfold RequestWithFiles. rewrite run_bind, run_awaitLockedTo.
  unfold sendFiles. rewrite Hm.
  cbn [trigger bind run handle]. rewrite Henc.
  destruct (attempts_all_fail X rest env method route (FormDataContentType w)
              (exhaustedFiles method route) Hnr Hfail (retries rest) 0
              (Some (NewReader (buf w)))
              (log (EvBoundary (boundary env)) (afterAwait s)))
    as [s' [evs [Hrun [Htr [_ [_ [_ [_ Hn]]]]]]]].
  { cbn. rewrite afterAwait_mu. exact Hw. }
  exists s'. eexists. split; [exact Hrun |].
  split; [rewrite Htr; cbn; rewrite <- app_assoc; reflexivity |].
  cbn. exact Hn.
Qed.

Lemma RequestWithFiles_exhausted_says_three_witness :
  exists s' evs,
    run (Demo.always Demo.timedOut)
        (RequestWithFiles Demo.X0 {| Token := "Bot token"; MaxRetries := 5 |}
           "POST" "/channels/1/messages" (Some Demo.embedsNull) [Demo.picture])
        (fresh 1000)
    = Returned (None,
                Some ("failed to make http request 3 times to " ++ "POST" ++ " :: "
                      ++ "/channels/1/messages"
                      ++ " (check internet connection and/or app credentials)")) s'
    /\ trace s' = (trace (afterAwait (fresh 1000)) ++ evs)%list
    /\ List.length (filter isDo evs) = 5%nat.
Proof.
  apply (RequestWithFiles_exhausted_says_three Demo.X0
           {| Token := "Bot token"; MaxRetries := 5 |}
           (Demo.always Demo.timedOut) (fresh 1000)
           "POST" "/channels/1/messages" Demo.embedsNull Demo.embedsNull
           Demo.picture [] Demo.encoded);
    try reflexivity.
  intros n. exists "context deadline exceeded". reflexivity.
Defined.

(** Every pause of the loop is shorter than 256 microseconds, whatever the
    turn: the factor [250*i] is a uint8. *)
Theorem backoff_bounded (i : Z) :
  0 <= backoff i <= 255 * Microsecond.
Proof.
  unfold backoff, uint8, Microsecond.
  pose proof (Z.mod_pos_bound (250 * i) 256 eq_refl). lia.
Qed.

(** From the first turn to the 42nd each pause is 6 microseconds shorter
    than the one before. *)
Theorem backoff_steps_down (i : Z) :
  1 <= i < 42 ->
  backoff (i + 1) = backoff i - 6 * Microsecond.
Proof.
  intros Hi. unfold backoff, uint8, Microsecond.
  assert (E1 : (250 * i) mod 256 = 256 - 6 * i).
  { symmetry. apply (Z.mod_unique_pos _ _ (i - 1)); lia. }
  assert (E2 : (250 * (i + 1)) mod 256 = 256 - 6 * (i + 1)).
  { symmetry. apply (Z.mod_unique_pos _ _ i); lia. }
  rewrite E1, E2. lia.
Qed.

Lemma backoff_steps_down_witness : backoff (2 + 1) = backoff 2 - 6 * Microsecond.
Proof. apply (backoff_steps_down 2). lia. Defined.

(** ** The check of the gate *)

(** The check ahead of the loop returns at the later of now and the
    deadline, sleeping exactly the time that is left, and leaves the gate
    untouched; a deadline that is the zero Time counts as no deadline. *)
Theorem awaitLockedTo_waits_for_deadline (env : Env) (s : State) :
  exists s' evs,
    run env awaitLockedTo s = Returned tt s'
    /\ now s' = (if IsZero (lockedTo s) then now s else Z.max (now s) (lockedTo s))
    /\ lockedTo s' = lockedTo s
    /\ mu s' = mu s
    /\ trace s' = (trace s ++ evs)%list
    /\ sleeps evs = (if negb (IsZero (lockedTo s)) && (now s <? lockedTo s)
                     then [lockedTo s - now s] else []).
Proof.
  rewrite run_awaitLockedTo. unfold afterAwait.
  destruct (IsZero (lockedTo s)); cbn [negb andb].
  - eexists. eexists. split; [reflexivity |]. cbn. repeat split; reflexivity.
  - destruct (Z.ltb_spec 0 (lockedTo s - now s)) as [H | H];
      destruct (Z.ltb_spec (now s) (lockedTo s)) as [H' | H']; try lia;
      eexists; eexists; (split; [reflexivity |]); cbn;
      repeat (rewrite <- app_assoc; cbn);
      (split; [lia |]); repeat split; reflexivity.
Qed.

(** ** The client *)

(** The token of a client always starts with "Bot ": a token that has the
    prefix is kept as it is, so building a client from the token of a client
    changes nothing; the budget is 3. *)
Theorem NewBaseRestClient_token_prefixed (token : string) :
  HasPrefix (Token (NewBaseRestClient token)) "Bot " = true
  /\ NewBaseRestClient (Token (NewBaseRestClient token)) = NewBaseRestClient token
  /\ (HasPrefix token "Bot " = true -> Token (NewBaseRestClient token) = token)
  /\ retries (NewBaseRestClient token) = 3%nat.
Proof.
  assert (H : HasPrefix (Token (NewBaseRestClient token)) "Bot " = true).
  { unfold NewBaseRestClient. cbn [Token].
    destruct (HasPrefix token "Bot ") eqn:E; [exact E |].
    unfold HasPrefix. cbn [append]. repeat apply prefix_cons.
    destruct token; reflexivity. }
  split; [exact H |]. split; [| split].
  - unfold NewBaseRestClient at 1. rewrite H. reflexivity.
  - intros E. unfold NewBaseRestClient. cbn [Token]. rewrite E. reflexivity.
  - reflexivity.
Qed.

(** ** The rewrite on the JSON path *)

(** When the replacement is not empty and shares no byte with the pattern,
    the body [Request] sends for a payload that serializes to [raw] is the
    rewrite of [raw]; it holds no occurrence of the pattern; it is [raw]
    itself when [raw] holds none; and a payload whose serialization is a
    body already rewritten is sent unchanged: rewriting twice is rewriting
    once. *)
Theorem encodeJSON_rewrite_clean_and_idempotent
    (X : Externals) (p q : Payload X) (raw : string)
    (c0 : ascii) (old' : string) (n : ascii) (new' : string) :
  requestSwapNullArray X = String c0 old' ->
  requestSwapEmptyArray X = String n new' ->
  disjoint (requestSwapEmptyArray X) (requestSwapNullArray X) = true ->
  json_Marshal X p = inl raw ->
  json_Marshal X q
  = inl (Replace raw (requestSwapNullArray X) (requestSwapEmptyArray X)) ->
  encodeJSON X (Some p)
  = Some (Some (NewReader
                  (Replace raw (requestSwapNullArray X) (requestSwapEmptyArray X))))
  /\ Contains (Replace raw (requestSwapNullArray X) (requestSwapEmptyArray X))
              (requestSwapNullArray X) = false
  /\ (Contains raw (requestSwapNullArray X) = false ->
      Replace raw (requestSwapNullArray X) (requestSwapEmptyArray X) = raw)
  /\ encodeJSON X (Some q)
     = Some (Some (NewReader
                     (Replace raw (requestSwapNullArray X) (requestSwapEmptyArray X)))).
Proof.
  intros Hold Hnew Hapart Hp Hq.
  split; [unfold encodeJSON; rewrite Hp; reflexivity |].
  split; [apply (Replace_clean _ _ n new' Hnew c0 old' Hold Hapart) |].
  split.
  - intros Hclean. rewrite Hold, Replace_nonempty, <- Hold.
    apply replace_from_fixed. exact Hclean.
  - unfold encodeJSON. rewrite Hq.
    rewrite (Replace_idempotent _ _ n new' Hnew c0 old' Hold Hapart).
    reflexivity.
Qed.

Lemma encodeJSON_rewrite_clean_and_idempotent_witness :
  encodeJSON Demo.X0 (Some Demo.embedsNull)
  = Some (Some (NewReader (Replace Demo.embedsNull "null" "[]")))
  /\ Contains (Replace Demo.embedsNull "null" "[]") "null" = false
  /\ (Contains Demo.embedsNull "null" = false ->
      Replace Demo.embedsNull "null" "[]" = Demo.embedsNull)
  /\ encodeJSON Demo.X0 (Some (Replace Demo.embedsNull "null" "[]"))
     = Some (Some (NewReader (Replace Demo.embedsNull "null" "[]"))).
Proof.
  apply (encodeJSON_rewrite_clean_and_idempotent Demo.X0 Demo.embedsNull
           (Replace Demo.embedsNull "null" "[]") Demo.embedsNull
           "n"%char "ull" "["%char "]");
    reflexivity.
Defined.

(* ========================================================================= *)
(** * The gate and the answers, for every call *)

(** ** Every answer of a run *)

Lemma afterEachDo_split (P : DoReply -> list Event -> Prop)
    (pre : list Event) (rq : HttpRequest) (reply : DoReply) (post : list Event) :
  afterEachDo P (pre ++ EvDo rq reply :: post) -> P reply post.
Proof.
  induction pre as [| ev pre IH]; cbn.
  - intros [H _]. exact H.
  - destruct ev; cbn; intros H; try (apply IH; exact H).
    apply IH. apply H.
Qed.

Lemma afterEachDo_quiet (P : DoReply -> list Event -> Prop)
    (gate evs : list Event) :
  Forall (fun ev => isDo ev = false) gate ->
  afterEachDo P evs -> afterEachDo P (gate ++ evs).
Proof.
  induction gate as [| ev gate IH]; cbn; intros Hg H; [exact H |].
  inversion Hg as [| ? ? Hev Hrest]; subst.
  destruct ev; try (apply IH; assumption). discriminate.
Qed.

Section Answers.

Variable X : Externals.
Variable rest : BaseRestClient.
Variable env : Env.
Variables method route contentType exhausted : string.

(** Whatever the budget, the start state and the network, the loop deals
    with every answer it gets in the way [settled] says. *)
Lemma attempts_settle rem :
  forall i payload s,
  exists evs,
    trace (outcome_state
             (run env (attempts X rest method route contentType exhausted
                         rem i payload) s))
    = (trace s ++ evs)%list
    /\ afterEachDo
         (settled (run env (attempts X rest method route contentType exhausted
                              rem i payload) s))
         evs.
Proof.
  induction rem as [| rem IH]; intros i payload s.
  - exists []. cbn. rewrite app_nil_r. split; [reflexivity | exact I].
  - destruct (writer (mu s)) eqn:Hw.
    { exists []. cbn [attempts trigger bind run handle]. rewrite Hw. cbn.
      rewrite app_nil_r. split; [reflexivity | exact I]. }
    rewrite attempts_turn by exact Hw.
    unfold handleRequest.
    destruct (http_NewRequest_err X method (DISCORD_API_URL X ++ route)) as [e |].
    { cbn [run]. cbn [readers mu rlocked log set_mu].
      destruct (IH (uint8 (i + 1)) payload
                   (slept (backoff (uint8 (i + 1))) (runlocked (rlocked s))))
        as [evs [Htr Hall]].
      exists (EvRLock :: EvRUnlock :: EvSleep (backoff (uint8 (i + 1))) :: evs).
      split; [| exact Hall].
      rewrite Htr. cbn. repeat (rewrite <- app_assoc; cbn). reflexivity. }
    cbn [trigger bind run handle].
    cbn [doCount rlocked log set_mu].
    remember (network env (doCount s)) as reply eqn:Hreply.
    destruct (result reply) as [e | res] eqn:Hres.
    { cbn [run]. cbn [readers mu rlocked log set_mu count_do elapse].
      set (payload' := option_map (advance (consumed reply)) payload).
      set (s2 := slept _ _).
      destruct (IH (uint8 (i + 1)) payload' s2) as [evs [Htr Hall]].
      exists (EvRLock :: EvDo (requestOf X rest method route contentType payload) reply
              :: EvRUnlock :: EvSleep (backoff (uint8 (i + 1))) :: evs).
      split.
      - rewrite Htr. subst s2. cbn. repeat (rewrite <- app_assoc; cbn). reflexivity.
      - cbn. split; [| exact Hall]. unfold settled. rewrite Hres. exact I. }
    destruct (StatusCode res =? 204) eqn:H204.
    { eexists. cbn. split.
      - rewrite <- app_assoc. cbn. reflexivity.
      - cbn. split; [| exact I]. unfold settled. rewrite Hres, H204.
        split; [reflexivity | eexists; reflexivity]. }
    cbn [trigger bind run handle].
    destruct (Body res) as [b | e] eqn:Hb.
    2:{ eexists. cbn. split.
        - repeat (rewrite <- app_assoc; cbn). reflexivity.
        - cbn. split; [| exact I]. unfold settled. rewrite Hres, H204, Hb.
          split; [reflexivity | eexists; reflexivity]. }
    destruct (StatusCode res =? 429) eqn:H429.
    { cbn [trigger bind run handle mu log count_do elapse rlocked set_mu writer readers].
      eexists. cbn. split.
      - repeat (rewrite <- app_assoc; cbn). reflexivity.
      - cbn. split; [| exact I]. unfold settled. rewrite Hres, H204, Hb, H429.
        split; [reflexivity | eexists; reflexivity]. }
    destruct ((StatusCode res <? 200) || (299 <? StatusCode res)) eqn:Hout.
    + eexists. cbn. split.
      * repeat (rewrite <- app_assoc; cbn). reflexivity.
      * cbn. split; [| exact I]. unfold settled. rewrite Hres, H204, Hb, H429, Hout.
        split; [reflexivity | eexists; reflexivity].
    + eexists. cbn. split.
      * repeat (rewrite <- app_assoc; cbn). reflexivity.
      * cbn. split; [| exact I]. unfold settled. rewrite Hres, H204, Hb, H429, Hout.
        split; [reflexivity | eexists; reflexivity].
Qed.

End Answers.

(** ** When the gate is consulted, and what the attempts find *)

Lemma doStates_bind {A B : Type} (env : Env) (m : Prog A) (f : A -> Prog B) :
  forall s,
    doStates env (bind m f) s
    = (doStates env m s
       ++ match run env m s with
          | Returned a s' => doStates env (f a) s'
          | _ => []
          end)%list.
Proof.
  induction m as [a | msg | Y e k IH]; intros s; cbn; try reflexivity.
  destruct (handle env e s) as [x s1 | w | msg]; cbn.
  - rewrite IH, app_assoc. reflexivity.
  - repeat rewrite app_nil_r. reflexivity.
  - repeat rewrite app_nil_r. reflexivity.
Qed.

(** An effect that is answered logs one event, and that event is a [Do]
    exactly when the effect is one; a [Do] is always answered. *)
Lemma handle_logs {Y : Type} (env : Env) (e : Effect Y) (s : State) :
  match handle env e s with
  | Answer _ s' => exists ev, trace s' = (trace s ++ [ev])%list /\ isDo ev = isClientDo e
  | _ => isClientDo e = false
  end.
Proof.
  destruct e; cbn; try (eexists; split; reflexivity).
  - destruct (writer (mu s)); [reflexivity | eexists; split; reflexivity].
  - destruct (readers (mu s)); [reflexivity | eexists; split; reflexivity].
  - destruct (writer (mu s)); [reflexivity |].
    destruct (readers (mu s)); [eexists; split; reflexivity | reflexivity].
  - destruct (writer (mu s)); [eexists; split; reflexivity | reflexivity].
Qed.

(** [doStates] has one state for each [Do] of the run. *)
Lemma doStates_count {A : Type} (env : Env) (p : Prog A) :
  forall s, exists evs,
    trace (outcome_state (run env p s)) = (trace s ++ evs)%list
    /\ List.length (filter isDo evs) = List.length (doStates env p s).
Proof.
  induction p as [a | msg | Y e k IH]; intros s; cbn.
  - exists []. rewrite app_nil_r. split; reflexivity.
  - exists []. rewrite app_nil_r. split; reflexivity.
  - pose proof (handle_logs env e s) as Hh.
    destruct (handle env e s) as [x s1 | w | msg]; cbn.
    + destruct Hh as [ev [Htr Hev]].
      destruct (IH x s1) as [evs [Htr' Hn]].
      exists (ev :: evs). split.
      * rewrite Htr', Htr, <- app_assoc. reflexivity.
      * cbn. rewrite Hev, length_app.
        destruct (isClientDo e); cbn; rewrite Hn; reflexivity.
    + exists []. rewrite app_nil_r, Hh. split; reflexivity.
    + exists []. rewrite app_nil_r, Hh. split; reflexivity.
Qed.

(** Every [Do] of a run was issued in one of the states of [doStates]: the
    state in which exactly the events before that [Do] had happened. *)
Lemma doStates_each {A : Type} (env : Env) (p : Prog A) :
  forall s pre rq reply post,
    trace (outcome_state (run env p s)) = (trace s ++ pre ++ EvDo rq reply :: post)%list ->
    exists s0, In s0 (doStates env p s) /\ trace s0 = (trace s ++ pre)%list.
Proof.
  induction p as [a | msg | Y e k IH]; intros s pre rq reply post; cbn.
  - intros H. rewrite <- (app_nil_r (trace s)) in H at 1.
    apply app_inv_head in H. destruct pre; discriminate.
  - intros H. rewrite <- (app_nil_r (trace s)) in H at 1.
    apply app_inv_head in H. destruct pre; discriminate.
  - pose proof (handle_logs env e s) as Hh.
    destruct (handle env e s) as [x s1 | w | msg]; cbn.
    + destruct Hh as [ev [Htr Hev]].
      destruct (doStates_count env (k x) s1) as [evs [Hevs _]].
      intros H. rewrite Hevs, Htr, <- app_assoc in H.
      apply app_inv_head in H. cbn in H.
      destruct pre as [| ev' pre]; cbn in H.
      * injection H as Hev' _. subst ev. cbn in Hev. rewrite <- Hev.
        exists s. split; [left; reflexivity | rewrite app_nil_r; reflexivity].
      * injection H as Hev' Hrest. subst ev'.
        destruct (IH x s1 pre rq reply post) as [s0 [Hin Hs0]].
        { rewrite Hevs, Hrest. reflexivity. }
        exists s0. split; [apply in_or_app; right; exact Hin |].
        rewrite Hs0, Htr, <- app_assoc. reflexivity.
    + intros H. rewrite <- (app_nil_r (trace s)) in H at 1.
      apply app_inv_head in H. destruct pre; discriminate.
    + intros H. rewrite <- (app_nil_r (trace s)) in H at 1.
      apply app_inv_head in H. destruct pre; discriminate.
Qed.

Lemma gateOpen_kept (s s' : State) :
  lockedTo s' = lockedTo s -> now s <= now s' ->
  gateOpen s = true -> gateOpen s' = true.
Proof.
  unfold gateOpen. intros -> Hn H.
  apply orb_true_iff in H. apply orb_true_iff.
  destruct H as [H | H]; [left; exact H | right].
  apply Z.leb_le in H. apply Z.leb_le. lia.
Qed.

(** What the check of the gate logs: the read of [lockedTo] first, no
    request, and a sleep exactly when the gate was closed; the gate is open
    when the check is over. *)
Lemma afterAwait_gate (s : State) :
  (exists gate',
      trace (afterAwait s) = (trace s ++ EvReadLockedTo (lockedTo s) :: gate')%list
      /\ Forall (fun ev => isDo ev = false) gate'
      /\ sleeps gate' = if gateOpen s then [] else [lockedTo s - now s])
  /\ gateOpen (afterAwait s) = true.
Proof.
  unfold afterAwait, gateOpen, IsZero.
  destruct (Z.eqb_spec (lockedTo s) 0) as [E | E]; cbn [negb orb].
  { split; [exists []; repeat split; constructor |]. cbn.
    rewrite E. reflexivity. }
  destruct (Z.ltb_spec 0 (lockedTo s - now s)) as [L | L].
  - split.
    + eexists. cbn. repeat (rewrite <- app_assoc; cbn).
      split; [reflexivity |]. split; [repeat constructor |].
      cbn. destruct (Z.leb_spec (lockedTo s) (now s)); [lia | reflexivity].
    + cbn. apply orb_true_iff. right. apply Z.leb_le. lia.
  - split.
    + eexists. cbn. repeat (rewrite <- app_assoc; cbn).
      split; [reflexivity |]. split; [repeat constructor |].
      cbn. destruct (Z.leb_spec (lockedTo s) (now s)); [reflexivity | lia].
    + cbn. apply orb_true_iff. right. apply Z.leb_le. lia.
Qed.

Lemma doStates_awaitLockedTo (env : Env) (s : State) :
  doStates env awaitLockedTo s = [].
Proof.
  unfold awaitLockedTo. cbn.
  destruct (negb (IsZero (lockedTo s))); cbn; [| reflexivity].
  destruct (0 <? lockedTo s - now s); reflexivity.
Qed.

Section IssueStates.

Variable X : Externals.
Variable rest : BaseRestClient.
Variable env : Env.
Variables method route contentType exhausted : string.

(** One attempt issues one request, from the state it starts in, or none
    when the request cannot be built. *)
Lemma doStates_handleRequest (payload : option Reader) (s : State) :
  doStates env (handleRequest X rest method route payload contentType) s
  = match http_NewRequest_err X method (DISCORD_API_URL X ++ route) with
    | Some _ => []
    | None => [s]
    end.
Proof.
  unfold handleRequest.
  destruct (http_NewRequest_err X method (DISCORD_API_URL X ++ route));
    [reflexivity |].
  cbn [trigger bind doStates handle isClientDo app].
  f_equal.
  destruct (result (network env (doCount s))) as [e | res]; [reflexivity |].
  destruct (StatusCode res =? 204); [reflexivity |].
  cbn [trigger bind doStates handle isClientDo app].
  destruct (Body res) as [b | e]; [| reflexivity].
  destruct (StatusCode res =? 429).
  - cbn [trigger bind doStates handle isClientDo app mu log count_do elapse].
    destruct (writer (mu s)); [reflexivity |].
    destruct (readers (mu s)); reflexivity.
  - destruct ((StatusCode res <? 200) || (299 <? StatusCode res)); reflexivity.
Qed.

(** A loop entered with the gate open issues every request with the gate
    open: [lockedTo] is not written and the clock does not run backwards. *)
Lemma doStates_attempts rem :
  forall i payload s,
    gateOpen s = true ->
    Forall (fun s0 => gateOpen s0 = true)
           (doStates env (attempts X rest method route contentType exhausted
                            rem i payload) s).
Proof.
  induction rem as [| rem IH]; intros i payload s Hopen; [constructor |].
  cbn [attempts]. cbn [trigger bind doStates handle isClientDo app].
  destruct (writer (mu s)) eqn:Hw; [constructor |].
  fold (rlocked s).
  rewrite doStates_bind. apply Forall_app. split.
  - rewrite doStates_handleRequest.
    destruct (http_NewRequest_err X method (DISCORD_API_URL X ++ route));
      constructor; [exact Hopen | constructor].
  - destruct (handleRequest_under_read_lock X rest env method route contentType
                payload (rlocked s)) as [evs1 H1]; [reflexivity | cbn; lia |].
    cbv zeta in H1.
    pose proof (run_clock env (handleRequest X rest method route payload contentType)
                  (rlocked s)) as Hclock.
    destruct (run env (handleRequest X rest method route payload contentType)
                  (rlocked s))
      as [[[[raw err] fin] payload'] s1 | w s1 | msg s1]; [| constructor | constructor].
    cbn [outcome_state] in H1, Hclock.
    destruct H1 as [_ [Hmu [Hlk _]]].
    destruct fin; [constructor |].
    cbn [trigger bind doStates handle isClientDo app].
    rewrite Hmu. cbn [readers mu rlocked log set_mu].
    apply IH.
    apply (gateOpen_kept s); [cbn; rewrite Hlk; reflexivity | | exact Hopen].
    cbn. cbn in Hclock. lia.
Qed.

End IssueStates.

(** With files the encoding comes between the check and the loop and
    issues nothing. *)
Lemma doStates_sendFiles (X : Externals) (rest : BaseRestClient) (env : Env)
    (method route : string) (jsonPayload : option (Payload X))
    (files : list File) (s : State) :
  gateOpen s = true ->
  Forall (fun s0 => gateOpen s0 = true)
         (doStates env (sendFiles X rest method route jsonPayload files) s).
Proof.
  intros Hopen. unfold sendFiles.
  destruct jsonPayload as [p |]; [| constructor].
  destruct (json_Marshal X p) as [raw | e]; [| constructor].
  cbn [trigger bind doStates handle isClientDo app].
  destruct (encodeMultipart X raw (boundary env) files) as [w | err]; [| constructor].
  apply doStates_attempts. exact Hopen.
Qed.

(** C2 as the specification has it ("before every attempt") fails on a
    call that finds the deadline set and ahead and whose first attempt times
    out: the call waits for the deadline, and its second attempt is sent
    without a new look at [lockedTo].  The attempts are nevertheless all
    issued with the deadline behind. *)
Lemma second_attempt_sent_unchecked :
  let env := Demo.firstThen Demo.timedOut (Demo.answer 200 "200 OK" "{}") in
  let call := Request Demo.X0 Demo.client "GET" "/gateway" None in
  gateOpen Demo3.gated = false
  /\ consultedBeforeEvery false (trace (outcome_state (run env call Demo3.gated)))
     = false
  /\ List.length (filter isDo (trace (outcome_state (run env call Demo3.gated))))
     = 2%nat
  /\ forallb gateOpen (doStates env call Demo3.gated) = true.
Proof. vm_compute. repeat split. Qed.

(** C2 (amended).  A call, be it [Request] or [RequestWithFiles], consults
    the gate once, ahead of its first attempt: what it does splits into the
    check of the gate, which sends nothing, and the rest, which never reads
    [lockedTo]; whenever there is a rest the check began with the read of
    [lockedTo] and slept, for the time left, exactly when the deadline was
    set and ahead.  Every attempt of the call, the first and the later
    ones, is issued in a state in which the deadline is unset or not ahead
    of the clock: each [Do] of the run has its state among [doStates], and
    in all of these the gate is open. *)
Theorem gate_consulted_before_first_attempt_only
    (X : Externals) (rest : BaseRestClient) (env : Env) (s : State)
    (method route : string) (jsonPayload : option (Payload X))
    (files : list File) (call : Prog Result) :
  call = Request X rest method route jsonPayload
  \/ call = RequestWithFiles X rest method route jsonPayload files ->
  (exists gate evs,
      trace (outcome_state (run env call s)) = (trace s ++ gate ++ evs)%list
      /\ Forall (fun ev => isDo ev = false) gate
      /\ Forall (fun ev => isReadLockedTo ev = false) evs
      /\ (evs <> [] ->
          exists gate',
            gate = EvReadLockedTo (lockedTo s) :: gate'
            /\ sleeps gate' = if gateOpen s then [] else [lockedTo s - now s]))
  /\ (forall pre rq reply post,
        trace (outcome_state (run env call s))
        = (trace s ++ pre ++ EvDo rq reply :: post)%list ->
        exists s0,
          In s0 (doStates env call s)
          /\ trace s0 = (trace s ++ pre)%list
          /\ gateOpen s0 = true)
  /\ Forall (fun s0 => gateOpen s0 = true) (doStates env call s)
  /\ List.length (doStates env call s)
     = (List.length (filter isDo (trace (outcome_state (run env call s))))
        - List.length (filter isDo (trace s)))%nat.
Proof.
  (* it is enough to split the events and to find the gate open in every
     state of [doStates] *)
  assert (Hpack : forall c : Prog Result,
             (exists gate evs,
                 trace (outcome_state (run env c s)) = (trace s ++ gate ++ evs)%list
                 /\ Forall (fun ev => isDo ev = false) gate
                 /\ Forall (fun ev => isReadLockedTo ev = false) evs
                 /\ (evs <> [] ->
                     exists gate',
                       gate = EvReadLockedTo (lockedTo s) :: gate'
                       /\ sleeps gate'
                          = if gateOpen s then [] else [lockedTo s - now s])) ->
             Forall (fun s0 => gateOpen s0 = true) (doStates env c s) ->
             (exists gate evs,
                 trace (outcome_state (run env c s)) = (trace s ++ gate ++ evs)%list
                 /\ Forall (fun ev => isDo ev = false) gate
                 /\ Forall (fun ev => isReadLockedTo ev = false) evs
                 /\ (evs <> [] ->
                     exists gate',
                       gate = EvReadLockedTo (lockedTo s) :: gate'
                       /\ sleeps gate'
                          = if gateOpen s then [] else [lockedTo s - now s]))
             /\ (forall pre rq reply post,
                   trace (outcome_state (run env c s))
                   = (trace s ++ pre ++ EvDo rq reply :: post)%list ->
                   exists s0,
                     In s0 (doStates env c s)
                     /\ trace s0 = (trace s ++ pre)%list
                     /\ gateOpen s0 = true)
             /\ Forall (fun s0 => gateOpen s0 = true) (doStates env c s)
             /\ List.length (doStates env c s)
                = (List.length (filter isDo (trace (outcome_state (run env c s))))
                   - List.length (filter isDo (trace s)))%nat).
  { intros c Hsplit Hopen. split; [exact Hsplit |]. split; [| split; [exact Hopen |]].
    - intros pre rq reply post Htr.
      destruct (doStates_each env c s pre rq reply post Htr) as [s0 [Hin Hs0]].
      exists s0. split; [exact Hin |]. split; [exact Hs0 |].
      rewrite Forall_forall in Hopen. apply Hopen. exact Hin.
    - destruct (doStates_count env c s) as [evs [Htr Hn]].
      rewrite Htr, filter_app, length_app, Hn. lia. }
  (* a call that is the check of the gate followed by a program that never
     reads [lockedTo] and issues its requests with the gate open *)
  assert (Hgen : forall loop : Prog Result,
             neverReadsGate loop ->
             (forall s0, gateOpen s0 = true ->
                         Forall (fun s1 => gateOpen s1 = true) (doStates env loop s0)) ->
             (exists gate evs,
                 trace (outcome_state (run env (awaitLockedTo ;; loop) s))
                 = (trace s ++ gate ++ evs)%list
                 /\ Forall (fun ev => isDo ev = false) gate
                 /\ Forall (fun ev => isReadLockedTo ev = false) evs
                 /\ (evs <> [] ->
                     exists gate',
                       gate = EvReadLockedTo (lockedTo s) :: gate'
                       /\ sleeps gate'
                          = if gateOpen s then [] else [lockedTo s - now s]))
             /\ Forall (fun s0 => gateOpen s0 = true)
                       (doStates env (awaitLockedTo ;; loop) s)).
  { intros loop Hnever Hopen.
    destruct (afterAwait_gate s) as [[gate' [Hg [Hq Hsl]]] Hafter].
    rewrite doStates_bind, doStates_awaitLockedTo, run_awaitLockedTo.
    cbn [app]. rewrite run_bind, run_awaitLockedTo.
    split; [| apply Hopen; exact Hafter].
    destruct (run_neverReadsGate env loop Hnever (afterAwait s)) as [evs [Htr Hall]].
    exists (EvReadLockedTo (lockedTo s) :: gate'), evs.
    split; [rewrite Htr, Hg, <- app_assoc; reflexivity |].
    split; [constructor; [reflexivity | exact Hq] |].
    split; [exact Hall |].
    intros _. exists gate'. split; [reflexivity | exact Hsl]. }
  assert (HR : (exists gate evs,
                   trace (outcome_state
                            (run env (Request X rest method route jsonPayload) s))
                   = (trace s ++ gate ++ evs)%list
                   /\ Forall (fun ev => isDo ev = false) gate
                   /\ Forall (fun ev => isReadLockedTo ev = false) evs
                   /\ (evs <> [] ->
                       exists gate',
                         gate = EvReadLockedTo (lockedTo s) :: gate'
                         /\ sleeps gate'
                            = if gateOpen s then [] else [lockedTo s - now s]))
               /\ Forall (fun s0 => gateOpen s0 = true)
                         (doStates env (Request X rest method route jsonPayload) s)).
  { unfold Request. destruct (encodeJSON X jsonPayload) as [body |].
    - apply Hgen; [apply neverReadsGate_attempts |].
      intros s0. apply doStates_attempts.
    - cbn. split; [| constructor].
      exists [], []. rewrite app_nil_r.
      repeat split; try constructor. intros H. contradiction. }
  intros [-> | ->]; [apply Hpack; apply HR |].
  destruct files as [| file files]; [apply Hpack; apply HR |].
  apply Hpack; unfold RequestWithFiles;
    apply Hgen; try apply neverReadsGate_sendFiles;
    intros s0; apply doStates_sendFiles.
Qed.

Lemma gate_consulted_before_first_attempt_only_witness :
  let env := Demo.firstThen Demo.timedOut (Demo.answer 200 "200 OK" "{}") in
  let call := RequestWithFiles Demo.X0 Demo.client "POST" "/channels/1/messages"
                (Some Demo.embedsNull) [Demo.picture] in
  (exists gate evs,
      trace (outcome_state (run env call Demo3.gated))
      = (trace Demo3.gated ++ gate ++ evs)%list
      /\ Forall (fun ev => isDo ev = false) gate
      /\ Forall (fun ev => isReadLockedTo ev = false) evs
      /\ (evs <> [] ->
          exists gate',
            gate = EvReadLockedTo (lockedTo Demo3.gated) :: gate'
            /\ sleeps gate'
               = if gateOpen Demo3.gated then []
                 else [lockedTo Demo3.gated - now Demo3.gated]))
  /\ (forall pre rq reply post,
        trace (outcome_state (run env call Demo3.gated))
        = (trace Demo3.gated ++ pre ++ EvDo rq reply :: post)%list ->
        exists s0,
          In s0 (doStates env call Demo3.gated)
          /\ trace s0 = (trace Demo3.gated ++ pre)%list
          /\ gateOpen s0 = true)
  /\ Forall (fun s0 => gateOpen s0 = true) (doStates env call Demo3.gated)
  /\ List.length (doStates env call Demo3.gated)
     = (List.length (filter isDo (trace (outcome_state (run env call Demo3.gated))))
        - List.length (filter isDo (trace Demo3.gated)))%nat.
Proof.
  cbv zeta.
  apply (gate_consulted_before_first_attempt_only Demo.X0 Demo.client
           (Demo.firstThen Demo.timedOut (Demo.answer 200 "200 OK" "{}"))
           Demo3.gated "POST" "/channels/1/messages"
           (Some Demo.embedsNull) [Demo.picture]).
  right. reflexivity.
Defined.

(* ------------------------------------------------------------------------- *)
(** ** The answers of the two calls *)

(** Both calls deal with every answer in that way: the check of the gate
    and the encoding send nothing. *)
Lemma call_settles
    (X : Externals) (rest : BaseRestClient) (env : Env) (s : State)
    (method route : string) (jsonPayload : option (Payload X))
    (files : list File) (call : Prog Result) :
  call = Request X rest method route jsonPayload
  \/ call = RequestWithFiles X rest method route jsonPayload files ->
  exists evs,
    trace (outcome_state (run env call s)) = (trace s ++ evs)%list
    /\ afterEachDo (settled (run env call s)) evs.
Proof.
  assert (HR : exists evs,
             trace (outcome_state (run env (Request X rest method route jsonPayload) s))
             = (trace s ++ evs)%list
             /\ afterEachDo
                  (settled (run env (Request X rest method route jsonPayload) s)) evs).
  { destruct (encodeJSON X jsonPayload) as [body |] eqn:Henc.
    - rewrite (run_Request X rest env method route jsonPayload body s Henc).
      destruct (attempts_settle X rest env method route (CONTENT_TYPE_JSON X)
                  (exhaustedRequest method route) (retries rest) 0 body (afterAwait s))
        as [evs [Htr Hall]].
      destruct (afterAwait_trace s) as [gate [Hg Hgq]].
      exists (gate ++ evs)%list. split.
      + rewrite Htr, Hg, <- app_assoc. reflexivity.
      + apply afterEachDo_quiet; [| exact Hall].
        eapply Forall_impl; [| exact Hgq]. intros ev [H _]. exact H.
    - unfold Request. rewrite Henc. cbn.
      exists []. rewrite app_nil_r. split; [reflexivity | exact I]. }
  intros [-> | ->]; [exact HR |].
  destruct files as [| file files]; [exact HR |].
  unfold RequestWithFiles. rewrite run_bind, run_awaitLockedTo.
  destruct (afterAwait_trace s) as [gate [Hg Hgq]].
  assert (Hq : Forall (fun ev => isDo ev = false) gate).
  { eapply Forall_impl; [| exact Hgq]. intros ev [H _]. exact H. }
  unfold sendFiles. destruct jsonPayload as [p |].
  2:{ exists gate. cbn. split; [exact Hg |].
      rewrite <- (app_nil_r gate). apply afterEachDo_quiet; [exact Hq | exact I]. }
  destruct (json_Marshal X p) as [raw | e].
  2:{ exists gate. cbn. split; [exact Hg |].
      rewrite <- (app_nil_r gate). apply afterEachDo_quiet; [exact Hq | exact I]. }
  cbn [trigger bind run handle].
  destruct (encodeMultipart X raw (boundary env) (file :: files)) as [w | err].
  2:{ exists (gate ++ [EvBoundary (boundary env)])%list. cbn. split.
      - rewrite Hg, <- app_assoc. reflexivity.
      - apply afterEachDo_quiet; [exact Hq | exact I]. }
  destruct (attempts_settle X rest env method route (FormDataContentType w)
              (exhaustedFiles method route) (retries rest) 0
              (Some (NewReader (buf w)))
              (log (EvBoundary (boundary env)) (afterAwait s)))
    as [evs [Htr Hall]].
  exists (gate ++ EvBoundary (boundary env) :: evs)%list. split.
  - rewrite Htr. cbn. rewrite Hg. repeat (rewrite <- app_assoc; cbn). reflexivity.
  - apply afterEachDo_quiet; [exact Hq | exact Hall].
Qed.

(** A call that gets as far as its loop enters it with the events of the
    check of the gate (and of the boundary) behind it, nothing sent, and the
    mutex as it was. *)
Lemma call_reaches_loop
    (X : Externals) (rest : BaseRestClient) (env : Env) (s : State)
    (method route : string) (jsonPayload : option (Payload X))
    (files : list File) (call : Prog Result) :
  (call = Request X rest method route jsonPayload /\ files = [])
  \/ call = RequestWithFiles X rest method route jsonPayload files ->
  reachesLoop X env jsonPayload files = true ->
  exists contentType exhausted payload s0 gate,
    run env call s
    = run env (attempts X rest method route contentType exhausted
                 (retries rest) 0 payload) s0
    /\ trace s0 = (trace s ++ gate)%list
    /\ Forall (fun ev => isDo ev = false) gate
    /\ mu s0 = mu s
    /\ doCount s0 = doCount s.
Proof.
  intros Hcall Hreach.
  destruct (afterAwait_trace s) as [gate [Hg Hgq]].
  assert (Hq : Forall (fun ev => isDo ev = false) gate).
  { eapply Forall_impl; [| exact Hgq]. intros ev [H _]. exact H. }
  assert (HR : files = [] ->
               exists contentType exhausted payload s0 gate,
                 run env (Request X rest method route jsonPayload) s
                 = run env (attempts X rest method route contentType exhausted
                              (retries rest) 0 payload) s0
                 /\ trace s0 = (trace s ++ gate)%list
                 /\ Forall (fun ev => isDo ev = false) gate
                 /\ mu s0 = mu s
                 /\ doCount s0 = doCount s).
  { intros ->. cbn [reachesLoop] in Hreach.
    destruct (encodeJSON X jsonPayload) as [body |] eqn:Henc; [| discriminate].
    exists (CONTENT_TYPE_JSON X), (exhaustedRequest method route), body,
           (afterAwait s), gate.
    split; [apply run_Request; exact Henc |].
    split; [exact Hg |]. split; [exact Hq |].
    split; [apply afterAwait_mu | apply afterAwait_doCount]. }
  destruct Hcall as [[-> Hf] | ->]; [apply HR; exact Hf |].
  destruct files as [| file files]; [apply HR; reflexivity |].
  cbn [reachesLoop] in Hreach.
  destruct jsonPayload as [p |]; [| discriminate].
  destruct (json_Marshal X p) as [raw | e] eqn:Hm; [| discriminate].
  destruct (encodeMultipart X raw (boundary env) (file :: files)) as [w | err] eqn:Henc;
    [| discriminate].
  exists (FormDataContentType w), (exhaustedFiles method route),
         (Some (NewReader (buf w))),
         (log (EvBoundary (boundary env)) (afterAwait s)),
         (gate ++ [EvBoundary (boundary env)])%list.
  split.
  { unfold RequestWithFiles. rewrite run_bind, run_awaitLockedTo.
    unfold sendFiles. rewrite Hm. cbn [trigger bind run handle]. rewrite Henc.
    reflexivity. }
  split; [cbn; rewrite Hg, <- app_assoc; reflexivity |].
  split; [apply Forall_app; split; [exact Hq | repeat constructor] |].
  split; [cbn; apply afterAwait_mu | cbn; apply afterAwait_doCount].
Qed.

Lemma filter_isDo_quiet (gate : list Event) :
  Forall (fun ev => isDo ev = false) gate -> filter isDo gate = [].
Proof.
  induction 1 as [| ev gate Hev _ IH]; [reflexivity |].
  cbn. rewrite Hev. exact IH.
Qed.

Section AnswerAtTurn.

Variable X : Externals.
Variable rest : BaseRestClient.
Variable env : Env.
Variables method route contentType exhausted : string.

Hypothesis newRequest_ok :
  http_NewRequest_err X method (DISCORD_API_URL X ++ route) = None.

(** The turn that follows [k] transport failures: the loop is at its
    [k]+1-st attempt, under the read lock, with [k] requests sent. *)
Lemma attempts_reach_turn (k rem : nat) (i : Z) (payload : option Reader)
    (s : State) :
  writer (mu s) = false ->
  (forall j, (j < k)%nat -> exists e, result (network env (doCount s + j)) = inl e) ->
  exists s1 payload1 evs,
    run env (attempts X rest method route contentType exhausted
               (k + S rem) i payload) s
    = match run env (handleRequest X rest method route payload1 contentType)
                (rlocked s1) with
      | Returned (raw, err, finished, payload') s2 =>
          if finished then Returned (raw, err) s2
          else match readers (mu s2) with
               | O => Panicked "sync: RUnlock of unlocked RWMutex" s2
               | S _ =>
                   run env (attempts X rest method route contentType exhausted rem
                              (uint8 (turnIndex k i + 1)) payload')
                       (slept (backoff (uint8 (turnIndex k i + 1))) (runlocked s2))
               end
      | Blocked w s2 => Blocked w s2
      | Panicked msg s2 => Panicked msg s2
      end
    /\ doCount (rlocked s1) = (doCount s + k)%nat
    /\ trace (rlocked s1) = (trace s ++ evs)%list
    /\ List.length (filter isDo evs) = k.
Proof.
  intros Hw Hfail.
  destruct (attempts_skip_failures X rest env method route contentType exhausted
              newRequest_ok k (S rem) i payload s Hw Hfail)
    as [s1 [payload1 [evs [Hrun [Hmu [_ [Hdo [Htr [_ [Hn _]]]]]]]]]].
  exists s1, payload1, (evs ++ [EvRLock])%list.
  split.
  { rewrite Hrun. apply attempts_turn. rewrite Hmu. exact Hw. }
  split; [exact Hdo |].
  split; [cbn; rewrite Htr, <- app_assoc; reflexivity |].
  rewrite filter_app, length_app, Hn. cbn. lia.
Qed.

(** A 204 at that turn ends the call with the [Do] that got it. *)
Lemma attempts_204_at_turn (k rem : nat) (i : Z) (payload : option Reader)
    (s : State) (res : Response) :
  writer (mu s) = false ->
  (forall j, (j < k)%nat -> exists e, result (network env (doCount s + j)) = inl e) ->
  result (network env (doCount s + k)) = inr res ->
  StatusCode res = 204 ->
  exists s' evs rq,
    run env (attempts X rest method route contentType exhausted
               (k + S rem) i payload) s
    = Returned (None, None) s'
    /\ trace s' = (trace s ++ evs ++ [EvDo rq (network env (doCount s + k))])%list
    /\ List.length (filter isDo evs) = k
    /\ doCount s' = S (doCount s + k).
Proof.
  intros Hw Hfail Hres H204.
  destruct (attempts_reach_turn k rem i payload s Hw Hfail)
    as [s1 [payload1 [evs [Hrun [Hdo [Htr Hn]]]]]].
  rewrite (handleRequest_204 X rest env method route contentType payload1
             (rlocked s1) newRequest_ok res) in Hrun;
    [| rewrite Hdo; exact Hres | exact H204].
  eexists. exists evs. eexists. split; [exact Hrun |].
  unfold didDo. cbn [trace log doCount count_do elapse].
  rewrite Htr, Hdo, <- app_assoc.
  split; [reflexivity |]. split; [exact Hn | reflexivity].
Qed.

(** A status that is neither 2xx nor 429 at that turn ends the call after
    the body was read, or could not be read. *)
Lemma attempts_rejected_at_turn (k rem : nat) (i : Z) (payload : option Reader)
    (s : State) (res : Response) :
  writer (mu s) = false ->
  (forall j, (j < k)%nat -> exists e, result (network env (doCount s + j)) = inl e) ->
  result (network env (doCount s + k)) = inr res ->
  StatusCode res <> 429 ->
  StatusCode res < 200 \/ 299 < StatusCode res ->
  exists s' evs rq,
    run env (attempts X rest method route contentType exhausted
               (k + S rem) i payload) s
    = Returned
        (None,
         Some match Body res with
              | inl b => Status res ++ " :: " ++ b
              | inr e => "failed to parse response body (json): " ++ e
              end) s'
    /\ trace s' = (trace s ++ evs
                   ++ [EvDo rq (network env (doCount s + k)); EvReadAll (Body res)])%list
    /\ List.length (filter isDo evs) = k
    /\ doCount s' = S (doCount s + k).
Proof.
  intros Hw Hfail Hres H429 Hout.
  destruct (attempts_reach_turn k rem i payload s Hw Hfail)
    as [s1 [payload1 [evs [Hrun [Hdo [Htr Hn]]]]]].
  destruct (Body res) as [b | e] eqn:Hb.
  - rewrite (handleRequest_rejected X rest env method route contentType payload1
               (rlocked s1) newRequest_ok res b) in Hrun;
      [| rewrite Hdo; exact Hres | exact Hb | exact H429 | exact Hout].
    eexists. exists evs. eexists. split; [exact Hrun |].
    unfold didRead, didDo. cbn [trace log doCount count_do elapse].
    rewrite Htr, Hdo. repeat (rewrite <- app_assoc; cbn [app]).
    split; [reflexivity |]. split; [exact Hn | reflexivity].
  - rewrite (handleRequest_read_error X rest env method route contentType payload1
               (rlocked s1) newRequest_ok res e) in Hrun;
      [| rewrite Hdo; exact Hres | lia | exact Hb].
    eexists. exists evs. eexists. split; [exact Hrun |].
    unfold didRead, didDo. cbn [trace log doCount count_do elapse].
    rewrite Htr, Hdo. repeat (rewrite <- app_assoc; cbn [app]).
    split; [reflexivity |]. split; [exact Hn | reflexivity].
Qed.

End AnswerAtTurn.

(** ** Status 204 *)

(** C9.  Every answer with status 204 ends the call that got it, be it
    [Request] or [RequestWithFiles]: the call returns nil bytes and a nil
    error, and the [Do] that got the answer is the last thing the call did;
    the body is not read and nothing is tried again.  This holds for every
    [Do] of every run, whatever the turn of the loop.  Such an answer is
    got at any turn of either loop: when the call gets as far as its loop
    and the first [k] attempts fail in the transport, [k] below the budget,
    a 204 to the next attempt is the end of the call, after [k] + 1
    requests. *)
Theorem answer_204_ends_call
    (X : Externals) (rest : BaseRestClient) (env : Env) (s : State)
    (method route : string) (jsonPayload : option (Payload X))
    (files : list File) (call : Prog Result) :
  (call = Request X rest method route jsonPayload /\ files = [])
  \/ call = RequestWithFiles X rest method route jsonPayload files ->
  (forall pre rq reply post res,
      trace (outcome_state (run env call s))
      = (trace s ++ pre ++ EvDo rq reply :: post)%list ->
      result reply = inr res ->
      StatusCode res = 204 ->
      post = [] /\ exists s', run env call s = Returned (None, None) s')
  /\ (forall k res,
        reachesLoop X env jsonPayload files = true ->
        writer (mu s) = false ->
        http_NewRequest_err X method (DISCORD_API_URL X ++ route) = None ->
        (k < retries rest)%nat ->
        (forall j, (j < k)%nat ->
                   exists e, result (network env (doCount s + j)) = inl e) ->
        result (network env (doCount s + k)) = inr res ->
        StatusCode res = 204 ->
        exists s' pre rq,
          run env call s = Returned (None, None) s'
          /\ trace s' = (trace s ++ pre ++ [EvDo rq (network env (doCount s + k))])%list
          /\ List.length (filter isDo pre) = k
          /\ doCount s' = S (doCount s + k)).
Proof.
  intros Hcall. split.
  - intros pre rq reply post res Htr Hres H204.
    destruct (call_settles X rest env s method route jsonPayload files call)
      as [evs [Hevs Hall]].
    { destruct Hcall as [[H _] | H]; [left | right]; exact H. }
    rewrite Hevs in Htr. apply app_inv_head in Htr. subst evs.
    apply afterEachDo_split in Hall. unfold settled in Hall.
    rewrite Hres, H204 in Hall. exact Hall.
  - intros k res Hreach Hw Hnr Hk Hfail Hres H204.
    destruct (call_reaches_loop X rest env s method route jsonPayload files call
                Hcall Hreach)
      as [contentType [exhausted [payload [s0 [gate [Hrun [Hg [Hq [Hmu Hdo]]]]]]]]].
    assert (Hsplit : exists rem, retries rest = (k + S rem)%nat)
      by (exists (retries rest - S k)%nat; lia).
    destruct Hsplit as [rem Hrem]. rewrite Hrem in Hrun.
    destruct (attempts_204_at_turn X rest env method route contentType exhausted
                Hnr k rem 0 payload s0 res)
      as [s' [evs [rq [Hend [Htr [Hn Hd]]]]]].
    { rewrite Hmu. exact Hw. }
    { intros j Hj. rewrite Hdo. apply Hfail. exact Hj. }
    { rewrite Hdo. exact Hres. }
    { exact H204. }
    exists s', (gate ++ evs)%list, rq.
    split; [rewrite Hrun; exact Hend |].
    split; [rewrite Htr, Hg, Hdo; repeat rewrite <- app_assoc; reflexivity |].
    split; [rewrite filter_app, length_app, (filter_isDo_quiet gate Hq); exact Hn |].
    rewrite Hd, Hdo. reflexivity.
Qed.

Lemma answer_204_ends_call_witness :
  let env := Demo.firstThen Demo.timedOut (Demo.answer 204 "204 No Content" "") in
  exists s' pre rq,
    run env (RequestWithFiles Demo.X0 Demo.client "POST" "/channels/1/messages"
               (Some Demo.embedsNull) [Demo.picture]) (fresh 1000)
    = Returned (None, None) s'
    /\ trace s' = (trace (fresh 1000) ++ pre
                   ++ [EvDo rq (network env (doCount (fresh 1000) + 1))])%list
    /\ List.length (filter isDo pre) = 1%nat
    /\ doCount s' = S (doCount (fresh 1000) + 1).
Proof.
  cbv zeta.
  apply (proj2 (answer_204_ends_call Demo.X0 Demo.client
                  (Demo.firstThen Demo.timedOut (Demo.answer 204 "204 No Content" ""))
                  (fresh 1000) "POST" "/channels/1/messages"
                  (Some Demo.embedsNull) [Demo.picture]
                  (RequestWithFiles Demo.X0 Demo.client "POST" "/channels/1/messages"
                     (Some Demo.embedsNull) [Demo.picture])
                  (or_intror eq_refl))
               1%nat
               {| StatusCode := 204; Status := "204 No Content"; Body := inl "" |});
    try reflexivity.
  - apply Nat.ltb_lt. reflexivity.
  - intros j Hj. exists "context deadline exceeded".
    destruct j as [| j]; [reflexivity |].
    apply Nat.succ_lt_mono in Hj. inversion Hj.
Defined.

(** ** Statuses outside 2xx other than 429 *)

(** C8 as the specification has it fails on an answer whose body cannot be
    read: the call does end at once, but the error it returns is the read
    error and does not hold the status line. *)
Lemma rejected_unreadable_body_drops_status_line :
  let o := run (Demo.always (Demo3.cutOff 404 "404 Not Found"))
               (Request Demo.X0 Demo.client "GET" "/users/0" None) (fresh 1000) in
  returned o
  = Some (None, Some "failed to parse response body (json): unexpected EOF")
  /\ option_map (carriesStatus "404 Not Found") (returned o) = Some false
  /\ doCount (outcome_state o) = 1%nat.
Proof. vm_compute. repeat split. Qed.

(** C8 (amended).  Every answer with a status that is neither 2xx nor 429
    ends the call that got it, be it [Request] or [RequestWithFiles], at
    whatever turn of the loop it comes: after the [Do] that got the answer
    the call reads the body and does nothing more; it returns nil bytes and
    an error, which is "<status line> :: <body>" when the body could be read
    and the read error, without the status line, when it could not.  Such
    an answer is got at any turn of either loop: when the call gets as far
    as its loop and the first [k] attempts fail in the transport, [k] below
    the budget, the answer to the next attempt ends the call after [k] + 1
    requests. *)
Theorem rejected_answer_ends_call
    (X : Externals) (rest : BaseRestClient) (env : Env) (s : State)
    (method route : string) (jsonPayload : option (Payload X))
    (files : list File) (call : Prog Result) :
  (call = Request X rest method route jsonPayload /\ files = [])
  \/ call = RequestWithFiles X rest method route jsonPayload files ->
  (forall pre rq reply post res,
      trace (outcome_state (run env call s))
      = (trace s ++ pre ++ EvDo rq reply :: post)%list ->
      result reply = inr res ->
      StatusCode res <> 429 ->
      StatusCode res < 200 \/ 299 < StatusCode res ->
      post = [EvReadAll (Body res)]
      /\ exists s',
           run env call s
           = Returned
               (None,
                Some match Body res with
                     | inl b => Status res ++ " :: " ++ b
                     | inr e => "failed to parse response body (json): " ++ e
                     end) s')
  /\ (forall k res,
        reachesLoop X env jsonPayload files = true ->
        writer (mu s) = false ->
        http_NewRequest_err X method (DISCORD_API_URL X ++ route) = None ->
        (k < retries rest)%nat ->
        (forall j, (j < k)%nat ->
                   exists e, result (network env (doCount s + j)) = inl e) ->
        result (network env (doCount s + k)) = inr res ->
        StatusCode res <> 429 ->
        StatusCode res < 200 \/ 299 < StatusCode res ->
        exists s' pre rq,
          run env call s
          = Returned
              (None,
               Some match Body res with
                    | inl b => Status res ++ " :: " ++ b
                    | inr e => "failed to parse response body (json): " ++ e
                    end) s'
          /\ trace s' = (trace s ++ pre
                         ++ [EvDo rq (network env (doCount s + k));
                             EvReadAll (Body res)])%list
          /\ List.length (filter isDo pre) = k
          /\ doCount s' = S (doCount s + k)).
Proof.
  intros Hcall. split.
  - intros pre rq reply post res Htr Hres H429 Hout.
    destruct (call_settles X rest env s method route jsonPayload files call)
      as [evs [Hevs Hall]].
    { destruct Hcall as [[H _] | H]; [left | right]; exact H. }
    rewrite Hevs in Htr. apply app_inv_head in Htr. subst evs.
    apply afterEachDo_split in Hall. unfold settled in Hall.
    rewrite Hres in Hall.
    destruct (Z.eqb_spec (StatusCode res) 204) as [E | _]; [lia |].
    destruct Hall as [Hpost Hend]. split; [exact Hpost |].
    destruct (Body res) as [b | e]; [| exact Hend].
    destruct (Z.eqb_spec (StatusCode res) 429) as [E | _]; [contradiction |].
    replace ((StatusCode res <? 200) || (299 <? StatusCode res)) with true in Hend;
      [exact Hend |].
    symmetry. apply orb_true_iff.
    destruct Hout; [left | right]; apply Z.ltb_lt; assumption.
  - intros k res Hreach Hw Hnr Hk Hfail Hres H429 Hout.
    destruct (call_reaches_loop X rest env s method route jsonPayload files call
                Hcall Hreach)
      as [contentType [exhausted [payload [s0 [gate [Hrun [Hg [Hq [Hmu Hdo]]]]]]]]].
    assert (Hsplit : exists rem, retries rest = (k + S rem)%nat)
      by (exists (retries rest - S k)%nat; lia).
    destruct Hsplit as [rem Hrem]. rewrite Hrem in Hrun.
    destruct (attempts_rejected_at_turn X rest env method route contentType exhausted
                Hnr k rem 0 payload s0 res)
      as [s' [evs [rq [Hend [Htr [Hn Hd]]]]]].
    { rewrite Hmu. exact Hw. }
    { intros j Hj. rewrite Hdo. apply Hfail. exact Hj. }
    { rewrite Hdo. exact Hres. }
    { exact H429. }
    { exact Hout. }
    exists s', (gate ++ evs)%list, rq.
    split; [rewrite Hrun; exact Hend |].
    split; [rewrite Htr, Hg, Hdo; repeat rewrite <- app_assoc; reflexivity |].
    split; [rewrite filter_app, length_app, (filter_isDo_quiet gate Hq); exact Hn |].
    rewrite Hd, Hdo. reflexivity.
Qed.

Lemma rejected_answer_ends_call_witness :
  let env := Demo.firstThen Demo.timedOut (Demo.answer 404 "404 Not Found" "{}") in
  exists s' pre rq,
    run env (Request Demo.X0 Demo.client "GET" "/users/0" None) (fresh 1000)
    = Returned (None, Some "404 Not Found :: {}") s'
    /\ trace s' = (trace (fresh 1000) ++ pre
                   ++ [EvDo rq (network env (doCount (fresh 1000) + 1));
                       EvReadAll (inl "{}")])%list
    /\ List.length (filter isDo pre) = 1%nat
    /\ doCount s' = S (doCount (fresh 1000) + 1).
Proof.
  cbv zeta.
  apply (proj2 (rejected_answer_ends_call Demo.X0 Demo.client
                  (Demo.firstThen Demo.timedOut (Demo.answer 404 "404 Not Found" "{}"))
                  (fresh 1000) "GET" "/users/0" None []
                  (Request Demo.X0 Demo.client "GET" "/users/0" None)
                  (or_introl (conj eq_refl eq_refl)))
               1%nat
               {| StatusCode := 404; Status := "404 Not Found"; Body := inl "{}" |});
    try reflexivity.
  - apply Nat.ltb_lt. reflexivity.
  - intros j Hj. exists "context deadline exceeded".
    destruct j as [| j]; [reflexivity |].
    apply Nat.succ_lt_mono in Hj. inversion Hj.
  - discriminate.
  - right. reflexivity.
Defined.

(* ========================================================================= *)
(** * Properties of client.go *)

Section ClientProperties.

Variable X : Externals.
Variable T : Client.Types X.
Variable h : Client.RestHandler X.
Variable env : Env.

(** [Ping] tells how long the REST call took and nothing else: whatever the
    call returns, bytes or error, [Ping] returns the time that passed, which
    is never negative. *)
Theorem Ping_reports_time_not_outcome (s s1 : State) (r : Result) :
  run env (Client.doRequest h "GET" "/gateway" None) (log (EvNow (now s)) s)
  = Returned r s1 ->
  run env (Client.Ping X h) s
  = Returned (now s1 - now s) (log (EvNow (now s1)) s1)
  /\ 0 <= now s1 - now s.
Proof.
  intros H. split.
  - unfold Client.Ping. cbn [trigger bind run handle].
    rewrite run_bind, H. reflexivity.
  - pose proof (run_clock env (Client.doRequest h "GET" "/gateway" None)
                  (log (EvNow (now s)) s)) as Hc.
    rewrite H in Hc. cbn in Hc. lia.
Qed.

(** [SendMessage] returns a message or an error, never both: with an error
    the message is the zero [Message]; without one it is what the bytes of
    the REST call, returned without error, decode to. *)
Theorem SendMessage_message_or_error
    (s s' : State) (channelID : Client.Snowflake T) (message : Client.Message T)
    (files : list File) (msg : Client.Message T) (err : option string) :
  run env (Client.SendMessage X T h channelID message files) s
  = Returned (msg, err) s' ->
  (err = None
   /\ exists raw,
        run env (Client.doRequestWithFiles h "POST"
                   ("/channels/" ++ Client.SnowflakeString T channelID ++ "/messages")
                   (Some (Client.messagePayload T message)) files) s
        = Returned (raw, None) s'
        /\ Client.decodeMessage T raw = Some msg)
  \/ (err <> None /\ msg = Client.emptyMessage T).
Proof.
  unfold Client.SendMessage. rewrite run_bind.
  destruct (run env _ s) as [[raw e] s1 | w s1 | m s1]; try discriminate.
  cbn [fst snd]. destruct e as [e |].
  - cbn. intros H. injection H as <- <- <-. right. split; [discriminate | reflexivity].
  - destruct (Client.decodeMessage T raw) as [res |] eqn:Hd; cbn; intros H;
      injection H as <- <- <-.
    + left. split; [reflexivity |]. exists raw. split; [reflexivity | exact Hd].
    + right. split; [discriminate | reflexivity].
Qed.

Lemma mapGet_fold_absent (k : string) (members : list (string * Client.Any)) :
  forall m,
    (forall v, ~ In (k, v) members) ->
    Client.mapGet k (fold_left (fun m kv => Client.mapSet (fst kv) (snd kv) m) members m)
    = Client.mapGet k m.
Proof.
  induction members as [| [k' v'] members IH]; intros m H; [reflexivity |].
  cbn [fold_left fst snd]. rewrite IH.
  - cbn. destruct (String.eqb_spec k k') as [-> | _]; [| reflexivity].
    exfalso. apply (H v'). left. reflexivity.
  - intros v Hin. apply (H v). right. exact Hin.
Qed.

(** [SendPrivateMessage] panics when the answer to the channel request
    decodes to an object without a member "id": the type assertion
    [res["id"].(string)] has no second result to report the miss. *)
Theorem SendPrivateMessage_panics_without_id
    (s s1 : State) (userID : Client.Snowflake T) (content : Client.Message T)
    (files : list File) (raw : option string)
    (members : list (string * Client.Any)) :
  run env (Client.doRequest h "POST" "/users/@me/channels"
             (Some (Client.recipientPayload T userID))) s
  = Returned (raw, None) s1 ->
  Client.decodeObject T raw = Some members ->
  (forall v, ~ In ("id", v) members) ->
  run env (Client.SendPrivateMessage X T h userID content files) s
  = Panicked "interface conversion: interface {} is nil, not string" s1.
Proof.
  intros Hrun Hdec Hno. unfold Client.SendPrivateMessage.
  rewrite run_bind, Hrun. cbn [fst snd]. rewrite Hdec.
  rewrite (mapGet_fold_absent "id" members _ Hno). reflexivity.
Qed.

(** When the channel was obtained and sending into it fails,
    [SendPrivateMessage] returns the error together with a message that is
    not the zero [Message]: it carries the channel. *)
Theorem SendPrivateMessage_failure_keeps_channel
    (s s1 s2 : State) (userID channelID : Client.Snowflake T)
    (content : Client.Message T) (files : list File) (raw raw2 : option string)
    (members : list (string * Client.Any)) (id e : string) :
  run env (Client.doRequest h "POST" "/users/@me/channels"
             (Some (Client.recipientPayload T userID))) s
  = Returned (raw, None) s1 ->
  Client.decodeObject T raw = Some members ->
  Client.mapGet "id"
    (fold_left (fun m kv => Client.mapSet (fst kv) (snd kv) m) members
       (Client.mapSet "recipient_id" (Client.AnyOther "ashara.Snowflake") []))
  = Some (Client.AnyString id) ->
  Client.StringToSnowflake T id = inl channelID ->
  run env (Client.doRequestWithFiles h "POST"
             ("/channels/" ++ Client.SnowflakeString T channelID ++ "/messages")
             (Some (Client.messagePayload T content)) files) s1
  = Returned (raw2, Some e) s2 ->
  run env (Client.SendPrivateMessage X T h userID content files) s
  = Returned (Client.setChannelID T channelID (Client.emptyMessage T), Some e) s2.
Proof.
  intros Hrun Hdec Hid Hsf Hsend. unfold Client.SendPrivateMessage.
  rewrite run_bind, Hrun. cbn [fst snd]. rewrite Hdec, Hid, Hsf.
  rewrite run_bind. unfold Client.SendMessage. rewrite run_bind, Hsend.
  reflexivity.
Qed.

End ClientProperties.

Section BaseClientProperties.

Variable X : Externals.
Variable T : Client.Types X.
Variable rest : BaseRestClient.
Variable env : Env.

(** With the handler of rest.go, [SendMessage] and [SendLinearMessage]
    never panic, with attachments or without: the payload they hand over is
    never nil. *)
Theorem SendMessage_never_panics
    (s : State) (channelID : Client.Snowflake T) (message : Client.Message T)
    (files : list File) (content : string) :
  panicked (run env (Client.SendMessage X T (Client.BaseRestHandler X rest) channelID message files) s) = false
  /\ panicked (run env (Client.SendLinearMessage X T (Client.BaseRestHandler X rest) channelID content) s) = false.
Proof.
  assert (H : forall m fs,
             panicked (run env (Client.SendMessage X T (Client.BaseRestHandler X rest) channelID m fs) s) = false).
  { intros m fs. unfold Client.SendMessage. rewrite run_bind.
    pose proof (RequestWithFiles_no_panic X rest env s "POST"
                  ("/channels/" ++ Client.SnowflakeString T channelID ++ "/messages")
                  (Client.messagePayload T m) fs) as Hp.
    cbn [Client.doRequestWithFiles Client.BaseRestHandler].
    destruct (run env (RequestWithFiles X rest _ _ _ _) s) as [[raw e] s1 | w s1 | msg s1];
      [| reflexivity | discriminate].
    cbn [fst snd]. destruct e; [reflexivity |].
    destruct (Client.decodeMessage T raw); reflexivity. }
  split; [apply H | apply H].
Qed.

(** [Ping] does not return when its request is answered 429: the REST call
    stops at [rest.mu.Lock()], and [Ping] with it. *)
Theorem Ping_never_returns_on_429
    (s : State) (res : Response) (b : string) :
  0 < uint8 (MaxRetries rest) ->
  writer (mu s) = false ->
  http_NewRequest_err X "GET" (DISCORD_API_URL X ++ "/gateway") = None ->
  result (network env (doCount s)) = inr res ->
  StatusCode res = 429 ->
  Body res = inl b ->
  exists s', run env (Client.Ping X (Client.BaseRestHandler X rest)) s = Blocked WaitLock s'
             /\ lockedTo s' = lockedTo s.
Proof.
  intros Hpos Hw Hnr Hres H429 Hb.
  unfold Client.Ping. cbn [trigger bind run handle]. rewrite run_bind.
  cbn [Client.doRequest Client.BaseRestHandler].
  rewrite (Request_429_run X rest env "GET" "/gateway" None None
             (log (EvNow (now s)) s) res b Hpos Hw eq_refl Hnr Hres H429 Hb).
  eexists. split; [reflexivity |].
  apply (stoppedAt_lockedTo X rest env "GET" "/gateway" None (log (EvNow (now s)) s) b).
Qed.

(** [DeleteMessage] answered 204 returns a nil error after one request:
    a DELETE without body to /channels/<channel>/messages/<message> under
    the base URL. *)
Theorem DeleteMessage_204
    (s : State) (channelID messageID : Client.Snowflake T) (res : Response) :
  0 < uint8 (MaxRetries rest) ->
  writer (mu s) = false ->
  http_NewRequest_err X "DELETE"
    (DISCORD_API_URL X
     ++ ("/channels/" ++ Client.SnowflakeString T channelID ++ "/messages/"
         ++ Client.SnowflakeString T messageID)) = None ->
  result (network env (doCount s)) = inr res ->
  StatusCode res = 204 ->
  exists s',
    run env (Client.DeleteMessage X T (Client.BaseRestHandler X rest) channelID messageID) s = Returned None s'
    /\ trace s'
       = (trace (afterAwait s)
          ++ [EvRLock;
              EvDo {| rqMethod := "DELETE";
                      rqURL := DISCORD_API_URL X
                               ++ ("/channels/" ++ Client.SnowflakeString T channelID
                                   ++ "/messages/"
                                   ++ Client.SnowflakeString T messageID);
                      rqHeader := [("Content-Type", CONTENT_TYPE_JSON X);
                                   ("User-Agent", USER_AGENT X);
                                   ("Authorization", Token rest)];
                      rqBody := None |}
                   (network env (doCount s))])%list.
Proof.
  intros Hpos Hw Hnr Hres H204.
  destruct (retries_pos rest Hpos) as [rem Hrem].
  unfold Client.DeleteMessage. rewrite run_bind.
  cbn [Client.doRequest Client.BaseRestHandler].
  rewrite (run_Request X rest env "DELETE" _ None None s eq_refl), Hrem.
  rewrite attempts_turn by (rewrite afterAwait_mu; exact Hw).
  rewrite (handleRequest_204 X rest env "DELETE" _ (CONTENT_TYPE_JSON X) None
             (rlocked (afterAwait s)) Hnr res);
    [| cbn; rewrite afterAwait_doCount; exact Hres | exact H204].
  eexists. split; [reflexivity |].
  cbn. rewrite afterAwait_doCount. rewrite <- app_assoc. reflexivity.
Qed.

End BaseClientProperties.

Lemma Ping_reports_time_not_outcome_witness :
  let env := Demo.always (Demo.answer 404 "404 Not Found" "{}") in
  let s1 := outcome_state
              (run env (Client.doRequest DemoClient.h0 "GET" "/gateway" None)
                   (log (EvNow (now (fresh 1000))) (fresh 1000))) in
  run env (Client.Ping Demo.X0 DemoClient.h0) (fresh 1000)
  = Returned (now s1 - now (fresh 1000)) (log (EvNow (now s1)) s1)
  /\ 0 <= now s1 - now (fresh 1000).
Proof.
  cbv zeta.
  apply (Ping_reports_time_not_outcome Demo.X0 DemoClient.h0
           (Demo.always (Demo.answer 404 "404 Not Found" "{}")) (fresh 1000) _
           (None, Some "404 Not Found :: {}")).
  reflexivity.
Defined.

Lemma SendMessage_message_or_error_witness :
  let env := Demo.always (Demo.answer 404 "404 Not Found" "{}") in
  let s' := outcome_state
              (run env (Client.SendMessage Demo.X0 DemoClient.T0 DemoClient.h0
                          7%nat ("hello", 0%nat) []) (fresh 1000)) in
  (Some "404 Not Found :: {}" = None
   /\ exists raw,
        run env (Client.doRequestWithFiles DemoClient.h0 "POST"
                   ("/channels/" ++ Client.SnowflakeString DemoClient.T0 7%nat
                    ++ "/messages")
                   (Some (Client.messagePayload DemoClient.T0 ("hello", 0%nat))) [])
            (fresh 1000)
        = Returned (raw, None) s'
        /\ Client.decodeMessage DemoClient.T0 raw = Some ("", 0%nat))
  \/ (Some "404 Not Found :: {}" <> None
      /\ ("", 0%nat) = Client.emptyMessage DemoClient.T0).
Proof.
  cbv zeta.
  apply (SendMessage_message_or_error Demo.X0 DemoClient.T0 DemoClient.h0
           (Demo.always (Demo.answer 404 "404 Not Found" "{}")) (fresh 1000) _
           7%nat ("hello", 0%nat) [] ("", 0%nat) (Some "404 Not Found :: {}")).
  reflexivity.
Defined.

Lemma SendPrivateMessage_panics_without_id_witness :
  let env := Demo.always (Demo.answer 200 "200 OK" "{}") in
  let s1 := outcome_state
              (run env (Client.doRequest DemoClient.h0 "POST" "/users/@me/channels"
                          (Some (Client.recipientPayload DemoClient.T0 42%nat)))
                   (fresh 1000)) in
  run env (Client.SendPrivateMessage Demo.X0 DemoClient.T0 DemoClient.h0 42%nat
             ("hello", 0%nat) []) (fresh 1000)
  = Panicked "interface conversion: interface {} is nil, not string" s1.
Proof.
  cbv zeta.
  apply (SendPrivateMessage_panics_without_id Demo.X0 DemoClient.T0 DemoClient.h0
           (Demo.always (Demo.answer 200 "200 OK" "{}")) (fresh 1000) _ 42%nat
           ("hello", 0%nat) [] (Some "{}") []).
  - reflexivity.
  - reflexivity.
  - intros v H. exact H.
Defined.

Lemma SendPrivateMessage_failure_keeps_channel_witness :
  let env := Demo.firstThen (Demo.answer 200 "200 OK" DemoClient.channelBody)
                            (Demo.answer 403 "403 Forbidden" "{}") in
  let s2 := outcome_state
              (run env (Client.SendPrivateMessage Demo.X0 DemoClient.T0 DemoClient.h0
                          42%nat ("hello", 0%nat) []) (fresh 1000)) in
  run env (Client.SendPrivateMessage Demo.X0 DemoClient.T0 DemoClient.h0 42%nat
             ("hello", 0%nat) []) (fresh 1000)
  = Returned (Client.setChannelID DemoClient.T0 123%nat
                (Client.emptyMessage DemoClient.T0),
              Some "403 Forbidden :: {}") s2.
Proof.
  cbv zeta.
  apply (SendPrivateMessage_failure_keeps_channel Demo.X0 DemoClient.T0 DemoClient.h0
           (Demo.firstThen (Demo.answer 200 "200 OK" DemoClient.channelBody)
                           (Demo.answer 403 "403 Forbidden" "{}"))
           (fresh 1000)
           (outcome_state
              (run (Demo.firstThen (Demo.answer 200 "200 OK" DemoClient.channelBody)
                                   (Demo.answer 403 "403 Forbidden" "{}"))
                   (Client.doRequest DemoClient.h0 "POST" "/users/@me/channels"
                      (Some (Client.recipientPayload DemoClient.T0 42%nat)))
                   (fresh 1000)))
           _ 42%nat 123%nat ("hello", 0%nat) [] (Some DemoClient.channelBody) None
           [("id", Client.AnyString "123")] "123" "403 Forbidden :: {}");
    reflexivity.
Defined.

Lemma Ping_never_returns_on_429_witness :
  exists s',
    run (Demo.always (Demo.answer 429 "429 Too Many Requests" Demo.rateBody))
        (Client.Ping Demo.X0 (Client.BaseRestHandler Demo.X0 Demo.client))
        (fresh 1000)
    = Blocked WaitLock s'
    /\ lockedTo s' = lockedTo (fresh 1000).
Proof.
  apply (Ping_never_returns_on_429 Demo.X0 Demo.client
           (Demo.always (Demo.answer 429 "429 Too Many Requests" Demo.rateBody))
           (fresh 1000)
           {| StatusCode := 429; Status := "429 Too Many Requests";
              Body := inl Demo.rateBody |} Demo.rateBody);
    reflexivity.
Defined.

Lemma DeleteMessage_204_witness :
  exists s',
    run (Demo.always (Demo.answer 204 "204 No Content" ""))
        (Client.DeleteMessage Demo.X0 DemoClient.T0
           (Client.BaseRestHandler Demo.X0 Demo.client) 7%nat 9%nat) (fresh 1000)
    = Returned None s'
    /\ trace s'
       = (trace (afterAwait (fresh 1000))
          ++ [EvRLock;
              EvDo {| rqMethod := "DELETE";
                      rqURL := "https://discord.com/api/v10"
                               ++ ("/channels/" ++ "7" ++ "/messages/" ++ "9");
                      rqHeader := [("Content-Type", "application/json");
                                   ("User-Agent", "DiscordApp");
                                   ("Authorization", "Bot token")];
                      rqBody := None |}
                   (Demo.answer 204 "204 No Content" "")])%list.
Proof.
  apply (DeleteMessage_204 Demo.X0 DemoClient.T0 Demo.client
           (Demo.always (Demo.answer 204 "204 No Content" "")) (fresh 1000)
           7%nat 9%nat
           {| StatusCode := 204; Status := "204 No Content"; Body := inl "" |});
    reflexivity.
Defined.
